(** * tghsx-frontend: the transaction workflow, the dashboard refresh,
      the history pagination and the display formatters

    A shallow embedding of the JavaScript sources

      - [src/pages/DashboardPage.js]          (module [DashboardPage])
      - the two further copies of the dashboard (modules [Part001] and
        [Part002], after the files [part_001] and [part_002])
      - [src/pages/TransactionHistoryPage.js] (module [TransactionHistoryPage];
        the mock data, the effects and [PaginationControls] in module
        [TransactionHistoryView])
      - the wallet connection and the top of the render of [App] (modules
        [Wallet], [DashboardApp] and [Part002App])

    Asynchronous code is embedded in a small state-and-exception monad: the
    state carries the React state of the component and the chronological
    list of observable events (contract calls, confirmations, backend
    requests, refresh callbacks); the answers of the wallet and the chain
    are read from a [Provider], those of the REST backend from a
    [Backend]. *)

From Stdlib Require Import String Ascii ZArith NArith List Bool Lia.
From Stdlib Require Import DecimalString.
From Stdlib Require DecimalFacts DecimalN.
Import ListNotations.
Local Open Scope string_scope.
Local Open Scope Z_scope.

(* ===================================================================== *)
(** ** JavaScript strings *)
(* ===================================================================== *)

(** A JavaScript string is modelled as a [string] of code units below 256. *)
Module JsString.

Definition isDigit (c : ascii) : bool :=
  ((48 <=? N_of_ascii c) && (N_of_ascii c <=? 57))%N.

Definition digitVal (c : ascii) : N := (N_of_ascii c - 48)%N.

(** [StrWhiteSpaceChar] restricted to code units below 256: TAB, LF, VT,
    FF, CR, SP and NBSP. *)
Definition isWhiteSpace (c : ascii) : bool :=
  let n := N_of_ascii c in
  ((9 <=? n) && (n <=? 13) || (n =? 32) || (n =? 160))%N.

Fixpoint trimStart (s : string) : string :=
  match s with
  | String c r => if isWhiteSpace c then trimStart r else s
  | EmptyString => EmptyString
  end.

Fixpoint rev_acc (s acc : string) : string :=
  match s with
  | EmptyString => acc
  | String c r => rev_acc r (String c acc)
  end.

Definition rev (s : string) : string := rev_acc s EmptyString.

Definition trimEnd (s : string) : string := rev (trimStart (rev s)).

Definition trim (s : string) : string := trimEnd (trimStart s).

(** [needle] is a prefix of [s]. *)
Fixpoint startsWith (needle s : string) : bool :=
  match needle, s with
  | EmptyString, _ => true
  | String a n', String b s' => Ascii.eqb a b && startsWith n' s'
  | String _ _, EmptyString => false
  end.

(** [String.prototype.includes]. *)
Fixpoint includes (needle s : string) : bool :=
  startsWith needle s ||
  match s with
  | EmptyString => false
  | String _ r => includes needle r
  end.

(** Drop the first [n] code units. *)
Fixpoint drop (n : nat) (s : string) : string :=
  match n, s with
  | O, _ => s
  | S k, String _ r => drop k r
  | S _, EmptyString => EmptyString
  end.

(** The longest prefix of code units satisfying [p], and what follows. *)
Fixpoint span (p : ascii -> bool) (s : string) : string * string :=
  match s with
  | String c r =>
      if p c then let '(a, b) := span p r in (String c a, b)
      else (EmptyString, s)
  | EmptyString => (EmptyString, EmptyString)
  end.

Fixpoint all (p : ascii -> bool) (s : string) : bool :=
  match s with
  | String c r => p c && all p r
  | EmptyString => true
  end.

(** The value of a string of digits in base [base], most significant
    first, on top of the accumulator [acc]. *)
Fixpoint digitsFrom (base : N) (val : ascii -> N) (s : string) (acc : N) : N :=
  match s with
  | String c r => digitsFrom base val r (acc * base + val c)%N
  | EmptyString => acc
  end.

Definition decimalValue (s : string) : N := digitsFrom 10 digitVal s 0.

(** Decimal numeral of a natural number ([BigNumber.prototype.toString],
    [Number.prototype.toString] on safe integers). *)
Definition ofN (n : N) : string := NilZero.string_of_uint (N.to_uint n).

Definition ofZ (z : Z) : string :=
  if z <? 0 then "-" ++ ofN (Z.to_N (- z)) else ofN (Z.to_N z).

Fixpoint repeat (c : ascii) (n : nat) : string :=
  match n with
  | O => EmptyString
  | S k => String c (repeat c k)
  end.

End JsString.

(* ===================================================================== *)
(** ** Numbers read from strings: [parseFloat] and [Number] *)
(* ===================================================================== *)

Module JsNumber.
Import JsString.

(** The result of reading a numeric string.  [Decimal neg m e] stands for
    the Number value (IEEE double, round to nearest, ties to even) of the
    decimal [(-1)^neg * m * 10^e]; the tests the sources apply to it
    ([isNaN], [<= 0]) are decided on this exact description. *)
Inductive Num : Type :=
| NaN
| Infinity (neg : bool)
| Decimal (neg : bool) (m : N) (e : Z).

Definition isNaN (x : Num) : bool :=
  match x with NaN => true | _ => false end.

(** A non-negative decimal [m * 10^e] rounds to the double [+0] exactly
    when it is at most [2^-1075], half of the least subnormal (the tie
    goes to the even neighbour, which is zero). *)
Definition roundsToZero (m : N) (e : Z) : bool :=
  if (m =? 0)%N then true
  else if 0 <=? e then false
  else Z.of_N m * 2 ^ 1075 <=? 10 ^ (- e).

(** [x <= 0] in JavaScript: false on [NaN], true on [-0] and on every
    negative value. *)
Definition le0 (x : Num) : bool :=
  match x with
  | NaN => false
  | Infinity neg => neg
  | Decimal neg m e => neg || roundsToZero m e
  end.

(** [ExponentPart] at the head of [s]: [e] or [E], an optional sign and at
    least one digit.  Returns the exponent and the rest, or [None] when the
    head of [s] is no complete exponent part. *)
Definition scanExponent (s : string) : option (Z * string) :=
  match s with
  | String c r =>
      if Ascii.eqb c "e" || Ascii.eqb c "E" then
        let '(neg, r1) :=
          match r with
          | String "+" r' => (false, r')
          | String "-" r' => (true, r')
          | _ => (false, r)
          end in
        let '(ds, r2) := span isDigit r1 in
        match ds with
        | EmptyString => None
        | _ => let v := Z.of_N (decimalValue ds) in
               Some (if neg then - v else v, r2)
        end
      else None
  | EmptyString => None
  end.

Definition withExponent (neg : bool) (m : N) (e : Z) (s : string)
  : Num * string :=
  match scanExponent s with
  | Some (x, r) => (Decimal neg m (e + x), r)
  | None => (Decimal neg m e, s)
  end.

(** The longest prefix of [s] that is a [StrUnsignedDecimalLiteral], read
    with sign [neg], and the rest of [s]. *)
Definition scanUnsigned (neg : bool) (s : string) : option (Num * string) :=
  if startsWith "Infinity" s then Some (Infinity neg, drop 8 s)
  else
    let '(ip, r1) := span isDigit s in
    match r1 with
    | String "." r1' =>
        let '(fp, r2) := span isDigit r1' in
        match ip, fp with
        | EmptyString, EmptyString => None
        | _, EmptyString =>
            Some (withExponent neg (decimalValue ip) 0 r2)
        | _, _ =>
            Some (withExponent neg (decimalValue (ip ++ fp))
                    (- Z.of_nat (String.length fp)) r2)
        end
    | _ =>
        match ip with
        | EmptyString => None
        | _ => Some (withExponent neg (decimalValue ip) 0 r1)
        end
    end.

(** The longest prefix of [s] that is a [StrDecimalLiteral]. *)
Definition scanDecimal (s : string) : option (Num * string) :=
  match s with
  | String "+" r => scanUnsigned false r
  | String "-" r => scanUnsigned true r
  | _ => scanUnsigned false s
  end.

(** [parseFloat(s)] for a string [s]. *)
Definition parseFloat (s : string) : Num :=
  match scanDecimal (trimStart s) with
  | Some (x, _) => x
  | None => NaN
  end.

Definition isHexDigit (c : ascii) : bool :=
  let n := N_of_ascii c in
  (isDigit c || (65 <=? n) && (n <=? 70) || (97 <=? n) && (n <=? 102))%N.

Definition hexVal (c : ascii) : N :=
  let n := N_of_ascii c in
  (if isDigit c then n - 48 else if n <=? 70 then n - 55 else n - 87)%N.

Definition isOctalDigit (c : ascii) : bool :=
  ((48 <=? N_of_ascii c) && (N_of_ascii c <=? 55))%N.

Definition isBinaryDigit (c : ascii) : bool :=
  ((48 <=? N_of_ascii c) && (N_of_ascii c <=? 49))%N.

(** [NonDecimalIntegerLiteral]: [0x], [0o] or [0b] and at least one digit
    of that base, nothing else. *)
Definition scanNonDecimal (s : string) : option Num :=
  match s with
  | String "0" (String k (String d r)) =>
      let body := String d r in
      if (Ascii.eqb k "x" || Ascii.eqb k "X") && all isHexDigit body
      then Some (Decimal false (digitsFrom 16 hexVal body 0) 0)
      else if (Ascii.eqb k "o" || Ascii.eqb k "O") && all isOctalDigit body
      then Some (Decimal false (digitsFrom 8 digitVal body 0) 0)
      else if (Ascii.eqb k "b" || Ascii.eqb k "B") && all isBinaryDigit body
      then Some (Decimal false (digitsFrom 2 digitVal body 0) 0)
      else None
  | _ => None
  end.

(** [Number(s)] for a string [s] ([StringToNumber]): white space is
    trimmed on both sides, the empty string is [+0], and the whole of what
    is left has to be one numeric literal. *)
Definition Number (s : string) : Num :=
  match trim s with
  | EmptyString => Decimal false 0 0
  | t =>
      match scanDecimal t with
      | Some (x, EmptyString) => x
      | _ =>
          match scanNonDecimal t with
          | Some x => x
          | None => NaN
          end
      end
  end.

End JsNumber.

(* ===================================================================== *)
(** ** JavaScript values *)
(* ===================================================================== *)

Module JsValue.
Import JsString.

(** The values that cross the boundary with the wallet, the chain and the
    backend: rejection reasons, decoded JSON bodies, React status fields.
    Numbers are the integral ones (JSON-RPC error codes, lengths).
    [JObj] lists the own enumerable properties in enumeration order;
    [JErr name message props] is an [Error] instance: [message] is an own
    property that is not enumerable, [props] are the enumerable ones that
    were assigned to it.  Values are finite trees of data: no cycles, no
    getters, no [toJSON]. *)
#[warnings="-register-all"]
Inductive JsVal : Type :=
| JUndefined
| JNull
| JBool (b : bool)
| JNum (n : Z)
| JStr (s : string)
| JObj (props : list (string * JsVal))
| JArr (items : list JsVal)
| JErr (name message : string) (props : list (string * JsVal)).

(** [ToBoolean]. *)
Definition truthy (v : JsVal) : bool :=
  match v with
  | JUndefined | JNull => false
  | JBool b => b
  | JNum n => negb (n =? 0)
  | JStr s => negb (String.eqb s "")
  | JObj _ | JArr _ | JErr _ _ _ => true
  end.

Fixpoint lookup (k : string) (props : list (string * JsVal)) : JsVal :=
  match props with
  | [] => JUndefined
  | (k', v) :: r => if String.eqb k k' then v else lookup k r
  end.

(** [v.k] for a data property name [k]; [None] is the [TypeError] of a
    property read on [undefined] or [null].  Methods inherited from the
    prototypes are not part of the model. *)
Definition getProp (v : JsVal) (k : string) : option JsVal :=
  match v with
  | JUndefined | JNull => None
  | JBool _ | JNum _ => Some JUndefined
  | JStr s =>
      Some (if String.eqb k "length" then JNum (Z.of_nat (String.length s))
            else JUndefined)
  | JObj props => Some (lookup k props)
  | JArr items =>
      Some (if String.eqb k "length" then JNum (Z.of_nat (List.length items))
            else JUndefined)
  | JErr name message props =>
      Some (if String.eqb k "message" then JStr message
            else if String.eqb k "name" then JStr name
            else lookup k props)
  end.

(** [v?.k]. *)
Definition getPropOpt (v : JsVal) (k : string) : JsVal :=
  match getProp v k with
  | Some x => x
  | None => JUndefined
  end.

(** [a || b]. *)
Definition or (a b : JsVal) : JsVal := if truthy a then a else b.

(** [ToString], as a template literal and [new Error(v)] apply it. *)
Fixpoint toString (v : JsVal) : string :=
  match v with
  | JUndefined => "undefined"
  | JNull => "null"
  | JBool b => if b then "true" else "false"
  | JNum n => ofZ n
  | JStr s => s
  | JObj _ => "[object Object]"
  | JArr items =>
      (fix join (l : list JsVal) (first : bool) : string :=
         match l with
         | [] => ""
         | x :: r =>
             (if first then "" else ",") ++
             match x with
             | JUndefined | JNull => ""
             | _ => toString x
             end ++ join r false
         end) items true
  | JErr name message _ =>
      if String.eqb name "" then message
      else if String.eqb message "" then name
      else name ++ ": " ++ message
  end.

Definition dquote : ascii := ascii_of_N 34.
Definition bslash : ascii := ascii_of_N 92.

Definition hexDigit (n : N) : ascii :=
  ascii_of_N (if (n <? 10)%N then 48 + n else 87 + n)%N.

(** [QuoteJSONString], without the surrounding quotes. *)
Fixpoint escape (s : string) : string :=
  match s with
  | EmptyString => EmptyString
  | String c r =>
      let n := N_of_ascii c in
      (if (n =? 34)%N then String bslash (String dquote "")
       else if (n =? 92)%N then String bslash (String bslash "")
       else if (n =? 8)%N then String bslash "b"
       else if (n =? 12)%N then String bslash "f"
       else if (n =? 10)%N then String bslash "n"
       else if (n =? 13)%N then String bslash "r"
       else if (n =? 9)%N then String bslash "t"
       else if (n <? 32)%N then
         String bslash
           ("u00" ++ String (hexDigit (n / 16)) (String (hexDigit (n mod 16)) ""))
       else String c "") ++ escape r
  end.

Definition quote (s : string) : string :=
  String dquote (escape s) ++ String dquote "".

(** [JSON.stringify(v)]; [None] is the result [undefined]. *)
Fixpoint stringify (v : JsVal) : option string :=
  let members :=
    fix members (ps : list (string * JsVal)) (first : bool) : string :=
      match ps with
      | [] => ""
      | (k, x) :: r =>
          match stringify x with
          | None => members r first
          | Some t =>
              (if first then "" else ",") ++ quote k ++ ":" ++ t
              ++ members r false
          end
      end in
  match v with
  | JUndefined => None
  | JNull => Some "null"
  | JBool b => Some (if b then "true" else "false")
  | JNum n => Some (ofZ n)
  | JStr s => Some (quote s)
  | JObj props => Some ("{" ++ members props true ++ "}")
  | JErr _ _ props => Some ("{" ++ members props true ++ "}")
  | JArr items =>
      Some ("[" ++
            (fix elems (l : list JsVal) (first : bool) : string :=
               match l with
               | [] => ""
               | x :: r =>
                   (if first then "" else ",") ++
                   match stringify x with
                   | None => "null"
                   | Some t => t
                   end ++ elems r false
               end) items true
            ++ "]")
  end.

(** [v === s] and [v === n] against a string or a number literal. *)
Definition strictEqStr (v : JsVal) (s : string) : bool :=
  match v with JStr t => String.eqb t s | _ => false end.

Definition strictEqNum (v : JsVal) (n : Z) : bool :=
  match v with JNum m => m =? n | _ => false end.

(** A computation that completes normally or throws. *)
Inductive Completion (A : Type) : Type :=
| Normal (a : A)
| Throw (e : JsVal).
Arguments Normal {A} a.
Arguments Throw {A} e.

End JsValue.

Import JsValue.

(* ===================================================================== *)
(** ** The parts of ethers 5.7.2 the sources call *)
(* ===================================================================== *)

(** The sources import [ethers@5.7.2]; [parseUnits], [formatUnits] and the
    errors they throw are embedded from that release
    ([@ethersproject/bignumber] [fixednumber.ts], [@ethersproject/units],
    [@ethersproject/logger]).  A [BigNumber] is an integer. *)
Module Ethers.
Import JsString.

Definition version : string := "bignumber/5.7.0".

Fixpoint joinWith (sep : string) (l : list string) : string :=
  match l with
  | [] => ""
  | [x] => x
  | x :: r => x ++ sep ++ joinWith sep r
  end.

Definition detail (kv : string * JsVal) : string :=
  fst kv ++ "=" ++
  match stringify (snd kv) with Some t => t | None => "undefined" end.

(** [Logger.makeError]: an [Error] whose enumerable properties are
    [reason], [code] and the parameters. *)
Definition makeError (reason code : string) (params : list (string * JsVal))
  : JsVal :=
  let url :=
    if String.eqb code "NUMERIC_FAULT"
    then " [ See: https://links.ethers.org/v5-errors-NUMERIC_FAULT ]"
    else "" in
  JErr "Error"
    (reason ++ url ++ " (" ++
       joinWith ", " (map detail params ++ ["code=" ++ code; "version=" ++ version])
     ++ ")")
    (("reason", JStr reason) :: ("code", JStr code) :: params).

Definition throwArgumentError {A} (message name : string) (value : JsVal)
  : Completion A :=
  Throw (makeError message "INVALID_ARGUMENT"
           [("argument", JStr name); ("value", value)]).

Definition throwFault {A} (message fault operation : string) : Completion A :=
  Throw (makeError message "NUMERIC_FAULT"
           [("fault", JStr fault); ("operation", JStr operation)]).

(** [getMultiplier(decimals)], returned as the number of zeros of the
    multiplier [10^decimals]. *)
Definition getMultiplier (decimals : Z) : Completion nat :=
  if (0 <=? decimals) && (decimals <=? 256) then Normal (Z.to_nat decimals)
  else throwArgumentError "invalid decimal size" "decimals" (JNum decimals).

Definition isDigitOrDot (c : ascii) : bool :=
  isDigit c || Ascii.eqb c ".".

(** [value.match(/^-?[0-9.]+$/)]. *)
Definition matchesDecimal (value : string) : bool :=
  let body := match value with String "-" r => r | _ => value end in
  negb (String.eqb body "") && all isDigitOrDot body.

(** Remove the zeros at the end of a string of digits. *)
Fixpoint trimTrailingZeros (s : string) : string :=
  match s with
  | EmptyString => EmptyString
  | String c r =>
      match trimTrailingZeros r with
      | EmptyString => if Ascii.eqb c "0" then EmptyString else String c EmptyString
      | r' => String c r'
      end
  end.

Definition notDot (c : ascii) : bool := negb (Ascii.eqb c ".").

(** [parseFixed(value, decimals)]. *)
Definition parseFixed (value : string) (decimals : Z) : Completion Z :=
  match getMultiplier decimals with
  | Throw e => Throw e
  | Normal zeros =>
      if negb (matchesDecimal value)
      then throwArgumentError "invalid decimal value" "value" (JStr value)
      else
        let negative := startsWith "-" value in
        let value := if negative then drop 1 value else value in
        if String.eqb value "."
        then throwArgumentError "missing value" "value" (JStr value)
        else
          (* comps = value.split(".") *)
          let '(comp0, r) := span notDot value in
          let comps1 := match r with String _ r' => Some r' | EmptyString => None end in
          let tooMany :=
            match comps1 with
            | Some r' => negb (all notDot r')
            | None => false
            end in
          if tooMany
          then throwArgumentError "too many decimal points" "value" (JStr value)
          else
            let whole := if String.eqb comp0 "" then "0" else comp0 in
            let fraction :=
              match comps1 with
              | Some f => if String.eqb f "" then "0" else f
              | None => "0"
              end in
            let fraction := trimTrailingZeros fraction in
            if (zeros <? String.length fraction)%nat
            then throwFault "fractional component exceeds decimals"
                   "underflow" "parseFixed"
            else
              let fraction := if String.eqb fraction "" then "0" else fraction in
              let fraction :=
                fraction ++ repeat "0" (zeros - String.length fraction) in
              let wei :=
                Z.of_N (decimalValue whole) * 10 ^ Z.of_nat zeros
                + Z.of_N (decimalValue fraction) in
              Normal (if negative then - wei else wei)
  end.

(** [parseUnits(value, unitName)] for a string [value] and a [unitName]
    that is a number ([Some d]) or [undefined] ([None]). *)
Definition parseUnits (value : string) (unitName : option Z) : Completion Z :=
  parseFixed value (match unitName with Some d => d | None => 18 end).

(** The group [([0-9]*[1-9]|0)] of [formatFixed]: the digits up to the
    last one that is not zero, or one zero. *)
Definition stripFraction (fraction : string) : string :=
  match trimTrailingZeros fraction with
  | EmptyString => "0"
  | f => f
  end.

(** [formatFixed(value, decimals)]. *)
Definition formatFixed (value : Z) (decimals : Z) : Completion string :=
  match getMultiplier decimals with
  | Throw e => Throw e
  | Normal zeros =>
      let multiplier := 10 ^ Z.of_nat zeros in
      let negative := value <? 0 in
      let value := if negative then - value else value in
      let fraction := ofZ (value mod multiplier) in
      let fraction := repeat "0" (zeros - String.length fraction) ++ fraction in
      let fraction := stripFraction fraction in
      let whole := ofZ (value / multiplier) in
      let value :=
        if (zeros =? 0)%nat then whole else whole ++ "." ++ fraction in
      Normal (if negative then "-" ++ value else value)
  end.

Definition formatUnits (value : Z) (unitName : option Z) : Completion string :=
  formatFixed value (match unitName with Some d => d | None => 18 end).

End Ethers.

(* ===================================================================== *)
(** ** The external collaborators and the monad of [async] bodies *)
(* ===================================================================== *)

Module Workflow.

(** The React state [status] of an [ActionModal]. *)
Record Status : Type := mkStatus {
  loading : bool;
  error : JsVal;
  success : JsVal
}.

(** The contract methods of [VAULT_ABI] and [ERC20_ABI] the sources call,
    with their arguments. *)
Inductive Call : Type :=
| BalanceOf (token : string)
| CollateralConfigs (collateral : string)
| Approve (token spender : string) (amount : Z)
| DepositCollateral (collateral : string) (amount : Z)
| WithdrawCollateral (collateral : string) (amount : Z)
| MintTokens (collateral : string) (amount : Z)
| BurnTokens (collateral : string) (amount : Z)
| AutoMint (collateral : string).

(** What an observer of one invocation sees, in order. *)
Inductive Event : Type :=
| Read (c : Call)             (** a view call is issued *)
| Submit (c : Call)           (** a state-changing call is handed to the wallet *)
| Mined (c : Call)            (** [wait()] of that transaction resolved *)
| Fetch (url : string) (payload : option string)   (** a backend request *)
| SetStatus (s : Status)      (** [setStatus] *)
| Refresh                     (** [onSuccess()] *)
| CloseLater                  (** [setTimeout(onClose, 2000)] *)
| Generate (page limit : Z) (type : string).
                              (** [generateMockTransactions(page, limit, type)] *)

(** The answer to a state-changing call: the promise of the call rejects,
    or it resolves to a transaction whose [wait()] resolves ([None]) or
    rejects. *)
Inductive Tx : Type :=
| Rejected (e : JsVal)
| Sent (wait : option JsVal).

(** A connected wallet provider, by the answers it gives. *)
Record Provider : Type := mkProvider {
  balanceOf : string -> Completion Z;
    (** [token.balanceOf(signer.getAddress())] *)
  collateralDecimals : string -> Completion (option Z);
    (** [collateralConfigs(collateral)], by the [decimals] property of the
        decoded result: a number, or [undefined] *)
  send : Call -> Tx
}.

(** The body of a response: [json()] resolves to a value or rejects with
    an [Error] of that name and message. *)
Inductive Body : Type :=
| Json (v : JsVal)
| BadBody (name message : string).

Record Response : Type := mkResponse {
  ok : bool;
  url : string;
  body : Body
}.

(** [fetch] resolves to a response or rejects with an [Error]. *)
Inductive FetchResult : Type :=
| NetworkError (name message : string)
| Responded (r : Response).

(** The backend, by the answer to a request for a URL with a payload. *)
Definition Backend : Type := string -> option string -> FetchResult.

(** The state an [async] body runs in: the React state [S] of its
    component and the events observed so far. *)
Record St (S : Type) : Type := mkSt {
  state : S;
  events : list Event
}.
Arguments mkSt {S} state events.
Arguments state {S} s.
Arguments events {S} s.

(** How a piece of an [async] function body ends: normally, by a thrown
    value (a rejected [await]), or by [return]. *)
Inductive Res (A : Type) : Type :=
| Done (a : A)
| Raised (e : JsVal)
| Returned.
Arguments Done {A} a.
Arguments Raised {A} e.
Arguments Returned {A}.

Definition M (S A : Type) : Type := St S -> Res A * St S.

Section Monad.
Context {S : Type}.

Definition ret {A} (a : A) : M S A := fun s => (Done a, s).

Definition bind {A B} (m : M S A) (k : A -> M S B) : M S B :=
  fun s =>
    match m s with
    | (Done a, s') => k a s'
    | (Raised e, s') => (Raised e, s')
    | (Returned, s') => (Returned, s')
    end.

Definition throw {A} (e : JsVal) : M S A := fun s => (Raised e, s).

Definition return_ {A} : M S A := fun s => (Returned, s).

(** [try { body } catch (err) { handler }]: a [return] inside [body]
    leaves the function, a thrown value enters the handler. *)
Definition tryCatch (body : M S unit) (handler : JsVal -> M S unit)
  : M S unit :=
  fun s =>
    match body s with
    | (Raised e, s') => handler e s'
    | r => r
    end.

(** [try { body } finally { fin }] for a [fin] that completes normally:
    [fin] runs however [body] ends, and [body]'s way of ending stays. *)
Definition tryFinally (body : M S unit) (fin : S -> S) : M S unit :=
  fun s =>
    let '(r, s') := body s in
    (r, mkSt (fin (state s')) (events s')).

Definition lift {A} (c : Completion A) : M S A :=
  match c with
  | Normal a => ret a
  | Throw e => throw e
  end.

Definition emit (e : Event) : M S unit :=
  fun s => (Done tt, mkSt (state s) (events s ++ [e])).

(** A React state setter applied to the component state. *)
Definition modify (f : S -> S) : M S unit :=
  fun s => (Done tt, mkSt (f (state s)) (events s)).

(** The component state a closure captured when it was created. *)
Definition get : M S S := fun s => (Done (state s), s).

(** [await fetch(url, { body })]. *)
Definition fetch (b : Backend) (u : string) (payload : option string)
  : M S Response :=
  bind (emit (Fetch u payload))
    (fun _ => match b u payload with
              | NetworkError n m => throw (JErr n m [])
              | Responded r => ret r
              end).

(** [await res.json()]. *)
Definition json (r : Response) : M S JsVal :=
  match body r with
  | Json v => ret v
  | BadBody n m => throw (JErr n m [])
  end.

(** Running a body from a component state with nothing observed yet. *)
Definition run (m : M S unit) (s0 : S) : Res unit * St S :=
  m (mkSt s0 []).

Definition trace (m : M S unit) (s0 : S) : list Event :=
  events (snd (run m s0)).

Definition final (m : M S unit) (s0 : S) : S :=
  state (snd (run m s0)).

End Monad.

Definition setStatus (st : Status) : M Status unit :=
  fun s => (Done tt, mkSt st (events s ++ [SetStatus st])).

(** [setStatus(s => f(s))]. *)
Definition updateStatus (f : Status -> Status) : M Status unit :=
  fun s => setStatus (f (state s)) s.

Definition typeError (message : string) : JsVal := JErr "TypeError" message [].

(** [new Error(message)]. *)
Definition newError (message : string) : JsVal := JErr "Error" message [].

(** [await token.balanceOf(signer.getAddress())]. *)
Definition readBalance {S} (p : Provider) (token : string) : M S Z :=
  bind (emit (Read (BalanceOf token))) (fun _ => lift (balanceOf p token)).

(** [await contract.collateralConfigs(collateral)], then [.decimals]. *)
Definition readDecimals {S} (p : Provider) (collateral : string)
  : M S (option Z) :=
  bind (emit (Read (CollateralConfigs collateral)))
    (fun _ => lift (collateralDecimals p collateral)).

(** A pending transaction: the call it came from and how [wait()] ends. *)
Definition Pending : Type := (Call * option JsVal)%type.

(** [await contract.method(args)] for a state-changing method. *)
Definition submit {S} (p : Provider) (c : Call) : M S Pending :=
  bind (emit (Submit c))
    (fun _ => match send p c with
              | Rejected e => throw e
              | Sent w => ret (c, w)
              end).

(** [await tx.wait()]; [tx] is [undefined] when no branch assigned it. *)
Definition wait {S} (tx : option Pending) : M S unit :=
  match tx with
  | None => throw (typeError "Cannot read properties of undefined (reading 'wait')")
  | Some (c, None) => emit (Mined c)
  | Some (_, Some e) => throw e
  end.

Definition idle : Status := mkStatus false JNull JNull.

(** The terminal phases of an invocation, read off the final [status]:
    [failed] shows an error, [confirmed] has stopped loading and shows a
    success message and no error. *)
Definition failed (s : Status) : bool := truthy (error s).

Definition confirmed (s : Status) : bool :=
  negb (loading s) && negb (truthy (error s)) && truthy (success s).

Definition isSubmit (e : Event) : bool :=
  match e with Submit _ => true | _ => false end.

Definition isRefresh (e : Event) : bool :=
  match e with Refresh => true | _ => false end.

(** The events that reach the network: contract reads, submissions and
    backend requests. *)
Definition isNetwork (e : Event) : bool :=
  match e with
  | Read _ | Submit _ | Fetch _ _ => true
  | _ => false
  end.

(** The events that go to the wallet or the chain. *)
Definition isContractCall (e : Event) : bool :=
  match e with
  | Read _ | Submit _ => true
  | _ => false
  end.

Definition count (p : Event -> bool) (t : list Event) : nat :=
  List.length (filter p t).

End Workflow.

Import Workflow.

Declare Scope js_scope.
Delimit Scope js_scope with js.
Notation "x <- m ;; k" := (bind m (fun x => k))
  (at level 61, m at next level, right associativity) : js_scope.
Notation "m ;; k" := (bind m (fun _ => k))
  (at level 61, right associativity) : js_scope.
Notation "a === b" := (String.eqb a b) (at level 70, no associativity) : js_scope.
Notation "a !== b" := (negb (String.eqb a b)) (at level 70, no associativity) : js_scope.
Local Open Scope js_scope.

(** [await Promise.all(urls.map(u => fetch(u)))]: every request is issued
    before any answer is looked at.  [Promise.all] rejects with the first
    rejection to arrive; the model takes the answers to arrive in the order
    of the array, so that of several rejected requests the first one in the
    list is the one the [await] throws.  What is proved of a run with a
    rejected request names no more than a rejected request of the list. *)
Fixpoint settleAll (b : Backend) (urls : list string) : Completion (list Response) :=
  match urls with
  | [] => Normal []
  | u :: r =>
      match b u None with
      | NetworkError n m => Throw (JErr n m [])
      | Responded x =>
          match settleAll b r with
          | Normal xs => Normal (x :: xs)
          | Throw e => Throw e
          end
      end
  end.

Fixpoint startAll {S} (urls : list string) : M S unit :=
  match urls with
  | [] => ret tt
  | u :: r => emit (Fetch u None) ;; startAll r
  end.

Definition fetchAll {S} (b : Backend) (urls : list string) : M S (list Response) :=
  startAll urls ;; lift (settleAll b urls).

(** [await Promise.all(responses.map(res => res.json()))], the bodies being
    read in the order of the array as well: of several bodies that do not
    decode, the first one in the list is the one the [await] throws. *)
Fixpoint jsonAll (rs : list Response) : Completion (list JsVal) :=
  match rs with
  | [] => Normal []
  | r :: rest =>
      match body r with
      | BadBody n m => Throw (JErr n m [])
      | Json v =>
          match jsonAll rest with
          | Normal vs => Normal (v :: vs)
          | Throw e => Throw e
          end
      end
  end.

(** [err.message] inside a [catch]. *)
Definition messageOf {S} (err : JsVal) : M S JsVal :=
  match getProp err "message" with
  | Some m => ret m
  | None => throw (typeError "Cannot read properties of undefined (reading 'message')")
  end.

(* ===================================================================== *)
(** ** Values handed to the display formatters *)
(* ===================================================================== *)

Module Display.
Import JsNumber.

(** What a formatter can be handed: a field of a decoded JSON body, or a
    number computed from such fields ([NaN] and the infinities included).
    [VObject] is an object whose primitive value is the string
    ["[object Object]"]. *)
Inductive Value : Type :=
| VUndefined
| VNull
| VBool (b : bool)
| VNumber (x : Num)
| VString (s : string)
| VObject.

(** [ToNumber], as [isNaN] and [Intl.NumberFormat.prototype.format] apply
    it. *)
Definition toNumber (v : Value) : Num :=
  match v with
  | VUndefined => NaN
  | VNull => Decimal false 0 0
  | VBool b => Decimal false (if b then 1 else 0) 0
  | VNumber x => x
  | VString s => Number s
  | VObject => NaN
  end.

(** [parseFloat(v)]: [v] is turned into a string first.  The numeral of a
    number reads back as that number, but for [-0], whose numeral is
    ["0"]; none of ["undefined"], ["null"], ["true"], ["false"] and
    ["[object Object]"] starts with a decimal literal. *)
Definition parseFloatOf (v : Value) : Num :=
  match v with
  | VString s => parseFloat s
  | VNumber (Decimal true m e) =>
      if roundsToZero m e then Decimal false 0 0 else Decimal true m e
  | VNumber x => x
  | _ => NaN
  end.

(** The locale data of the host: how [Number.prototype.toLocaleString]
    and an [en-US] currency [Intl.NumberFormat] with a given number of
    fraction digits print a number, and the largest number of fraction
    digits the host accepts. *)
Record Host : Type := mkHost {
  numberToLocaleString : Num -> string;
  currencyFormat : Z -> Num -> string;
  maxFractionDigits : Z
}.

Definition rangeError (message : string) : JsVal := JErr "RangeError" message [].

(** [new Intl.NumberFormat('en-US', { ..., minimumFractionDigits: d,
    maximumFractionDigits: d }).format(v)]. *)
Definition intlCurrency (h : Host) (d : Z) (v : Value) : Completion string :=
  if (0 <=? d) && (d <=? maxFractionDigits h)
  then Normal (currencyFormat h d (toNumber v))
  else Throw (rangeError "minimumFractionDigits value is out of range.").

(** [v.toLocaleString()]. *)
Definition toLocaleString (h : Host) (v : Value) : Completion string :=
  match v with
  | VUndefined =>
      Throw (typeError "Cannot read properties of undefined (reading 'toLocaleString')")
  | VNull =>
      Throw (typeError "Cannot read properties of null (reading 'toLocaleString')")
  | VBool b => Normal (if b then "true" else "false")
  | VNumber x => Normal (numberToLocaleString h x)
  | VString s => Normal s
  | VObject => Normal "[object Object]"
  end.

End Display.

(* ===================================================================== *)
(** ** [src/pages/DashboardPage.js] *)
(* ===================================================================== *)

Module DashboardPage.

Definition API_BASE_URL : string := "https://tghsx.onrender.com".
Definition VAULT_ADDRESS : string := "0xF681Ba510d3C93A49a7AB2d02d9697BB2B0091FE".
Definition USDC_ADDRESS : string := "0xAC2f1680f2705d3Dd314534Bf24b424ccBC8D8f5".

(** *** The display formatters *)

(** [formatCurrency(value, decimals = 2)]; [None] is an omitted
    [decimals]. *)
Definition formatCurrency (h : Display.Host) (value : Display.Value)
    (decimals : option Z) : Completion string :=
  let decimals := match decimals with Some d => d | None => 2 end in
  let number :=
    match value with
    | Display.VString s => Display.VNumber (JsNumber.parseFloat s)
    | _ => value
    end in
  if JsNumber.isNaN (Display.toNumber number) then Normal "$0.00"
  else Display.intlCurrency h decimals number.

(** [formatNumber(value)]. *)
Definition formatNumber (h : Display.Host) (value : Display.Value)
  : Completion string :=
  let number :=
    match value with
    | Display.VString s => Display.VNumber (JsNumber.parseFloat s)
    | _ => value
    end in
  if JsNumber.isNaN (Display.toNumber number) then Normal "0"
  else Display.toLocaleString h number.

(** *** The [App] component: [fetchData] *)
Module App.

Record State : Type := mkState {
  isLoading : bool;
  error : JsVal;
  lastRefreshed : Z;
  vaultOverview : JsVal;
  mintStatus : JsVal;
  oraclePrice : JsVal;
  transactions : JsVal;
  protocolHealth : JsVal
}.

Definition setIsLoading (v : bool) (s : State) : State :=
  mkState v (error s) (lastRefreshed s) (vaultOverview s) (mintStatus s)
    (oraclePrice s) (transactions s) (protocolHealth s).
Definition setError (v : JsVal) (s : State) : State :=
  mkState (isLoading s) v (lastRefreshed s) (vaultOverview s) (mintStatus s)
    (oraclePrice s) (transactions s) (protocolHealth s).
Definition setLastRefreshed (v : Z) (s : State) : State :=
  mkState (isLoading s) (error s) v (vaultOverview s) (mintStatus s)
    (oraclePrice s) (transactions s) (protocolHealth s).
Definition setVaultOverview (v : JsVal) (s : State) : State :=
  mkState (isLoading s) (error s) (lastRefreshed s) v (mintStatus s)
    (oraclePrice s) (transactions s) (protocolHealth s).
Definition setMintStatus (v : JsVal) (s : State) : State :=
  mkState (isLoading s) (error s) (lastRefreshed s) (vaultOverview s) v
    (oraclePrice s) (transactions s) (protocolHealth s).
Definition setOraclePrice (v : JsVal) (s : State) : State :=
  mkState (isLoading s) (error s) (lastRefreshed s) (vaultOverview s)
    (mintStatus s) v (transactions s) (protocolHealth s).
Definition setTransactions (v : JsVal) (s : State) : State :=
  mkState (isLoading s) (error s) (lastRefreshed s) (vaultOverview s)
    (mintStatus s) (oraclePrice s) v (protocolHealth s).
Definition setProtocolHealth (v : JsVal) (s : State) : State :=
  mkState (isLoading s) (error s) (lastRefreshed s) (vaultOverview s)
    (mintStatus s) (oraclePrice s) (transactions s) v.

(** The five requests of [fetchData], in the order of the array. *)
Definition urls : list string :=
  [ API_BASE_URL ++ "/vault/status/" ++ USDC_ADDRESS;
    API_BASE_URL ++ "/vault/mint-status";
    API_BASE_URL ++ "/oracle/price";
    API_BASE_URL ++ "/transactions?page=1&limit=5";
    API_BASE_URL ++ "/protocol/health" ].

(** [fetchData]; [now] is what [new Date()] reads. *)
Definition fetchData (authToken walletAddress : JsVal) (b : Backend) (now : Z)
  : M State unit :=
  if negb (truthy authToken) || negb (truthy walletAddress) then return_
  else
    modify (setIsLoading true) ;;
    modify (setError JNull) ;;
    tryFinally
      (tryCatch
         (responses <- fetchAll b urls ;;
          match responses with
          | [vaultRes; mintStatusRes; oracleRes; transactionsRes; protocolHealthRes] =>
              (if negb (ok vaultRes) || negb (ok mintStatusRes)
                  || negb (ok oracleRes) || negb (ok transactionsRes)
                  || negb (ok protocolHealthRes)
               then throw (newError "Failed to fetch dashboard data. Your session might have expired.")
               else ret tt) ;;
              v <- json vaultRes ;; modify (setVaultOverview v) ;;
              v <- json mintStatusRes ;; modify (setMintStatus v) ;;
              v <- json oracleRes ;; modify (setOraclePrice v) ;;
              v <- json transactionsRes ;; modify (setTransactions v) ;;
              v <- json protocolHealthRes ;; modify (setProtocolHealth v) ;;
              modify (setLastRefreshed now)
          | _ => ret tt
          end)
         (fun err => m <- messageOf err ;; modify (setError m)))
      (setIsLoading false).

End App.

(** *** The [ActionModal] component: [handleConfirm] *)
Module ActionModal.

Definition staleMessage : string :=
  "Transaction failed: The oracle price for this asset is outdated. Please wait for the price to update and try again.".
Definition gasMessage : string :=
  "Cannot estimate gas. The transaction is likely to fail. This could be due to insufficient funds, an on-chain issue like stale prices, or another contract error.".
Definition staleMessageShort : string :=
  "Transaction failed: The oracle price for this asset is outdated.".
Definition unknownMessage : string :=
  "An unknown error occurred. Please check the console.".

(** The [friendlyMessage] the [catch] block computes from [err]. *)
Definition friendlyMessage (err : JsVal) : Completion string :=
  let errorString := stringify err in
  match getProp err "code" with
  | None => Throw (typeError "Cannot read properties of undefined (reading 'code')")
  | Some code =>
      if strictEqStr code "UNPREDICTABLE_GAS_LIMIT" || strictEqNum code (-32603)
         || strictEqStr code "CALL_EXCEPTION"
      then
        match errorString with
        | None => Throw (typeError "Cannot read properties of undefined (reading 'includes')")
        | Some es =>
            if JsString.includes "0xe450d38c" es then Normal staleMessage
            else Normal gasMessage
        end
      else if truthy (getPropOpt err "reason")
      then Normal ("Transaction failed: " ++ toString (getPropOpt err "reason"))
      else
        match errorString with
        | None => Throw (typeError "Cannot read properties of undefined (reading 'includes')")
        | Some es =>
            if JsString.includes "PriceStale" es then Normal staleMessageShort
            else Normal unknownMessage
        end
  end.

Definition insufficientMessage (balance : string) : string :=
  "Insufficient USDC balance. You have " ++ balance ++ " USDC.".

(** [handleConfirm] of a modal with props [modalType] and [provider]
    ([None] is a [provider] that is [null]) and state [amount]. *)
Definition handleConfirm (modalType : string) (provider : option Provider)
    (amount : string) : M Status unit :=
  match provider with
  | None =>
      setStatus (mkStatus false (JStr "Amount is required.") JNull) ;; return_
  | Some p =>
      if (amount === "") && (modalType !== "auto-mint") then
        setStatus (mkStatus false (JStr "Amount is required.") JNull) ;; return_
      else if (modalType !== "auto-mint")
              && (JsNumber.isNaN (JsNumber.parseFloat amount)
                  || JsNumber.le0 (JsNumber.parseFloat amount)) then
        setStatus (mkStatus false
                     (JStr "Please enter a valid amount greater than zero.") JNull) ;;
        return_
      else
        setStatus (mkStatus true JNull (JStr "Preparing transaction...")) ;;
        tryCatch
          (let amountStr := if amount === "" then "0" else amount in
           let decimals := Some 6 in
           parsedAmount <- lift (Ethers.parseUnits amountStr decimals) ;;
           (if (modalType === "deposit") || (modalType === "repay") then
              balance <- readBalance p USDC_ADDRESS ;;
              if balance <? parsedAmount then
                shown <- lift (Ethers.formatUnits balance decimals) ;;
                setStatus (mkStatus false (JStr (insufficientMessage shown)) JNull) ;;
                return_
              else ret tt
            else ret tt) ;;
           tx <-
             (if modalType === "deposit" then
                setStatus (mkStatus true JNull (JStr "Waiting for approval...")) ;;
                approveTx <- submit p (Approve USDC_ADDRESS VAULT_ADDRESS parsedAmount) ;;
                wait (Some approveTx) ;;
                setStatus (mkStatus true JNull (JStr "Approval successful. Depositing...")) ;;
                submit p (DepositCollateral USDC_ADDRESS parsedAmount)
              else if modalType === "withdraw" then
                submit p (WithdrawCollateral USDC_ADDRESS parsedAmount)
              else if modalType === "mint" then
                submit p (MintTokens USDC_ADDRESS parsedAmount)
              else if modalType === "repay" then
                setStatus (mkStatus true JNull (JStr "Waiting for approval...")) ;;
                approveTx <- submit p (Approve USDC_ADDRESS VAULT_ADDRESS parsedAmount) ;;
                wait (Some approveTx) ;;
                setStatus (mkStatus true JNull (JStr "Approval successful. Repaying debt...")) ;;
                submit p (BurnTokens USDC_ADDRESS parsedAmount)
              else if modalType === "auto-mint" then
                submit p (AutoMint USDC_ADDRESS)
              else throw (newError "Invalid action type")) ;;
           setStatus (mkStatus true JNull (JStr "Transaction sent...")) ;;
           wait (Some tx) ;;
           setStatus (mkStatus false JNull (JStr "Transaction successful!")) ;;
           emit Refresh ;;
           emit CloseLater)
          (fun err =>
             friendly <- lift (friendlyMessage err) ;;
             setStatus (mkStatus false (JStr friendly) JNull))
  end.

End ActionModal.

End DashboardPage.

(* ===================================================================== *)
(** ** The copy of the dashboard in [part_001] *)
(* ===================================================================== *)

Module Part001.

Definition VAULT_ADDRESS : string := "0xF681Ba510d3C93A49a7AB2d02d9697BB2B0091FE".

Module ActionModal.

(** The [msg] the [catch] block computes from [err]. *)
Definition message (err : JsVal) : Completion JsVal :=
  match getProp err "code" with
  | None => Throw (typeError "Cannot read properties of undefined (reading 'code')")
  | Some code =>
      if strictEqStr code "UNPREDICTABLE_GAS_LIMIT" then Normal (JStr "Gas estimate failed.")
      else if truthy (getPropOpt err "reason") then Normal (getPropOpt err "reason")
      else Normal (JStr "Unknown error.")
  end.

Definition withSuccess (v : string) (s : Status) : Status :=
  mkStatus (loading s) (Workflow.error s) (JStr v).

(** [handleConfirm] of a modal with props [modalType], [provider] and
    [collateralAddress] and state [amount]. *)
Definition handleConfirm (modalType : string) (provider : option Provider)
    (amount : string) (collateralAddress : string) : M Status unit :=
  match provider with
  | None =>
      setStatus (mkStatus false (JStr "Enter a valid amount") JNull) ;; return_
  | Some p =>
      if (modalType !== "auto-mint")
         && ((amount === "") || JsNumber.le0 (JsNumber.Number amount)) then
        setStatus (mkStatus false (JStr "Enter a valid amount") JNull) ;; return_
      else
        setStatus (mkStatus true JNull (JStr "Preparing...")) ;;
        tryCatch
          (let decimals := Some 6 in
           parsed <- lift (Ethers.parseUnits (if amount === "" then "0" else amount) decimals) ;;
           tx <-
             (if modalType === "deposit" then
                updateStatus (withSuccess "Waiting approval...") ;;
                approveTx <- submit p (Approve collateralAddress VAULT_ADDRESS parsed) ;;
                wait (Some approveTx) ;;
                updateStatus (withSuccess "Depositing...") ;;
                tx <- submit p (DepositCollateral collateralAddress parsed) ;;
                ret (Some tx)
              else if modalType === "withdraw" then
                tx <- submit p (WithdrawCollateral collateralAddress parsed) ;;
                ret (Some tx)
              else if modalType === "mint" then
                tx <- submit p (MintTokens collateralAddress parsed) ;;
                ret (Some tx)
              else if modalType === "repay" then
                tx <- submit p (BurnTokens collateralAddress parsed) ;;
                ret (Some tx)
              else if modalType === "auto-mint" then
                tx <- submit p (AutoMint collateralAddress) ;;
                ret (Some tx)
              else ret None) ;;
           updateStatus (withSuccess "Sending tx...") ;;
           wait tx ;;
           setStatus (mkStatus false JNull (JStr "Success!")) ;;
           emit Refresh ;;
           emit CloseLater)
          (fun err =>
             msg <- lift (message err) ;;
             setStatus (mkStatus false msg JNull))
  end.

End ActionModal.

End Part001.

(* ===================================================================== *)
(** ** The copy of the dashboard in [part_002] *)
(* ===================================================================== *)

Module Part002.

Definition API_BASE_URL : string := "https://tghsx.onrender.com".
Definition VAULT_ADDRESS : string := "0xF681Ba510d3C93A49a7AB2d02d9697BB2B0091FE".
Definition USDC : string := "0xAC2f1680f2705d3Dd314534Bf24b424ccBC8D8f5".

(** *** The display formatters *)

(** [formatCurrency(v, d = 2)]. *)
Definition formatCurrency (h : Display.Host) (v : Display.Value)
    (d : option Z) : Completion string :=
  let d := match d with Some d => d | None => 2 end in
  if negb (JsNumber.isNaN (Display.parseFloatOf v))
  then Display.intlCurrency h d v
  else Normal "$0.00".

(** [formatNumber(v)]. *)
Definition formatNumber (h : Display.Host) (v : Display.Value)
  : Completion string :=
  if negb (JsNumber.isNaN (Display.parseFloatOf v))
  then Display.toLocaleString h (Display.VNumber (Display.parseFloatOf v))
  else Normal "0".

Module App.

Record State : Type := mkState {
  isLoading : bool;
  error : JsVal;
  lastRefreshed : Z;
  vaultOverview : JsVal;
  mintStatus : JsVal;
  oraclePrice : JsVal;
  transactions : JsVal;
  protocolHealth : JsVal;
  pendingRequests : JsVal
}.

Definition setIsLoading (v : bool) (s : State) : State :=
  mkState v (error s) (lastRefreshed s) (vaultOverview s) (mintStatus s)
    (oraclePrice s) (transactions s) (protocolHealth s) (pendingRequests s).
Definition setError (v : JsVal) (s : State) : State :=
  mkState (isLoading s) v (lastRefreshed s) (vaultOverview s) (mintStatus s)
    (oraclePrice s) (transactions s) (protocolHealth s) (pendingRequests s).
Definition setLastRefreshed (v : Z) (s : State) : State :=
  mkState (isLoading s) (error s) v (vaultOverview s) (mintStatus s)
    (oraclePrice s) (transactions s) (protocolHealth s) (pendingRequests s).
Definition setVaultOverview (v : JsVal) (s : State) : State :=
  mkState (isLoading s) (error s) (lastRefreshed s) v (mintStatus s)
    (oraclePrice s) (transactions s) (protocolHealth s) (pendingRequests s).
Definition setMintStatus (v : JsVal) (s : State) : State :=
  mkState (isLoading s) (error s) (lastRefreshed s) (vaultOverview s) v
    (oraclePrice s) (transactions s) (protocolHealth s) (pendingRequests s).
Definition setTransactions (v : JsVal) (s : State) : State :=
  mkState (isLoading s) (error s) (lastRefreshed s) (vaultOverview s)
    (mintStatus s) (oraclePrice s) v (protocolHealth s) (pendingRequests s).
Definition setProtocolHealth (v : JsVal) (s : State) : State :=
  mkState (isLoading s) (error s) (lastRefreshed s) (vaultOverview s)
    (mintStatus s) (oraclePrice s) (transactions s) v (pendingRequests s).
Definition setPendingRequests (v : JsVal) (s : State) : State :=
  mkState (isLoading s) (error s) (lastRefreshed s) (vaultOverview s)
    (mintStatus s) (oraclePrice s) (transactions s) (protocolHealth s) v.

Definition urls : list string :=
  [ API_BASE_URL ++ "/vault/status/" ++ USDC;
    API_BASE_URL ++ "/vault/mint-status";
    API_BASE_URL ++ "/protocol/health";
    API_BASE_URL ++ "/transactions?page=1&limit=5";
    API_BASE_URL ++ "/mint/requests" ].

(** [for (const res of responses) { if (!res.ok) { ... throw ... } }]. *)
Fixpoint checkAll (rs : list Response) : M State unit :=
  match rs with
  | [] => ret tt
  | res :: rest =>
      if negb (ok res) then
        errData <- json res ;;
        match getProp errData "detail" with
        | None => throw (typeError "Cannot read properties of null (reading 'detail')")
        | Some d =>
            throw (newError (toString
                     (or d (JStr ("Failed to fetch data from " ++ url res)))))
        end
      else checkAll rest
  end.

Definition fetchData (authToken walletAddress : JsVal) (b : Backend) (now : Z)
  : M State unit :=
  if negb (truthy authToken) || negb (truthy walletAddress) then return_
  else
    modify (setIsLoading true) ;;
    modify (setError JNull) ;;
    tryFinally
      (tryCatch
         (responses <- fetchAll b urls ;;
          checkAll responses ;;
          data <- lift (jsonAll responses) ;;
          match data with
          | [vaultData; mintStatusData; healthData; txData; requestsData] =>
              modify (setVaultOverview vaultData) ;;
              modify (setMintStatus mintStatusData) ;;
              modify (setProtocolHealth healthData) ;;
              match getProp txData "transactions" with
              | None => throw (typeError "Cannot read properties of null (reading 'transactions')")
              | Some t =>
                  modify (setTransactions (or t (JArr []))) ;;
                  modify (setPendingRequests (or requestsData (JArr []))) ;;
                  modify (setLastRefreshed now)
              end
          | _ => ret tt
          end)
         (fun err => m <- messageOf err ;; modify (setError m)))
      (setIsLoading false).

End App.

Module ActionModal.

Definition withError (v : string) (s : Status) : Status :=
  mkStatus (loading s) (JStr v) (success s).

(** [err?.reason || err?.data?.message || err.message ||
    "Transaction failed."]. *)
Definition message (err : JsVal) : Completion JsVal :=
  if truthy (getPropOpt err "reason") then Normal (getPropOpt err "reason")
  else if truthy (getPropOpt (getPropOpt err "data") "message")
  then Normal (getPropOpt (getPropOpt err "data") "message")
  else
    match getProp err "message" with
    | None => Throw (typeError "Cannot read properties of undefined (reading 'message')")
    | Some m => Normal (or m (JStr "Transaction failed."))
    end.

Definition autoMintUrl : string := API_BASE_URL ++ "/mint/auto".

(** [handleConfirm] of a modal with props [modalConfig = { type,
    collateral }] and [provider] and state [amount]. *)
Definition handleConfirm (type collateral : string) (provider : option Provider)
    (amount : string) (b : Backend) : M Status unit :=
  status <- get ;;
  match provider with
  | None => setStatus (withError "Amount is required." status) ;; return_
  | Some p =>
      if (amount === "") && (type !== "auto-mint") then
        setStatus (withError "Amount is required." status) ;; return_
      else if (type !== "auto-mint")
              && (JsNumber.isNaN (JsNumber.parseFloat amount)
                  || JsNumber.le0 (JsNumber.parseFloat amount)) then
        setStatus (withError "Please enter a valid amount > 0." status) ;; return_
      else
        setStatus (mkStatus true JNull (JStr "Preparing...")) ;;
        tryCatch
          (tx <-
             (if type === "auto-mint" then
                setStatus (mkStatus true JNull (JStr "Validating...")) ;;
                res <- fetch b autoMintUrl
                         (stringify (JObj [("collateral_address", JStr collateral)])) ;;
                (if negb (ok res) then
                   err <- json res ;;
                   match getProp err "detail" with
                   | None => throw (typeError "Cannot read properties of null (reading 'detail')")
                   | Some d =>
                       throw (newError (toString (or d (JStr "Auto-mint validation failed"))))
                   end
                 else ret tt) ;;
                setStatus (mkStatus true JNull (JStr "Sending transaction...")) ;;
                tx <- submit p (AutoMint collateral) ;;
                ret (Some tx)
              else
                cfgDecimals <- readDecimals p collateral ;;
                let decimals :=
                  if (type === "mint") || (type === "repay") then Some 6
                  else cfgDecimals in
                parsedAmt <- lift (Ethers.parseUnits amount decimals) ;;
                if type === "deposit" then
                  setStatus (mkStatus true JNull (JStr "Approving...")) ;;
                  approveTx <- submit p (Approve collateral VAULT_ADDRESS parsedAmt) ;;
                  wait (Some approveTx) ;;
                  setStatus (mkStatus true JNull (JStr "Depositing...")) ;;
                  tx <- submit p (DepositCollateral collateral parsedAmt) ;;
                  ret (Some tx)
                else if type === "withdraw" then
                  tx <- submit p (WithdrawCollateral collateral parsedAmt) ;;
                  ret (Some tx)
                else if type === "mint" then
                  tx <- submit p (MintTokens collateral parsedAmt) ;;
                  ret (Some tx)
                else if type === "repay" then
                  tx <- submit p (BurnTokens collateral parsedAmt) ;;
                  ret (Some tx)
                else ret None) ;;
           wait tx ;;
           setStatus (mkStatus false JNull (JStr "Success!")) ;;
           emit Refresh ;;
           emit CloseLater)
          (fun err =>
             msg <- lift (message err) ;;
             setStatus (mkStatus false msg JNull))
  end.

End ActionModal.

End Part002.

(* ===================================================================== *)
(** ** [src/pages/TransactionHistoryPage.js] *)
(* ===================================================================== *)

Module TransactionHistoryPage.

Record Pagination : Type := mkPagination {
  page : Z;
  limit : Z;
  total : Z
}.

Record State : Type := mkState {
  transactions : JsVal;
  pagination : Pagination;
  filterType : string;
  isLoading : bool;
  error : JsVal
}.

(** The value of [Math.ceil(a / b)] for integers [a] and [b]: the
    quotient of two integers is an infinity or [NaN] when [b] is zero. *)
Inductive Quotient : Type :=
| QNaN
| QInfinity (neg : bool)
| QInt (z : Z).

Definition ceilDiv (a b : Z) : Quotient :=
  if b =? 0 then
    if a =? 0 then QNaN else QInfinity (a <? 0)
  else QInt (- ((- a) / b)).

(** [n > q]. *)
Definition gt (n : Z) (q : Quotient) : bool :=
  match q with
  | QNaN => false
  | QInfinity neg => neg
  | QInt z => z <? n
  end.

Definition setTransactions (v : JsVal) (s : State) : State :=
  mkState v (pagination s) (filterType s) (isLoading s) (error s).
Definition setPagination (f : Pagination -> Pagination) (s : State) : State :=
  mkState (transactions s) (f (pagination s)) (filterType s) (isLoading s) (error s).
Definition setIsLoading (v : bool) (s : State) : State :=
  mkState (transactions s) (pagination s) (filterType s) v (error s).
Definition setError (v : JsVal) (s : State) : State :=
  mkState (transactions s) (pagination s) (filterType s) (isLoading s) v.

Section View.

(** [generateMockTransactions(page, limit, type)], by the [total] and
    the [transactions] of the object it returns (the hashes in it are
    random and the time stamps follow the clock). *)
Variable generateMockTransactions : Z -> Z -> string -> Z * JsVal.

Definition fetchTransactions (page : Z) (type : string) : M State unit :=
  s <- get ;;
  modify (setIsLoading true) ;;
  modify (setError JNull) ;;
  tryFinally
    (tryCatch
       (emit (Generate page (limit (pagination s)) type) ;;
        let data := generateMockTransactions page (limit (pagination s)) type in
        modify (setTransactions (snd data)) ;;
        modify (setPagination
                  (fun prev => mkPagination page (limit prev) (fst data))))
       (fun err => m <- messageOf err ;; modify (setError m)))
    (setIsLoading false).

Definition handlePageChange (newPage : Z) : M State unit :=
  s <- get ;;
  if (newPage <? 1)
     || gt newPage (ceilDiv (total (pagination s)) (limit (pagination s)))
  then return_
  else fetchTransactions newPage (filterType s).

End View.

End TransactionHistoryPage.

(* ===================================================================== *)
(** ** Properties of traces *)
(* ===================================================================== *)

Module Trace.

Definition isApprove (c : Call) : bool :=
  match c with Approve _ _ _ => true | _ => false end.

(** The primary calls that move tokens out of the payer's balance. *)
Definition isTransfer (c : Call) : bool :=
  match c with
  | DepositCollateral _ _ | BurnTokens _ _ => true
  | _ => false
  end.

Definition isFetch (e : Event) : bool :=
  match e with Fetch _ _ => true | _ => false end.

Definition isApproveSubmit (e : Event) : bool :=
  match e with Submit c => isApprove c | _ => false end.

(** The base-unit amount a call carries. *)
Definition callAmount (c : Call) : option Z :=
  match c with
  | Approve _ _ n | DepositCollateral _ n | WithdrawCollateral _ n
  | MintTokens _ n | BurnTokens _ n => Some n
  | BalanceOf _ | CollateralConfigs _ | AutoMint _ => None
  end.

(** How far the approval has come. *)
Inductive Allowance : Type := NoApproval | ApprovalSent | ApprovalMined.

(** Every [depositCollateral] or [burnTokens] submission comes after the
    submission of an [approve] and, later, the confirmation of it. *)
Fixpoint approvalFirst (a : Allowance) (t : list Event) : bool :=
  match t with
  | [] => true
  | Submit c :: r =>
      if isApprove c then approvalFirst ApprovalSent r
      else if isTransfer c then
        match a with
        | ApprovalMined => approvalFirst a r
        | _ => false
        end
      else approvalFirst a r
  | Mined c :: r =>
      if isApprove c then
        match a with
        | NoApproval => approvalFirst a r
        | _ => approvalFirst ApprovalMined r
        end
      else approvalFirst a r
  | _ :: r => approvalFirst a r
  end.

(** The phases of the specification's state machine a status stands
    for. *)
Definition submissions (t : list Event) : list Event := filter isSubmit t.

End Trace.

Import Trace.

(* ===================================================================== *)
(** ** Notions of the specification *)
(* ===================================================================== *)

Module Spec.
Import JsString.

(** The serialised error payload contains [needle]. *)
Definition payloadIncludes (needle : string) (err : JsVal) : bool :=
  match stringify err with
  | Some s => includes needle s
  | None => false
  end.

(** A stale-price signal, as the specification names it: the selector of
    the [PriceStale] custom error, or the text ["PriceStale"], in the
    error payload. *)
Definition staleSignal (err : JsVal) : bool :=
  payloadIncludes "0xe450d38c" err || payloadIncludes "PriceStale" err.

(** [err.code] is one of the three codes of a failed simulation. *)
Definition gasCode (err : JsVal) : bool :=
  match getProp err "code" with
  | Some c =>
      strictEqStr c "UNPREDICTABLE_GAS_LIMIT" || strictEqNum c (-32603)
      || strictEqStr c "CALL_EXCEPTION"
  | None => false
  end.

(** The five action kinds. *)
Definition kinds : list string :=
  ["deposit"; "withdraw"; "mint"; "repay"; "auto-mint"].

(** Following the specification's words ("amounts are decimal strings in
    human units"): the number a plain decimal numeral denotes, as the
    integer [m] of all its digits, with its sign, and the count [k] of its
    fraction digits: the numeral denotes [m / 10^k]. *)
Definition decimalOf (s : string) : option (Z * nat) :=
  let negative := startsWith "-" s in
  let body := if negative then drop 1 s else s in
  let signed := fun n : N => if negative then - Z.of_N n else Z.of_N n in
  let '(w, r) := span isDigit body in
  match r with
  | EmptyString =>
      if String.eqb w "" then None else Some (signed (decimalValue w), O)
  | String "." f =>
      if all isDigit f && negb (String.eqb w "" && String.eqb f "")
      then Some (signed (decimalValue (w ++ f)), String.length f)
      else None
  | _ => None
  end.

(** Following the specification's words ("truncating, never rounding
    up"): the base-unit integer of [s] at precision [d], excess fraction
    digits cut off. *)
Definition truncatedUnits (s : string) (d : nat) : option Z :=
  match decimalOf s with
  | Some (m, k) => Some (Z.quot (m * 10 ^ Z.of_nat d) (10 ^ Z.of_nat k))
  | None => None
  end.

(** [n] base units at precision [d] are exactly the amount [s]. *)
Definition exactUnits (s : string) (d : Z) (n : Z) : Prop :=
  exists m k, decimalOf s = Some (m, k)
              /\ n * 10 ^ Z.of_nat k = m * 10 ^ d.

End Spec.

Import Spec.

(* ===================================================================== *)
(** ** Statements about runs, and the worlds of the examples *)
(* ===================================================================== *)

(** The refresh callback has run once if the invocation ended confirmed and
    not at all if it ended failed. *)
Definition refreshesAsSpecified (st0 : Status) (m : M Status unit) : Prop :=
  (confirmed (final m st0) = true -> count isRefresh (trace m st0) = 1%nat)
  /\ (failed (final m st0) = true -> count isRefresh (trace m st0) = 0%nat).

(** Every request of [urls] is answered with a response. *)
Definition allResponded (b : Backend) (urls : list string) : Prop :=
  forall u, In u urls -> exists r, b u None = Responded r.

(** Some request of [urls] is answered with a response that is not ok. *)
Definition someNotOk (b : Backend) (urls : list string) : Prop :=
  exists u r, In u urls /\ b u None = Responded r /\ ok r = false.

Definition notOk (r : Response) : bool := negb (ok r).

Definition isBalanceRead (e : Event) : bool :=
  match e with Read (BalanceOf _) => true | _ => false end.

(** A provider whose every call succeeds: the payer holds 100 USDC, the
    collateral declares 6 decimals, every transaction is mined. *)
Definition obliging : Provider :=
  mkProvider (fun _ => Normal 100000000) (fun _ => Normal (Some 6))
    (fun _ => Sent None).

(** A provider that rejects every state-changing call with [e]. *)
Definition rejecting (e : JsVal) : Provider :=
  mkProvider (fun _ => Normal 100000000) (fun _ => Normal (Some 6))
    (fun _ => Rejected e).

(** A failed gas estimation as ethers reports it. *)
Definition estimateFailure : JsVal :=
  JErr "Error" "cannot estimate gas; transaction may fail or may require manual gas limit"
    [("reason", JStr "cannot estimate gas; transaction may fail or may require manual gas limit");
     ("code", JStr "UNPREDICTABLE_GAS_LIMIT")].

(** A chain on which the payer holds 50 USDC: an [approve] is mined, and
    any other state-changing call fails its gas estimation. *)
Definition short : Provider :=
  mkProvider (fun _ => Normal 50000000) (fun _ => Normal (Some 6))
    (fun c => match c with
              | Approve _ _ _ => Sent None
              | _ => Rejected estimateFailure
              end).

(** A backend that refuses every request with a [detail]. *)
Definition refusing (reason : string) : Backend :=
  fun u _ => Responded (mkResponse false u (Json (JObj [("detail", JStr reason)]))).

Definition expired : Backend := refusing "Session expired".

(** A failed gas estimation with the revert data of the [PriceStale]
    custom error inside. *)
Definition staleEstimate : JsVal :=
  JErr "Error" "cannot estimate gas; transaction may fail or may require manual gas limit"
    [("reason", JStr "cannot estimate gas; transaction may fail or may require manual gas limit");
     ("code", JStr "UNPREDICTABLE_GAS_LIMIT");
     ("error", JObj [("code", JNum (-32000)); ("message", JStr "execution reverted");
                     ("data", JStr "0xe450d38c")])].

(** A JSON-RPC execution error (code 3) that carries the revert data of the
    [PriceStale] custom error. *)
Definition staleExecution : JsVal :=
  JObj [("code", JNum 3); ("message", JStr "execution reverted");
        ("data", JStr "0xe450d38c")].

Definition emptyDashboard : DashboardPage.App.State :=
  DashboardPage.App.mkState false JNull 0 JNull JNull JNull (JArr []) JNull.

Definition emptyDashboard2 : Part002.App.State :=
  Part002.App.mkState false JNull 0 JNull JNull JNull (JArr []) JNull (JArr []).

Definition somePage : TransactionHistoryPage.State :=
  TransactionHistoryPage.mkState (JArr [])
    (TransactionHistoryPage.mkPagination 5 10 47) "all" false JNull.

(** What [approvalFirst] has seen so far, as a fact about the events
    before: an [approve] was submitted, or one was submitted and later one
    was mined. *)
Definition seen (a : Allowance) (before : list Event) : Prop :=
  match a with
  | NoApproval => True
  | ApprovalSent =>
      exists p1 x p2, before = (p1 ++ Submit x :: p2)%list /\ isApprove x = true
  | ApprovalMined =>
      exists p1 x p2 y p3,
        before = (p1 ++ Submit x :: p2 ++ Mined y :: p3)%list
        /\ isApprove x = true /\ isApprove y = true
  end.

(** A host whose locale data prints every number with the same marks. *)
Definition someHost : Display.Host :=
  Display.mkHost (fun _ => "#") (fun _ _ => "$#") 100.

(* ===================================================================== *)
(** ** [src/pages/TransactionHistoryPage.js]: the mock data and the view *)
(* ===================================================================== *)

Module TransactionHistoryView.

(** What the mock generator reads from its host: the base-16 numeral of
  the [i]-th number [Math.random()] returns, the [i]-th reading of
  [Date.now()], and the ISO text of a time value. *)
Record Host : Type := mkHost {
random : nat -> string;
now : nat -> Z;
toISOString : Z -> string
}.

Record Transaction : Type := mkTransaction {
tx_hash : string;
user_id : string;
event_name : string;
event_data : JsVal;
block_timestamp : string;
status : string
}.

Definition toJs (t : Transaction) : JsVal :=
JObj [("tx_hash", JStr (tx_hash t)); ("user_id", JStr (user_id t));
      ("event_name", JStr (event_name t)); ("event_data", event_data t);
      ("block_timestamp", JStr (block_timestamp t));
      ("status", JStr (status t))].

(** The relative index of [Array.prototype.slice] for an integer [k] and
  an array of length [len]. *)
Definition relativeIndex (len k : Z) : Z :=
if k <? 0 then Z.max (len + k) 0 else Z.min k len.

(** [l.slice(start, end)] for integers [start] and [end]. *)
Definition slice {A} (l : list A) (start end_ : Z) : list A :=
let len := Z.of_nat (List.length l) in
let k := relativeIndex len start in
let final := relativeIndex len end_ in
firstn (Z.to_nat (final - k)) (skipn (Z.to_nat k) l).

Definition eventTypes : list string :=
["CollateralDeposited"; "CollateralWithdrawn"; "TokensMinted"; "TokensBurned";
 "AutoMintExecuted"].

(** The [event_data] object of the [i]-th mock transaction. *)
Definition eventData (i : nat) (name : string) : JsVal :=
if (name === "CollateralDeposited") || (name === "CollateralWithdrawn") then
  JObj [("user", JStr "0xUser..."); ("collateral", JStr "0xETH...");
        ("amount", JStr "1000000000000000000")]
else if (name === "TokensMinted") || (name === "TokensBurned") then
  JObj [("user", JStr "0xUser..."); ("collateral", JStr "0xETH...");
        ("amount", JStr (JsString.ofZ (500 * (Z.of_nat i + 1) * 1000000)))]
else if name === "AutoMintExecuted" then
  JObj [("user", JStr "0xUser...");
        ("amount", JStr (JsString.ofZ (15 * 1000000)));
        ("bonus", JStr (JsString.ofZ (2 * 1000000)))]
else JObj [].

(** The callback of [Array.from({ length: 47 }, (_, i) => ...)]. *)
Definition mockTransaction (h : Host) (i : nat) : Transaction :=
let name := nth (i mod 5) eventTypes "" in
mkTransaction
  ("0x" ++ String.substring 2 40 (random h i))
  "user123"
  name
  (match stringify (eventData i name) with
   | Some t => JStr t
   | None => JUndefined
   end)
  (toISOString h (now h i - Z.of_nat i * 3600000 * 2))
  (if (i mod 10 =? 2)%nat then "pending" else "done").

Definition allTransactions (h : Host) : list Transaction :=
map (mockTransaction h) (seq 0 47).

Definition filtered (h : Host) (type : string) : list Transaction :=
if type === "all" then allTransactions h
else filter (fun tx => event_name tx === type) (allTransactions h).

(** [generateMockTransactions(page, limit, type)] for integers [page] and
  [limit], by the [total] and the [transactions] of its result. *)
Definition generateMockTransactions (h : Host) (page limit : Z) (type : string)
: Z * list Transaction :=
let start := (page - 1) * limit in
let end_ := start + limit in
(Z.of_nat (List.length (filtered h type)), slice (filtered h type) start end_).

(** The result as the component state stores it. *)
Definition generated (h : Host) (page limit : Z) (type : string) : Z * JsVal :=
let data := generateMockTransactions h page limit type in
(fst data, JArr (map toJs (snd data))).

(** *** The component *)

Definition setFilterType (v : string) (s : TransactionHistoryPage.State)
: TransactionHistoryPage.State :=
TransactionHistoryPage.mkState
  (TransactionHistoryPage.transactions s) (TransactionHistoryPage.pagination s)
  v (TransactionHistoryPage.isLoading s) (TransactionHistoryPage.error s).

(** The state of the first render. *)
Definition initial : TransactionHistoryPage.State :=
TransactionHistoryPage.mkState (JArr [])
  (TransactionHistoryPage.mkPagination 1 10 0) "all" true JNull.

Definition fetchTransactions (h : Host) (page : Z) (type : string)
: M TransactionHistoryPage.State unit :=
TransactionHistoryPage.fetchTransactions (generated h) page type.

Definition handlePageChange (h : Host) (newPage : Z)
: M TransactionHistoryPage.State unit :=
TransactionHistoryPage.handlePageChange (generated h) newPage.

(** The effect [useEffect(() => { fetchTransactions(1, filterType) },
  [filterType, fetchTransactions])] at the first render. *)
Definition mount (h : Host) : M TransactionHistoryPage.State unit :=
s <- get ;;
fetchTransactions h 1 (TransactionHistoryPage.filterType s).

(** [handleFilterChange(type)] and the effect that follows it: a state
  set to the value it has causes no render, and the effect runs again
  only when [filterType] has changed ([fetchTransactions] is the same
  function as long as [pagination.limit] is the same). *)
Definition handleFilterChange (h : Host) (type : string)
: M TransactionHistoryPage.State unit :=
s <- get ;;
if TransactionHistoryPage.filterType s === type then ret tt
else
  modify (setFilterType type) ;;
  fetchTransactions h 1 type.

(** What a user of the rendered page can do, with the host each handler
  runs on. *)
Inductive Action : Type :=
| PageChange (newPage : Z)
| FilterChange (type : string).

Definition act (ha : Host * Action) : M TransactionHistoryPage.State unit :=
match snd ha with
| PageChange p => handlePageChange (fst ha) p
| FilterChange t => handleFilterChange (fst ha) t
end.

(** The state after a handler has run from state [s]. *)
Definition after (m : M TransactionHistoryPage.State unit)
  (s : TransactionHistoryPage.State) : TransactionHistoryPage.State :=
final m s.

(** The state of the page after the first render on host [h0] and the
  actions [l], oldest first. *)
Definition session (h0 : Host) (l : list (Host * Action))
: TransactionHistoryPage.State :=
fold_left (fun s ha => after (act ha) s) l (after (mount h0) initial).

(** *** [PaginationControls] *)

Record Controls : Type := mkControls {
totalPages : TransactionHistoryPage.Quotient;
startRecord : Z;
endRecord : Z;
previousDisabled : bool;
previousPage : Z;     (** the argument of [onPageChange] of the left button *)
nextDisabled : bool;
nextPage : Z          (** the argument of [onPageChange] of the right button *)
}.

(** [page === totalPages]. *)
Definition equalsQuotient (n : Z) (q : TransactionHistoryPage.Quotient) : bool :=
match q with
| TransactionHistoryPage.QInt z => n =? z
| _ => false
end.

(** [PaginationControls({ page, limit, total, onPageChange })] for
  integers [page], [limit] and [total]. *)
Definition PaginationControls (p : TransactionHistoryPage.Pagination) : Controls :=
let page := TransactionHistoryPage.page p in
let limit := TransactionHistoryPage.limit p in
let total := TransactionHistoryPage.total p in
let totalPages := TransactionHistoryPage.ceilDiv total limit in
let startRecord := if 0 <? total then (page - 1) * limit + 1 else 0 in
let endRecord := Z.min (page * limit) total in
mkControls totalPages startRecord endRecord
  (page =? 1) (page - 1)
  (equalsQuotient page totalPages) (page + 1).

(** The rows of [TransactionTable]: one for each element of the
  [transactions] in the state. *)
Definition rows (s : TransactionHistoryPage.State) : option nat :=
match TransactionHistoryPage.transactions s with
| JArr l => Some (List.length l)
| _ => None
end.

(** The state shows one page of the mock transactions of host [h]: the
  limit is 10, the page is at least 1 and not past the last page (page 1
  when nothing matches), the total and the rows are those of the chosen
  filter, and the view is neither loading nor in error. *)
Definition shows (h : Host) (s : TransactionHistoryPage.State) : Prop :=
let p := TransactionHistoryPage.pagination s in
let page := TransactionHistoryPage.page p in
let matching := filtered h (TransactionHistoryPage.filterType s) in
TransactionHistoryPage.limit p = 10
/\ 1 <= page
/\ (page = 1 \/ (page - 1) * 10 < TransactionHistoryPage.total p)
/\ TransactionHistoryPage.total p = Z.of_nat (List.length matching)
/\ TransactionHistoryPage.transactions s
   = JArr (map toJs (slice matching ((page - 1) * 10) ((page - 1) * 10 + 10)))
/\ TransactionHistoryPage.isLoading s = false
/\ TransactionHistoryPage.error s = JNull.

(** A host whose clock stands still at 1700000000000 ms, whose random
  numbers are all the same and which prints a time value as its
  numeral. *)
Definition steadyHost : Host :=
mkHost (fun _ => "0.8f3c2a1b9d") (fun _ => 1700000000000) JsString.ofZ.

End TransactionHistoryView.

(* ===================================================================== *)
(** ** Backends, by what they answer *)
(* ===================================================================== *)

(** Some request of [urls] is rejected: [fetch] throws. *)
Definition someRejected (b : Backend) (urls : list string) : Prop :=
  exists u name message, In u urls /\ b u None = NetworkError name message.

(** Every request of [urls] is answered with a response that is ok. *)
Definition allOk (b : Backend) (urls : list string) : Prop :=
  forall u, In u urls -> exists r, b u None = Responded r /\ ok r = true.

(** Every request [u] of [urls] is answered with a response that is ok and
    whose body decodes to [answers u]. *)
Definition answersWith (b : Backend) (urls : list string)
    (answers : string -> JsVal) : Prop :=
  forall u, In u urls ->
    exists r, b u None = Responded r /\ ok r = true /\ body r = Json (answers u).

(** The request [u] is answered with a body that does not decode. *)
Definition undecodable (b : Backend) (u : string) (message : string) : Prop :=
  exists r name, b u None = Responded r /\ body r = BadBody name message.

(** A backend that answers every request [u] with an ok response whose
    body decodes to [answers u]. *)
Definition answering (answers : string -> JsVal) : Backend :=
  fun u _ => Responded (mkResponse true u (Json (answers u))).

(** Bodies that echo the URL of the request, but for the transactions,
    whose body is [null]. *)
Definition nullTransactions (u : string) : JsVal :=
  if u === Part002.API_BASE_URL ++ "/transactions?page=1&limit=5" then JNull
  else JStr u.

(** A backend that is down: every request is rejected. *)
Definition unreachable : Backend :=
  fun _ _ => NetworkError "TypeError" "Failed to fetch".

(** A backend whose answers are all ok; the body of the mint status is cut
    short and does not decode, the vault status decodes to an object with
    a collateral ratio, every other body to [null]. *)
Definition garbled : Backend :=
  fun u _ =>
    Responded
      (mkResponse true u
         (if u === DashboardPage.API_BASE_URL ++ "/vault/mint-status"
          then BadBody "SyntaxError" "Unexpected end of JSON input"
          else if u === DashboardPage.API_BASE_URL ++ "/vault/status/"
                        ++ DashboardPage.USDC_ADDRESS
          then Json (JObj [("collateralRatio", JStr "175.00")])
          else Json JNull)).

(* ===================================================================== *)
(** ** Providers, by what they throw *)
(* ===================================================================== *)

(** [v] is [undefined] or [null]. *)
Definition nullish (v : JsVal) : bool :=
  match v with
  | JUndefined | JNull => true
  | _ => false
  end.

(** Whatever a call of the provider rejects with is a value, not
    [undefined] or [null]: the rejection of a read, of a submission, of
    the [wait()] of a transaction. *)
Definition rejectsWithValues (p : Provider) : Prop :=
  (forall token e, balanceOf p token = Throw e -> nullish e = false)
  /\ (forall c e, collateralDecimals p c = Throw e -> nullish e = false)
  /\ (forall c e, send p c = Rejected e -> nullish e = false)
  /\ (forall c e, send p c = Sent (Some e) -> nullish e = false).

(** A provider whose every state-changing call is rejected with
    [undefined]. *)
Definition mute : Provider :=
  mkProvider (fun _ => Normal 100000000) (fun _ => Normal (Some 6))
    (fun _ => Rejected JUndefined).

(* ===================================================================== *)
(** ** The call a kind of action stands for *)
(* ===================================================================== *)

(** [c] is the vault method the kind names: [depositCollateral] for a
    deposit, [withdrawCollateral] for a withdrawal, [mintTokens] for a
    mint, [burnTokens] for a repayment, [autoMint] for an auto-mint. *)
Definition isPrimary (kind : string) (c : Call) : bool :=
  match c with
  | DepositCollateral _ _ => kind === "deposit"
  | WithdrawCollateral _ _ => kind === "withdraw"
  | MintTokens _ _ => kind === "mint"
  | BurnTokens _ _ => kind === "repay"
  | AutoMint _ => kind === "auto-mint"
  | _ => false
  end.

(** The events of the vault method of [kind]: its submission, its
    confirmation. *)
Definition isPrimaryEvent (kind : string) (e : Event) : bool :=
  match e with
  | Submit c | Mined c => isPrimary kind c
  | _ => false
  end.

(* ===================================================================== *)
(** ** The amounts the validation is for, and the call a run ends on *)
(* ===================================================================== *)

(** The first character of a decimal numeral without a sign: a digit or
    the point. *)
Definition opensNumeral (c : ascii) : Prop :=
  JsString.isDigit c = true \/ c = "."%char.

Definition notWhiteSpace (c : ascii) : bool := negb (JsString.isWhiteSpace c).

(** Following the specification's words ("amount missing, non-numeric, or
    [<= 0]"), under both readings of a string as a number the sources use:
    [parseFloat], which reads the longest numeric prefix, and [Number],
    which reads the whole string. *)
Definition invalidAmount (amount : string) : Prop :=
  amount = ""
  \/ JsNumber.isNaN (JsNumber.parseFloat amount) = true
  \/ JsNumber.le0 (JsNumber.parseFloat amount) = true
  \/ JsNumber.isNaN (JsNumber.Number amount) = true
  \/ JsNumber.le0 (JsNumber.Number amount) = true.

(** The amount [s] has no exact value in base units at precision [d]: it
    is no plain decimal numeral, or it needs more than [d] fraction
    digits. *)
Definition notRepresentable (s : string) (d : Z) : Prop :=
  forall n, ~ exactUnits s d n.

(** The last contract call of a run: the last read or submission among
    its events. *)
Definition lastCall (t : list Event) : option Event :=
  match rev (filter isContractCall t) with
  | e :: _ => Some e
  | [] => None
  end.

(** The provider fails the call of the event [e] with [err]: the read
    throws [err], the submission is rejected with [err], or the
    transaction is sent and its [wait()] rejects with [err]. *)
Definition failsWith (p : Provider) (e : Event) (err : JsVal) : Prop :=
  match e with
  | Read (BalanceOf token) => balanceOf p token = Throw err
  | Read (CollateralConfigs collateral) => collateralDecimals p collateral = Throw err
  | Submit c => send p c = Rejected err \/ send p c = Sent (Some err)
  | _ => False
  end.

(* ===================================================================== *)
(** ** Further worlds of the examples *)
(* ===================================================================== *)

(** A provider as the [VAULT_ABI] of [part_002] makes it: the outputs of
    [collateralConfigs] have no names, so the decoded result has no
    [decimals] property.  The payer holds 100 USDC and every transaction is
    mined. *)
Definition unnamedOutputs : Provider :=
  mkProvider (fun _ => Normal 100000000) (fun _ => Normal None)
    (fun _ => Sent None).

(** A chain on which an [approve] is mined and any other state-changing
    call is rejected with [e]; the configuration is decoded as by
    [unnamedOutputs]. *)
Definition rejectingAfterApproval (e : JsVal) : Provider :=
  mkProvider (fun _ => Normal 100000000) (fun _ => Normal None)
    (fun c => match c with
              | Approve _ _ _ => Sent None
              | _ => Rejected e
              end).

(** A revert whose message names the [PriceStale] error, without a
    [reason]. *)
Definition staleText : JsVal :=
  JErr "Error" "execution reverted: PriceStale()"
    [("code", JStr "SERVER_ERROR");
     ("body", JStr "execution reverted: PriceStale()")].

(** A backend that refuses the vault status with an empty list of details
    and answers every other request ok, with the URL as the body. *)
Definition emptyDetail : Backend :=
  fun u _ =>
    if u === DashboardPage.API_BASE_URL ++ "/vault/status/" ++ DashboardPage.USDC_ADDRESS
    then Responded (mkResponse false u (Json (JObj [("detail", JArr [])])))
    else Responded (mkResponse true u (Json (JStr u))).

(** A backend on which the request for the protocol health is rejected and
    every other request is answered ok, with the URL as the body. *)
Definition flaky : Backend :=
  fun u _ =>
    if u === DashboardPage.API_BASE_URL ++ "/protocol/health"
    then NetworkError "TypeError" "Failed to fetch"
    else Responded (mkResponse true u (Json (JStr u))).

(** A dashboard that shows the snapshots of an earlier refresh. *)
Definition shownDashboard : DashboardPage.App.State :=
  DashboardPage.App.mkState false JNull 1700000000000
    (JObj [("collateralRatio", JStr "175.00")])
    (JObj [("dailyMinted", JStr "10")])
    (JObj [("eth_usd_price", JNum 100000000); ("decimals", JNum 8)])
    (JArr [JObj [("tx_hash", JStr "0x01")]])
    (JObj [("totalDebt", JStr "1000")]).

Definition shownDashboard2 : Part002.App.State :=
  Part002.App.mkState false JNull 1700000000000
    (JObj [("collateralRatio", JStr "175.00")])
    (JObj [("dailyMinted", JStr "10")])
    JNull
    (JArr [JObj [("tx_hash", JStr "0x01")]])
    (JObj [("totalDebt", JStr "1000")])
    (JArr [JObj [("mint_amount", JStr "5")]]).

(* ===================================================================== *)
(** ** The [App] component: the wallet connection and what is rendered *)
(* ===================================================================== *)

Module Wallet.

(** The requests [connectWallet] sends to the wallet, in the order they
  are sent. *)
Inductive Request : Type :=
| GetNetwork            (** [web3Provider.getNetwork()] *)
| SwitchChain           (** [wallet_switchEthereumChain] *)
| AddChain              (** [wallet_addEthereumChain] *)
| RequestAccounts       (** [eth_requestAccounts] *)
| GetAddress.           (** [signer.getAddress()] *)

(** An injected [window.ethereum] and the [Web3Provider] built on it, by
  their answers: [None] is a call that returns or a promise that
  resolves, [Some e] one that throws or rejects with [e]. *)
Record Injected : Type := mkInjected {
construct : option JsVal;      (** [new ethers.providers.Web3Provider(window.ethereum)] *)
getNetwork : Completion Z;     (** the [chainId] of the network *)
switchChain : option JsVal;
addChain : option JsVal;
requestAccounts : option JsVal;
getAddress : Completion string;
web3Provider : Provider        (** the provider, as [handleConfirm] uses it *)
}.

(** The state of [App] that the wallet connection and the render read and
  write, around the state [Page] of the refresh; [asked] records the
  requests sent to the wallet. *)
Record Session (Page : Type) : Type := mkSession {
authToken : JsVal;
walletAddress : JsVal;
provider : option Provider;
asked : list Request;
page : Page
}.
Arguments mkSession {Page} authToken walletAddress provider asked page.
Arguments authToken {Page} s.
Arguments walletAddress {Page} s.
Arguments provider {Page} s.
Arguments asked {Page} s.
Arguments page {Page} s.

Section Setters.

Context {Page : Type}.

Definition setWalletAddress (v : JsVal) (s : Session Page) : Session Page :=
mkSession (authToken s) v (provider s) (asked s) (page s).

Definition setProvider (v : option Provider) (s : Session Page) : Session Page :=
mkSession (authToken s) (walletAddress s) v (asked s) (page s).

Definition setAuthToken (v : JsVal) (s : Session Page) : Session Page :=
mkSession v (walletAddress s) (provider s) (asked s) (page s).

Definition onPage (f : Page -> Page) (s : Session Page) : Session Page :=
mkSession (authToken s) (walletAddress s) (provider s) (asked s) (f (page s)).

(** A request goes to the wallet. *)
Definition ask (r : Request) : M (Session Page) unit :=
modify (fun s => mkSession (authToken s) (walletAddress s) (provider s)
                 (asked s ++ [r]) (page s)).

(** A call that returns, or throws [e]. *)
Definition call (answer : option JsVal) : M (Session Page) unit :=
match answer with
| None => ret tt
| Some e => throw e
end.

End Setters.

(** What [App] renders. *)
Inductive Screen : Type :=
| AuthWall (message : string) (action : bool)   (** [action]: a button that connects *)
| LoadingSpinner
| ErrorMessage (message : JsVal)
| Dashboard.

End Wallet.

Module DashboardApp.
Import Wallet.

(** [connectWallet] of [DashboardPage.js]; [ethereum] is
  [window.ethereum], [None] when it is [undefined]. *)
Definition connectWallet (ethereum : option Injected)
: M (Session DashboardPage.App.State) unit :=
match ethereum with
| Some w =>
    tryCatch
      (call (construct w) ;;
       ask RequestAccounts ;;
       call (requestAccounts w) ;;
       ask GetAddress ;;
       address <- lift (getAddress w) ;;
       modify (setProvider (Some (web3Provider w))) ;;
       modify (setWalletAddress (JStr address)))
      (fun _ =>
         modify (onPage (DashboardPage.App.setError
                           (JStr "Wallet connection failed. Please try again."))))
| None =>
    modify (onPage (DashboardPage.App.setError
                      (JStr "MetaMask is not installed. Please install it to use this app.")))
end.

(** What [App] returns, by the component at the top. *)
Definition render (s : Session DashboardPage.App.State) : Screen :=
if negb (truthy (authToken s)) then
  AuthWall "Please log in to view the dashboard." false
else if negb (truthy (walletAddress s)) then
  AuthWall "Please connect your wallet to continue." true
else if DashboardPage.App.isLoading (page s) then LoadingSpinner
else if truthy (DashboardPage.App.error (page s)) then
  ErrorMessage (DashboardPage.App.error (page s))
else Dashboard.

End DashboardApp.

Module Part002App.
Import Wallet.

(** [connectWallet] of [part_002]. *)
Definition connectWallet (ethereum : option Injected)
: M (Session Part002.App.State) unit :=
match ethereum with
| Some w =>
    tryCatch
      (call (construct w) ;;
       ask GetNetwork ;;
       chainId <- lift (getNetwork w) ;;
       (if negb (chainId =? 80002) then
          ask SwitchChain ;;
          match switchChain w with
          | None => ret tt
          | Some e =>
              match getProp e "code" with
              | None =>
                  throw (typeError "Cannot read properties of undefined (reading 'code')")
              | Some code =>
                  if strictEqNum code 4902
                  then ask AddChain ;; call (addChain w)
                  else throw e
              end
          end
        else ret tt) ;;
       ask RequestAccounts ;;
       call (requestAccounts w) ;;
       modify (setProvider (Some (web3Provider w))) ;;
       ask GetAddress ;;
       address <- lift (getAddress w) ;;
       modify (setWalletAddress (JStr address)))
      (fun _ =>
         modify (onPage (Part002.App.setError
                           (JStr "Wallet connection failed. Please ensure you are on the Amoy network."))))
| None =>
    modify (onPage (Part002.App.setError (JStr "MetaMask is not installed.")))
end.

(** The wallet is on the Amoy chain, or it has accepted to switch to it,
  or it did not know the chain (code 4902) and has accepted to add it. *)
Definition onAmoy (w : Injected) : Prop :=
getNetwork w = Normal 80002
\/ ((exists chainId, getNetwork w = Normal chainId)
    /\ (switchChain w = None
        \/ exists e, switchChain w = Some e
                     /\ getProp e "code" = Some (JNum 4902)
                     /\ addChain w = None)).

(** What [App] of [part_002] returns, by the component at the top. *)
Definition render (s : Session Part002.App.State) : Screen :=
if negb (truthy (authToken s)) then AuthWall "Please log in." false
else if negb (truthy (walletAddress s)) then
  AuthWall "Please connect wallet." true
else if Part002.App.isLoading (page s) then LoadingSpinner
else if truthy (Part002.App.error (page s)) then
  ErrorMessage (Part002.App.error (page s))
else Dashboard.

End Part002App.

(** A wallet on another chain that refuses to switch (the user rejects
    the request, code 4001) and would otherwise grant everything. *)
Definition stubborn : Wallet.Injected :=
  Wallet.mkInjected None (Normal 1)
    (Some (JObj [("code", JNum 4001); ("message", JStr "User rejected the request.")]))
    None None (Normal "0x00000000000000000000000000000000000000a1") obliging.

(** A wallet that refuses the accounts. *)
Definition locked : Wallet.Injected :=
  Wallet.mkInjected None (Normal 80002) None None
    (Some (JObj [("code", JNum 4001); ("message", JStr "User rejected the request.")]))
    (Normal "0x00000000000000000000000000000000000000a1") obliging.

(** The session of a visitor who is logged in and has no wallet
    connected, before the first refresh. *)
Definition loggedIn : Wallet.Session DashboardPage.App.State :=
  Wallet.mkSession (JStr "token") JNull None []
    (DashboardPage.App.mkState true JNull 0 JNull JNull JNull (JArr []) JNull).

(* ===================================================================== *)
(** ** Theorems *)
(* ===================================================================== *)

Arguments Ethers.parseUnits : simpl never.
Arguments Ethers.formatUnits : simpl never.
Arguments JsNumber.parseFloat : simpl never.
Arguments JsNumber.Number : simpl never.
Arguments JsNumber.le0 : simpl never.
Arguments JsNumber.isNaN : simpl never.
Arguments stringify : simpl never.
Arguments JsString.includes : simpl never.
Arguments toString : simpl never.
Arguments String.eqb : simpl nomatch.

(** C1, at the failing input.  [handleConfirm] of [part_001] with
    [modalType = 'repay'] and amount ["10"]: the only state-changing call
    it submits is [burnTokens]; no [approve] is submitted or awaited before
    it. *)
Theorem C1_part001_repay_burns_without_approval :
  let t := trace (Part001.ActionModal.handleConfirm "repay" (Some obliging) "10"
                    DashboardPage.USDC_ADDRESS) idle in
  submissions t = [Submit (BurnTokens DashboardPage.USDC_ADDRESS 10000000)]
  /\ approvalFirst NoApproval t = false.
Proof. vm_compute. split; reflexivity. Qed.

(** C2, at the failing input.  [handleConfirm] of [part_002] with
    [type = 'deposit'], amount ["100"] and a payer who holds 50: the balance
    is never read; the [approve] is submitted and mined and the
    [depositCollateral] is submitted, and the invocation ends with the
    reason of the rejected deposit, not with an insufficient-balance
    failure. *)
Theorem C2_part002_deposit_ignores_balance :
  let m := Part002.ActionModal.handleConfirm "deposit" Part002.USDC (Some short)
             "100" (refusing "unused") in
  balanceOf short Part002.USDC = Normal 50000000
  /\ Ethers.parseUnits "100" (Some 6) = Normal 100000000
  /\ filter isBalanceRead (trace m idle) = []
  /\ filter isContractCall (trace m idle)
     = [Read (CollateralConfigs Part002.USDC);
        Submit (Approve Part002.USDC Part002.VAULT_ADDRESS 100000000);
        Submit (DepositCollateral Part002.USDC 100000000)]
  /\ In (Mined (Approve Part002.USDC Part002.VAULT_ADDRESS 100000000)) (trace m idle)
  /\ final m idle
     = mkStatus false
         (JStr "cannot estimate gas; transaction may fail or may require manual gas limit")
         JNull.
Proof. vm_compute. repeat split; try reflexivity. auto 10. Qed.

Ltac unfold_monad :=
  cbv [run trace final bind ret throw return_ tryCatch tryFinally lift emit
       modify get setStatus updateStatus readBalance readDecimals submit wait
       fetch json messageOf] in *.

(** One step of symbolic execution: split on a test the computation is
    stuck on, innermost first. *)
Ltac split_test :=
  match goal with
  | |- context [match ?x with _ => _ end] =>
      lazymatch x with
      | context [match _ with _ => _ end] => fail
      | _ => destruct x eqn:?
      end
  end.

Ltac string_tests :=
  repeat match goal with
    | H : (_ =? _)%string = true |- _ => apply String.eqb_eq in H; subst
    end.

Ltac exec := repeat (cbn in *; string_tests; try split_test).

Ltac finish :=
  cbv [confirmed failed count Workflow.error loading success] in *; cbn in *;
  repeat rewrite ?andb_false_r, ?andb_true_r in *;
  repeat split; intros; try reflexivity; try discriminate; try congruence.

Section RefreshCount.

Variables (kind amount collateral : string) (provider : option Provider)
          (b : Backend) (st0 : Status).

Lemma DashboardPage_refresh :
  refreshesAsSpecified st0 (DashboardPage.ActionModal.handleConfirm kind provider amount).
Proof.
  unfold refreshesAsSpecified, DashboardPage.ActionModal.handleConfirm.
  unfold_monad. exec; finish.
Qed.

Lemma Part001_refresh :
  refreshesAsSpecified st0 (Part001.ActionModal.handleConfirm kind provider amount collateral).
Proof.
  unfold refreshesAsSpecified, Part001.ActionModal.handleConfirm,
    Part001.ActionModal.withSuccess.
  unfold_monad. exec; finish.
Qed.

Lemma Part002_refresh :
  refreshesAsSpecified st0 (Part002.ActionModal.handleConfirm kind collateral provider amount b).
Proof.
  unfold refreshesAsSpecified, Part002.ActionModal.handleConfirm,
    Part002.ActionModal.withError.
  unfold_monad. exec; finish.
Qed.

End RefreshCount.

(** C6.  In each copy of the workflow ([DashboardPage.js], [part_002],
    [part_001]): an invocation that ends in the confirmed phase has called
    the refresh callback [onSuccess] exactly once, and an invocation that
    ends in the failed phase has not called it. *)
Theorem C6_refresh_once_when_confirmed_never_when_failed :
  forall (kind amount collateral : string) (provider : option Provider)
         (b : Backend) (st0 : Status) (m : M Status unit),
    m = DashboardPage.ActionModal.handleConfirm kind provider amount
    \/ m = Part002.ActionModal.handleConfirm kind collateral provider amount b
    \/ m = Part001.ActionModal.handleConfirm kind provider amount collateral ->
    (confirmed (final m st0) = true -> count isRefresh (trace m st0) = 1%nat)
    /\ (failed (final m st0) = true -> count isRefresh (trace m st0) = 0%nat).
Proof.
  intros kind amount collateral provider b st0 m [-> | [-> | ->]].
  - apply DashboardPage_refresh.
  - apply Part002_refresh.
  - apply Part001_refresh.
Qed.

Lemma C6_witness :
  count isRefresh
    (trace (DashboardPage.ActionModal.handleConfirm "deposit" (Some obliging) "10") idle)
  = 1%nat
  /\ count isRefresh
       (trace (Part002.ActionModal.handleConfirm "mint" Part002.USDC
                 (Some (rejecting (JObj [("code", JNum 4001)]))) "10"
                 (refusing "unused")) idle)
     = 0%nat.
Proof.
  split.
  - apply (C6_refresh_once_when_confirmed_never_when_failed
             "deposit" "10" "" (Some obliging) (refusing "") idle _
             (or_introl eq_refl)).
    reflexivity.
  - apply (C6_refresh_once_when_confirmed_never_when_failed
             "mint" "10" Part002.USDC
             (Some (rejecting (JObj [("code", JNum 4001)])))
             (refusing "unused") idle _ (or_intror (or_introl eq_refl))).
    reflexivity.
Defined.

Lemma parseUnits_zero : Ethers.parseUnits "0" (Some 6) = Normal 0.
Proof. reflexivity. Qed.

(** C3, at the failing input.  [handleConfirm] of [DashboardPage.js] with
    [modalType = 'auto-mint'] (the amount field is not shown and stays
    empty) and a connected provider: whatever the backend would answer, no
    backend request is made, and [autoMint] is the only thing that reaches
    the network. *)
Theorem C3_dashboard_auto_mint_asks_no_backend :
  forall (p : Provider) (st0 : Status),
    let t := trace (DashboardPage.ActionModal.handleConfirm "auto-mint" (Some p) "") st0 in
    count isFetch t = 0%nat
    /\ filter isNetwork t = [Submit (AutoMint DashboardPage.USDC_ADDRESS)].
Proof.
  intros p st0.
  unfold DashboardPage.ActionModal.handleConfirm. unfold_monad.
  cbn. rewrite parseUnits_zero.
  exec; finish.
Qed.

(** C10, at the failing input.  [formatNumber(null)] of [DashboardPage.js]:
    [typeof null] is not ['string'] and [isNaN(null)] is false, so the call
    goes on to [null.toLocaleString()] and throws a [TypeError]. *)
Theorem C10_formatNumber_null_throws :
  forall h : Display.Host,
    DashboardPage.formatNumber h Display.VNull
    = Throw (typeError "Cannot read properties of null (reading 'toLocaleString')").
Proof. intros h. reflexivity. Qed.

(** [ceilDiv] is the ceiling of the quotient when the divisor is positive. *)
Lemma ceilDiv_spec (a b : Z) :
  0 < b ->
  exists c, TransactionHistoryPage.ceilDiv a b = TransactionHistoryPage.QInt c
            /\ (c - 1) * b < a <= c * b.
Proof.
  intros Hb. unfold TransactionHistoryPage.ceilDiv.
  destruct (Z.eqb_spec b 0) as [->|_]; [lia|].
  exists (- (- a / b)). split; [reflexivity|].
  pose proof (Z.div_mod (- a) b ltac:(lia)) as Hdm.
  pose proof (Z.mod_pos_bound (- a) b Hb) as Hm.
  nia.
Qed.

(** C9.  [handlePageChange(p)] with [p < 1] or [p > Math.ceil(total /
    limit)] returns at once: nothing is generated or fetched and the whole
    component state, the transactions list and the pagination included, is
    as it was. *)
Theorem C9_handlePageChange_out_of_range_changes_nothing :
  forall (generateMockTransactions : Z -> Z -> string -> Z * JsVal)
         (p : Z) (s : TransactionHistoryPage.State),
    p < 1
    \/ TransactionHistoryPage.gt p
         (TransactionHistoryPage.ceilDiv
            (TransactionHistoryPage.total (TransactionHistoryPage.pagination s))
            (TransactionHistoryPage.limit (TransactionHistoryPage.pagination s)))
       = true ->
    run (TransactionHistoryPage.handlePageChange generateMockTransactions p) s
    = (Returned, mkSt s []).
Proof.
  intros gen p s H.
  unfold TransactionHistoryPage.handlePageChange. unfold_monad. cbn.
  destruct H as [H | H].
  - apply Z.ltb_lt in H. rewrite H. reflexivity.
  - rewrite H, orb_true_r. reflexivity.
Qed.

Lemma C9_witness :
  run (TransactionHistoryPage.handlePageChange (fun _ _ _ => (47, JArr [])) 6) somePage
  = (Returned, mkSt somePage []).
Proof.
  apply (C9_handlePageChange_out_of_range_changes_nothing
           (fun _ _ _ => (47, JArr [])) 6 somePage).
  right. reflexivity.
Defined.

(* --------------------------------------------------------------------- *)
(** *** The dashboard refresh *)

Section Refresh.

Variable b : Backend.

Lemma settleAll_responded urls :
  allResponded b urls ->
  exists rs, settleAll b urls = Normal rs
             /\ List.length rs = List.length urls
             /\ (someNotOk b urls -> existsb notOk rs = true).
Proof.
  induction urls as [|u urls IH]; intros Hall.
  - exists []. repeat split. intros (u & r & [] & _).
  - destruct (Hall u (or_introl eq_refl)) as [r Hr].
    destruct IH as (rs & Hrs & Hlen & Hbad).
    { intros v Hv. apply Hall. now right. }
    exists (r :: rs). cbn. rewrite Hr, Hrs. repeat split.
    + now rewrite Hlen.
    + intros (v & x & [<- | Hv] & Hx & Hok).
      * rewrite Hr in Hx. injection Hx as <-. unfold notOk at 1.
        now rewrite Hok.
      * rewrite Hbad, orb_true_r; [reflexivity|]. now exists v, x.
Qed.

Lemma startAll_state {S} urls (s : St S) :
  exists t, startAll urls s = (Done tt, mkSt (state s) t).
Proof.
  revert s. induction urls as [|u urls IH]; intros s; cbn.
  - exists (events s). now destruct s.
  - unfold bind, emit. cbn.
    destruct (IH (mkSt (state s) (events s ++ [Fetch u None]))) as [t Ht].
    exists t. exact Ht.
Qed.

Lemma checkAll_raises rs (s : St Part002.App.State) :
  existsb notOk rs = true ->
  exists name message, Part002.App.checkAll rs s = (Raised (JErr name message []), s).
Proof.
  induction rs as [|r rs IH]; cbn; [discriminate|].
  unfold notOk at 1. destruct (ok r); cbn.
  - exact IH.
  - intros _. unfold bind, json, ret, throw.
    destruct (body r) as [v | n m]; [|now eauto].
    destruct (getProp v "detail"); unfold newError, typeError; now eauto.
Qed.

End Refresh.

Lemma DashboardPage_fetchData_not_ok authToken walletAddress b now s0 :
  truthy authToken = true -> truthy walletAddress = true ->
  allResponded b DashboardPage.App.urls -> someNotOk b DashboardPage.App.urls ->
  final (DashboardPage.App.fetchData authToken walletAddress b now) s0
  = DashboardPage.App.setIsLoading false
      (DashboardPage.App.setError
         (JStr "Failed to fetch dashboard data. Your session might have expired.")
         (DashboardPage.App.setError JNull
            (DashboardPage.App.setIsLoading true s0))).
Proof.
  intros Ha Hw Hall Hbad.
  destruct (settleAll_responded b _ Hall) as (rs & Hrs & Hlen & Hex).
  specialize (Hex Hbad).
  unfold DashboardPage.App.fetchData, final, run, fetchAll.
  rewrite Ha, Hw. cbn [negb orb].
  unfold tryFinally, tryCatch, bind at 1 2 3. cbn [modify state events].
  unfold bind at 1 2.
  match goal with |- context [startAll ?u ?s] =>
    destruct (startAll_state u s) as [t Ht]; rewrite Ht end.
  unfold lift. rewrite Hrs. cbn [ret].
  destruct rs as [|r1 [|r2 [|r3 [|r4 [|r5 [|r6 rs]]]]]]; try discriminate Hlen.
  cbn in Hex. unfold notOk in Hex. rewrite orb_false_r in Hex.
  rewrite !orb_assoc in Hex. unfold bind at 1. rewrite Hex.
  reflexivity.
Qed.

Lemma Part002_fetchData_not_ok authToken walletAddress b now s0 :
  truthy authToken = true -> truthy walletAddress = true ->
  allResponded b Part002.App.urls -> someNotOk b Part002.App.urls ->
  exists message,
    final (Part002.App.fetchData authToken walletAddress b now) s0
    = Part002.App.setIsLoading false
        (Part002.App.setError (JStr message)
           (Part002.App.setError JNull (Part002.App.setIsLoading true s0))).
Proof.
  intros Ha Hw Hall Hbad.
  destruct (settleAll_responded b _ Hall) as (rs & Hrs & Hlen & Hex).
  specialize (Hex Hbad).
  unfold Part002.App.fetchData, final, run, fetchAll.
  rewrite Ha, Hw. cbn [negb orb].
  unfold tryFinally, tryCatch, bind at 1 2 3. cbn [modify state events].
  unfold bind at 1 2.
  match goal with |- context [startAll ?u ?s] =>
    destruct (startAll_state u s) as [t Ht]; rewrite Ht end.
  unfold lift. rewrite Hrs. cbn [ret].
  unfold bind at 1.
  match goal with |- context [Part002.App.checkAll rs ?s] =>
    destruct (checkAll_raises rs s Hex) as (n & m & Hc); rewrite Hc end.
  exists m. reflexivity.
Qed.

(** A run of [fetchData] in which the five requests are all answered and
    at least one answer is not ok leaves every stored snapshot (and the
    time of the last refresh) as it was, in [DashboardPage.js] and in the
    copy of [part_002], which also keeps the pending mint requests.
    [DashboardPage.js] records its fixed message; [part_002] records the
    text it makes of the first answer that is not ok. *)
Lemma fetchData_not_ok_keeps_snapshots :
  forall (authToken walletAddress : JsVal) (b : Backend) (now : Z),
    truthy authToken = true -> truthy walletAddress = true ->
    (allResponded b DashboardPage.App.urls -> someNotOk b DashboardPage.App.urls ->
     forall s0,
       let s := final (DashboardPage.App.fetchData authToken walletAddress b now) s0 in
       DashboardPage.App.error s
       = JStr "Failed to fetch dashboard data. Your session might have expired."
       /\ DashboardPage.App.vaultOverview s = DashboardPage.App.vaultOverview s0
       /\ DashboardPage.App.mintStatus s = DashboardPage.App.mintStatus s0
       /\ DashboardPage.App.oraclePrice s = DashboardPage.App.oraclePrice s0
       /\ DashboardPage.App.transactions s = DashboardPage.App.transactions s0
       /\ DashboardPage.App.protocolHealth s = DashboardPage.App.protocolHealth s0
       /\ DashboardPage.App.lastRefreshed s = DashboardPage.App.lastRefreshed s0)
    /\
    (allResponded b Part002.App.urls -> someNotOk b Part002.App.urls ->
     forall s0,
       let s := final (Part002.App.fetchData authToken walletAddress b now) s0 in
       (exists message, Part002.App.error s = JStr message)
       /\ Part002.App.vaultOverview s = Part002.App.vaultOverview s0
       /\ Part002.App.mintStatus s = Part002.App.mintStatus s0
       /\ Part002.App.oraclePrice s = Part002.App.oraclePrice s0
       /\ Part002.App.transactions s = Part002.App.transactions s0
       /\ Part002.App.protocolHealth s = Part002.App.protocolHealth s0
       /\ Part002.App.pendingRequests s = Part002.App.pendingRequests s0
       /\ Part002.App.lastRefreshed s = Part002.App.lastRefreshed s0).
Proof.
  intros authToken walletAddress b now Ha Hw. split.
  - intros Hall Hbad s0 s. subst s.
    rewrite (DashboardPage_fetchData_not_ok _ _ _ _ _ Ha Hw Hall Hbad).
    cbn. repeat split.
  - intros Hall Hbad s0 s. subst s.
    destruct (Part002_fetchData_not_ok _ _ _ now s0 Ha Hw Hall Hbad) as [m ->].
    cbn. repeat split. now exists m.
Qed.

(* --------------------------------------------------------------------- *)
(** *** The workflow of [DashboardPage.js] *)

Lemma formatUnits_six (v : Z) : exists s, Ethers.formatUnits v (Some 6) = Normal s.
Proof. unfold Ethers.formatUnits, Ethers.formatFixed. cbn. eauto. Qed.

(** In [DashboardPage.js] (and with the same tests in [part_002]) an amount
    that is missing, that [parseFloat] reads as [NaN] or that it reads as a
    value [<= 0] ends the invocation in the validation failure before
    anything reaches the network. *)
Lemma DashboardPage_invalid_amount kind provider amount st0 :
  kind <> "auto-mint" ->
  amount = ""
  \/ JsNumber.isNaN (JsNumber.parseFloat amount) = true
  \/ JsNumber.le0 (JsNumber.parseFloat amount) = true ->
  let m := DashboardPage.ActionModal.handleConfirm kind provider amount in
  filter isNetwork (trace m st0) = []
  /\ (final m st0 = mkStatus false (JStr "Amount is required.") JNull
      \/ final m st0
         = mkStatus false (JStr "Please enter a valid amount greater than zero.") JNull).
Proof.
  intros Hk Ha m. subst m.
  apply String.eqb_neq in Hk.
  unfold DashboardPage.ActionModal.handleConfirm. unfold_monad.
  destruct provider as [p|]; cbn; [|now auto].
  rewrite Hk. cbn.
  destruct (String.eqb_spec amount ""); cbn; [now auto|].
  destruct Ha as [Ha | [Ha | Ha]]; [contradiction | |];
    rewrite Ha, ?orb_true_r; cbn; now auto.
Qed.

(** In [DashboardPage.js] a deposit or a repayment of more than the payer
    holds submits nothing and ends in the insufficient-balance failure. *)
Lemma DashboardPage_insufficient_balance kind p amount st0 n bal :
  kind = "deposit" \/ kind = "repay" ->
  amount <> "" ->
  JsNumber.isNaN (JsNumber.parseFloat amount) = false ->
  JsNumber.le0 (JsNumber.parseFloat amount) = false ->
  Ethers.parseUnits amount (Some 6) = Normal n ->
  balanceOf p DashboardPage.USDC_ADDRESS = Normal bal ->
  bal < n ->
  let m := DashboardPage.ActionModal.handleConfirm kind (Some p) amount in
  filter isSubmit (trace m st0) = []
  /\ filter isNetwork (trace m st0) = [Read (BalanceOf DashboardPage.USDC_ADDRESS)]
  /\ exists shown,
       final m st0
       = mkStatus false (JStr (DashboardPage.ActionModal.insufficientMessage shown)) JNull.
Proof.
  intros Hk Ha Hnan Hle Hparse Hbal Hlt m. subst m.
  apply String.eqb_neq in Ha. apply Z.ltb_lt in Hlt.
  destruct (formatUnits_six bal) as [shown Hshown].
  unfold DashboardPage.ActionModal.handleConfirm. unfold_monad.
  destruct Hk as [-> | ->]; cbn; rewrite Ha, Hnan, Hle; cbn;
    rewrite Hparse; cbn; rewrite Hbal; cbn; rewrite Hlt, Hshown; cbn;
    repeat split; now exists shown.
Qed.

(* --------------------------------------------------------------------- *)
(** *** The classification of a rejected call in [DashboardPage.js] *)

(** The two cases in which [friendlyMessage] is a stale-oracle message. *)
Lemma friendlyMessage_stale err msg :
  (gasCode err = true /\ payloadIncludes "0xe450d38c" err = true
   /\ msg = DashboardPage.ActionModal.staleMessage)
  \/ (getProp err "code" <> None /\ gasCode err = false
      /\ truthy (getPropOpt err "reason") = false
      /\ payloadIncludes "PriceStale" err = true
      /\ msg = DashboardPage.ActionModal.staleMessageShort) ->
  DashboardPage.ActionModal.friendlyMessage err = Normal msg.
Proof.
  unfold DashboardPage.ActionModal.friendlyMessage, gasCode, payloadIncludes.
  intros [(Hg & Hp & ->) | (Hc & Hg & Hr & Hp & ->)].
  - destruct (getProp err "code"); [|discriminate].
    rewrite Hg. destruct (stringify err); [|discriminate]. now rewrite Hp.
  - destruct (getProp err "code"); [|contradiction].
    rewrite Hg, Hr. destruct (stringify err); [|discriminate]. now rewrite Hp.
Qed.

Arguments DashboardPage.ActionModal.friendlyMessage : simpl never.

(* --------------------------------------------------------------------- *)
(** *** The conversion to base units *)

Section Digits.
Import JsString.

Lemma digitsFrom_acc base val s acc :
  (digitsFrom base val s acc
   = acc * base ^ N.of_nat (String.length s) + digitsFrom base val s 0)%N.
Proof.
  revert acc. induction s as [|c s IH]; intros acc; cbn [digitsFrom String.length].
  - cbn. lia.
  - rewrite IH. rewrite (IH (0 * base + val c)%N).
    rewrite Nat2N.inj_succ, N.pow_succ_r'. lia.
Qed.

Lemma decimalValue_app a b :
  (decimalValue (a ++ b)
   = decimalValue a * 10 ^ N.of_nat (String.length b) + decimalValue b)%N.
Proof.
  unfold decimalValue.
  assert (H : forall acc, digitsFrom 10 digitVal (a ++ b) acc
                          = digitsFrom 10 digitVal b (digitsFrom 10 digitVal a acc)).
  { induction a as [|c a IH]; intros acc; cbn [append digitsFrom];
      [reflexivity | apply IH]. }
  rewrite H. apply digitsFrom_acc.
Qed.

Lemma decimalValue_zeros j : decimalValue (repeat "0" j) = 0%N.
Proof.
  unfold decimalValue. induction j as [|j IH]; [reflexivity|].
  cbn [repeat digitsFrom]. exact IH.
Qed.

Lemma length_repeat c j : String.length (repeat c j) = j.
Proof. induction j; cbn; congruence. Qed.

Lemma length_app (a b : string) :
  String.length (a ++ b) = (String.length a + String.length b)%nat.
Proof. induction a; cbn; congruence. Qed.

Lemma app_empty_r (a : string) : a ++ "" = a.
Proof. induction a; cbn; congruence. Qed.

(** A string of digits is its trimmed part followed by zeros. *)
Lemma trimTrailingZeros_spec s :
  exists j, s = Ethers.trimTrailingZeros s ++ repeat "0" j.
Proof.
  induction s as [|c s [j IH]]; [now exists O|].
  cbn [Ethers.trimTrailingZeros].
  destruct (Ethers.trimTrailingZeros s) as [|c' t] eqn:Ht.
  - cbn in IH. destruct (Ascii.eqb_spec c "0") as [-> | _].
    + exists (S j). cbn. now rewrite <- IH.
    + exists j. cbn. now rewrite <- IH.
  - exists j. cbn. cbn in IH. now rewrite <- IH.
Qed.

Lemma span_split p s a b :
  span p s = (a, b) -> s = a ++ b /\ all p a = true.
Proof.
  revert a b. induction s as [|c s IH]; intros a b; cbn.
  - intros [= <- <-]. now split.
  - destruct (p c) eqn:Hc.
    + destruct (span p s) as [a' b'].
      intros [= <- <-]. destruct (IH _ _ eq_refl) as [-> Ha].
      cbn. now rewrite Hc, Ha.
    + intros [= <- <-]. now split.
Qed.

Lemma span_stops p s a c r : span p s = (a, String c r) -> p c = false.
Proof.
  revert a. induction s as [|c' s IH]; intros a; cbn; [discriminate|].
  destruct (p c') eqn:Hc.
  - destruct (span p s) as [a' b'] eqn:Hs. intros [= <- ->]. now apply (IH a').
  - intros [= <- -> ->]. exact Hc.
Qed.

Lemma all_app p a b : all p (a ++ b) = all p a && all p b.
Proof. induction a as [|c a IH]; cbn; [reflexivity|]. now rewrite IH, andb_assoc. Qed.

Lemma span_all p s : all p s = true -> span p s = (s, "").
Proof.
  induction s as [|c s IH]; cbn; [reflexivity|].
  destruct (p c); [|discriminate]. cbn. intros H. now rewrite IH.
Qed.

Lemma span_agree p q s :
  (forall c, p c = true -> q c = true) ->
  (forall c, Ethers.isDigitOrDot c = true -> q c = true -> p c = true) ->
  all Ethers.isDigitOrDot s = true ->
  span q s = span p s.
Proof.
  intros Hpq Hqp. induction s as [|c s IH]; cbn; [reflexivity|].
  destruct (Ethers.isDigitOrDot c) eqn:Hc; [|discriminate]. cbn. intros Hs.
  destruct (p c) eqn:Hp.
  - rewrite (Hpq _ Hp). now rewrite IH.
  - destruct (q c) eqn:Hq; [|reflexivity].
    now rewrite (Hqp _ Hc Hq) in Hp.
Qed.

Lemma digit_not_dot c : isDigit c = true -> Ethers.notDot c = true.
Proof.
  unfold Ethers.notDot. destruct (Ascii.eqb_spec c "."); [subst; discriminate|reflexivity].
Qed.

Lemma not_dot_digit c :
  Ethers.isDigitOrDot c = true -> Ethers.notDot c = true -> isDigit c = true.
Proof.
  unfold Ethers.isDigitOrDot, Ethers.notDot.
  destruct (isDigit c), (Ascii.eqb c "."); cbn; congruence.
Qed.

Lemma not_digit_dot c :
  Ethers.isDigitOrDot c = true -> isDigit c = false -> c = "."%char.
Proof.
  unfold Ethers.isDigitOrDot. intros H Hd. rewrite Hd in H. cbn in H.
  now apply Ascii.eqb_eq.
Qed.

Lemma all_digits f :
  all Ethers.isDigitOrDot f = true -> all Ethers.notDot f = true ->
  all isDigit f = true.
Proof.
  induction f as [|c f IH]; cbn; [reflexivity|].
  intros H1 H2. apply andb_prop in H1 as [H1 H1'], H2 as [H2 H2'].
  now rewrite (not_dot_digit _ H1 H2), IH.
Qed.

End Digits.

Arguments JsString.decimalValue : simpl never.

Section Conversion.
Import JsString.

Lemma value_app a b :
  Z.of_N (decimalValue (a ++ b))
  = Z.of_N (decimalValue a) * 10 ^ Z.of_nat (String.length b)
    + Z.of_N (decimalValue b).
Proof.
  rewrite decimalValue_app, N2Z.inj_add, N2Z.inj_mul, N2Z.inj_pow, nat_N_Z.
  reflexivity.
Qed.

Lemma value_padded t j :
  Z.of_N (decimalValue (t ++ repeat "0" j))
  = Z.of_N (decimalValue t) * 10 ^ Z.of_nat j.
Proof. rewrite value_app, length_repeat, decimalValue_zeros. cbn. lia. Qed.

Lemma strip_minus s :
  match s with String "-" r => r | _ => s end
  = if startsWith "-" s then drop 1 s else s.
Proof.
  destruct s as [|c r]; [reflexivity|].
  destruct c as [[] [] [] [] [] [] [] []]; reflexivity.
Qed.

(** The fraction digits [f], trimmed of their zeros and padded to [z]
    digits as [parseFixed] does it, keep their value. *)
Lemma fraction_exact f z :
  let f0 := if String.eqb f "" then "0" else f in
  let t := Ethers.trimTrailingZeros f0 in
  let f2 := if String.eqb t "" then "0" else t in
  (z <? String.length t)%nat = false ->
  Z.of_N (decimalValue (f2 ++ repeat "0" (z - String.length f2)))
    * 10 ^ Z.of_nat (String.length f)
  = Z.of_N (decimalValue f) * 10 ^ Z.of_nat z.
Proof.
  intros f0 t f2 Hz. apply Nat.ltb_ge in Hz.
  destruct (trimTrailingZeros_spec f0) as [j Hj]. fold t in Hj.
  assert (Hf : Z.of_N (decimalValue f) = Z.of_N (decimalValue t) * 10 ^ Z.of_nat j
               /\ (Z.of_N (decimalValue t) = 0
                   \/ String.length f = (String.length t + j)%nat)).
  { subst f0. destruct (String.eqb_spec f "") as [-> | Hne].
    - cbn in t. subst t. cbn. auto.
    - clearbody t. rewrite Hj. rewrite value_padded, length_app, length_repeat. auto. }
  destruct Hf as [Hf Hlen].
  assert (Hp : Z.of_N (decimalValue (f2 ++ repeat "0" (z - String.length f2)))
               = Z.of_N (decimalValue t) * 10 ^ Z.of_nat (z - String.length t)).
  { subst f2. destruct (String.eqb_spec t "") as [Ht | Hne].
    - rewrite Ht. change ("0" ++ repeat "0" (z - String.length "0"))
        with (repeat "0" (S (z - 1))).
      now rewrite decimalValue_zeros.
    - apply value_padded. }
  rewrite Hp, Hf.
  destruct Hlen as [-> | ->]; [lia|].
  rewrite <- !Z.mul_assoc, <- !Z.pow_add_r by lia.
  do 2 f_equal. lia.
Qed.

(** [parseFixed] is exact: when it returns, the integer it returns at
    precision [d] is the amount the numeral denotes. *)
Lemma parseFixed_exact s d n :
  Ethers.parseFixed s d = Normal n -> exactUnits s d n.
Proof.
  unfold Ethers.parseFixed, Ethers.getMultiplier, Ethers.throwArgumentError,
    Ethers.throwFault, Ethers.matchesDecimal, exactUnits, decimalOf.
  destruct ((0 <=? d) && (d <=? 256)) eqn:Hd; [|discriminate].
  apply andb_prop in Hd as [Hd _]. apply Z.leb_le in Hd.
  rewrite strip_minus. cbv zeta.
  set (negative := startsWith "-" s).
  set (body := if negative then drop 1 s else s).
  clearbody body. clearbody negative.
  destruct (negb (String.eqb body "") && all Ethers.isDigitOrDot body) eqn:Hm;
    [|discriminate].
  apply andb_prop in Hm as [Hne Hall]. cbn [negb].
  destruct (String.eqb body ".") eqn:Hdot; [discriminate|].
  rewrite (span_agree isDigit Ethers.notDot body digit_not_dot not_dot_digit Hall).
  destruct (span isDigit body) as [w r] eqn:Hspan.
  destruct (span_split _ _ _ _ Hspan) as [Hbw Hw].
  assert (Hwhole : Z.of_N (decimalValue (if String.eqb w "" then "0" else w))
                   = Z.of_N (decimalValue w)).
  { destruct (String.eqb_spec w "") as [-> | _]; reflexivity. }
  set (z := Z.to_nat d). assert (Hz : Z.of_nat z = d) by (subst z; lia).
  destruct r as [|c f].
  - (* no decimal point *)
    rewrite app_empty_r in Hbw. subst w.
    apply negb_true_iff in Hne. rewrite Hne. cbn.
    intros [= <-]. eexists _, O. split; [reflexivity|].
    change (String "0" (repeat "0" (z - 1))) with (repeat "0" (S (z - 1))).
    rewrite decimalValue_zeros, Hz. cbn.
    destruct negative; lia.
  - (* a decimal point and the fraction [f] *)
    assert (Hc : c = "."%char).
    { apply not_digit_dot; [|exact (span_stops _ _ _ _ _ Hspan)].
      rewrite Hbw, all_app in Hall. cbn in Hall.
      apply andb_prop in Hall as [_ Hall].
      now apply andb_prop in Hall as [Hall _]. }
    subst c.
    assert (Hf : all Ethers.isDigitOrDot f = true).
    { rewrite Hbw, all_app in Hall. cbn in Hall.
      now apply andb_prop in Hall as [_ Hall]. }
    destruct (all Ethers.notDot f) eqn:Hnd; cbn [negb]; [|discriminate].
    rewrite (all_digits f Hf Hnd). cbn [andb].
    destruct (z <? String.length
                     (Ethers.trimTrailingZeros (if String.eqb f "" then "0" else f)))%nat
      eqn:Hlen; [discriminate|].
    intros [= <-].
    assert (Hwf : negb (String.eqb w "" && String.eqb f "") = true).
    { destruct (String.eqb_spec w "") as [-> | _]; [|reflexivity].
      destruct (String.eqb_spec f "") as [-> | _]; [|reflexivity].
      cbn in Hbw. rewrite Hbw in Hdot. discriminate. }
    rewrite Hwf. eexists _, _. split; [reflexivity|].
    pose proof (fraction_exact f z Hlen) as Hfrac. cbv zeta in Hfrac.
    rewrite Hwhole, (value_app w f), Hz. rewrite Hz in Hfrac.
    set (P := Z.of_N (decimalValue (_ ++ repeat _ _))) in *.
    set (W := Z.of_N (decimalValue w)) in *.
    set (F := Z.of_N (decimalValue f)) in *.
    set (K := 10 ^ Z.of_nat (String.length f)) in *.
    set (D := 10 ^ d) in *.
    destruct negative; nia.
Qed.

Lemma parseUnits_exact s d n :
  Ethers.parseUnits s (Some d) = Normal n -> exactUnits s d n.
Proof. apply parseFixed_exact. Qed.

End Conversion.

Ltac read_submission Hin Hc :=
  cbn in Hin;
  repeat (destruct Hin as [Hin | Hin]; try discriminate Hin);
  try contradiction;
  injection Hin as <-; cbn in Hc; injection Hc as <-.

(* --------------------------------------------------------------------- *)
(** *** The eligibility check of [part_002] *)

Lemma truthy_or_default a s : s <> "" -> truthy (or a (JStr s)) = true.
Proof.
  intros Hs. unfold or. destruct (truthy a) eqn:Ha; [exact Ha|].
  cbn. apply String.eqb_neq in Hs. now rewrite Hs.
Qed.

(** In [part_002] an auto-mint with a connected provider asks the backend
    before anything else reaches the network; when the answer is not ok no
    contract call is made and the invocation ends failed; when the body of
    that answer carries a [detail] string, that string is the error shown. *)
Lemma Part002_auto_mint_asks_backend_first collateral p amount b st0 :
  let m := Part002.ActionModal.handleConfirm "auto-mint" collateral (Some p) amount b in
  let request :=
    Fetch Part002.ActionModal.autoMintUrl
      (stringify (JObj [("collateral_address", JStr collateral)])) in
  (exists rest, filter isNetwork (trace m st0) = request :: rest)
  /\ (forall r,
        b Part002.ActionModal.autoMintUrl
          (stringify (JObj [("collateral_address", JStr collateral)])) = Responded r ->
        ok r = false ->
        filter isNetwork (trace m st0) = [request]
        /\ failed (final m st0) = true
        /\ forall v reason,
             body r = Json v -> getProp v "detail" = Some (JStr reason) ->
             reason <> "" ->
             final m st0 = mkStatus false (JStr reason) JNull).
Proof.
  intros m request. subst m request.
  unfold Part002.ActionModal.handleConfirm, Part002.ActionModal.withError.
  unfold_monad.
  generalize Part002.ActionModal.autoMintUrl. intros u.
  set (payload := stringify _). clearbody payload.
  cbn. rewrite andb_false_r.
  destruct (b u payload) as [nm msg | r] eqn:Hb; cbn.
  - split; [eauto|]. intros r' [=].
  - split.
    + exec; eauto.
    + intros r' [= <-] Hok. rewrite Hok. cbn.
      destruct (body r) as [v | nm msg] eqn:Hbody; cbn.
      * destruct (getProp v "detail") as [d|] eqn:Hd; cbn.
        -- unfold Part002.ActionModal.message. cbn.
           split; [reflexivity|]. split.
           ++ apply truthy_or_default. discriminate.
           ++ intros v' reason [= <-] Hr Hne. rewrite Hd in Hr. injection Hr as ->.
              apply String.eqb_neq in Hne.
              unfold or, toString. cbn. rewrite Hne. cbn. rewrite Hne. reflexivity.
        -- repeat split. intros v' reason [= <-] Hr. rewrite Hd in Hr. discriminate.
      * unfold Part002.ActionModal.message. cbn.
        split; [reflexivity|]. split.
        -- apply truthy_or_default. discriminate.
        -- intros v' reason [=].
Qed.

(* --------------------------------------------------------------------- *)
(** *** What the copies leave out *)

(** In [part_001] a repayment never submits an [approve], whatever the
    provider answers. *)
Lemma Part001_repay_never_approves provider amount collateral st0 :
  filter isApproveSubmit
    (trace (Part001.ActionModal.handleConfirm "repay" provider amount collateral) st0)
  = [].
Proof.
  unfold Part001.ActionModal.handleConfirm, Part001.ActionModal.withSuccess.
  unfold_monad. exec; reflexivity.
Qed.

(** In [part_002] a repayment never submits an [approve] either, whatever
    the provider and the backend answer. *)
Lemma Part002_repay_never_approves provider amount collateral b st0 :
  filter isApproveSubmit
    (trace (Part002.ActionModal.handleConfirm "repay" collateral provider amount b) st0)
  = [].
Proof.
  unfold Part002.ActionModal.handleConfirm, Part002.ActionModal.withError.
  unfold_monad. exec; reflexivity.
Qed.

(** [part_001] never reads the payer's balance. *)
Lemma Part001_never_reads_balance kind provider amount collateral st0 :
  filter isBalanceRead
    (trace (Part001.ActionModal.handleConfirm kind provider amount collateral) st0)
  = [].
Proof.
  unfold Part001.ActionModal.handleConfirm, Part001.ActionModal.withSuccess.
  unfold_monad. exec; reflexivity.
Qed.

(** [part_002] never reads the payer's balance. *)
Lemma Part002_never_reads_balance kind provider amount collateral b st0 :
  filter isBalanceRead
    (trace (Part002.ActionModal.handleConfirm kind collateral provider amount b) st0)
  = [].
Proof.
  unfold Part002.ActionModal.handleConfirm, Part002.ActionModal.withError.
  unfold_monad. exec; reflexivity.
Qed.

(** [handleConfirm] of [DashboardPage.js] never asks the backend. *)
Lemma DashboardPage_never_fetches kind provider amount st0 :
  filter isFetch (trace (DashboardPage.ActionModal.handleConfirm kind provider amount) st0)
  = [].
Proof.
  unfold DashboardPage.ActionModal.handleConfirm. unfold_monad. exec; reflexivity.
Qed.

(* --------------------------------------------------------------------- *)
(** *** The display formatters *)

(** [formatNumber] of [part_002] returns a string for every value. *)
Lemma Part002_formatNumber_total h v :
  exists s, Part002.formatNumber h v = Normal s.
Proof.
  unfold Part002.formatNumber.
  destruct (JsNumber.isNaN (Display.parseFloatOf v)); cbn; eauto.
Qed.

(** The formatters of [part_002] fall back on the fixed strings when
    [parseFloat] reads [NaN]. *)
Lemma Part002_formatters_fallback h v d :
  JsNumber.isNaN (Display.parseFloatOf v) = true ->
  Part002.formatNumber h v = Normal "0"
  /\ Part002.formatCurrency h v d = Normal "$0.00".
Proof.
  intros H. unfold Part002.formatNumber, Part002.formatCurrency. now rewrite H.
Qed.

(** The formatters of [DashboardPage.js] fall back on the fixed strings
    when [isNaN] holds of the value they test: [undefined], a string that
    [parseFloat] reads as [NaN], the number [NaN], an object. *)
Lemma DashboardPage_formatters_fallback h d :
  forall v,
    v = Display.VUndefined \/ v = Display.VObject
    \/ v = Display.VNumber JsNumber.NaN
    \/ (exists s, v = Display.VString s
                  /\ JsNumber.isNaN (JsNumber.parseFloat s) = true) ->
    DashboardPage.formatNumber h v = Normal "0"
    /\ DashboardPage.formatCurrency h v d = Normal "$0.00".
Proof.
  intros v [-> | [-> | [-> | (s & -> & Hs)]]];
    unfold DashboardPage.formatNumber, DashboardPage.formatCurrency; cbn;
    rewrite ?Hs; split; reflexivity.
Qed.

(** [formatCurrency] of [DashboardPage.js] throws on a number of fraction
    digits the host rejects. *)
Lemma DashboardPage_formatCurrency_range h x d :
  JsNumber.isNaN x = false ->
  d < 0 \/ Display.maxFractionDigits h < d ->
  exists e, DashboardPage.formatCurrency h (Display.VNumber x) (Some d) = Throw e.
Proof.
  intros Hx Hd. unfold DashboardPage.formatCurrency, Display.intlCurrency. cbn.
  rewrite Hx.
  destruct ((0 <=? d) && (d <=? Display.maxFractionDigits h)) eqn:Hr; [|eauto].
  apply andb_prop in Hr as [H1 H2]. apply Z.leb_le in H1, H2. lia.
Qed.

(* --------------------------------------------------------------------- *)
(** *** The order of approval and transfer in [DashboardPage.js] *)

Lemma seen_extend a before e : seen a before -> seen a (before ++ [e])%list.
Proof.
  destruct a; cbn; [trivial | |].
  - intros (p1 & x & p2 & -> & Hx). exists p1, x, (p2 ++ [e])%list.
    now rewrite <- app_assoc.
  - intros (p1 & x & p2 & y & p3 & -> & Hx & Hy).
    exists p1, x, p2, y, (p3 ++ [e])%list.
    rewrite <- !app_assoc. cbn. now rewrite <- app_assoc.
Qed.

(** What [approvalFirst] checks: before every submitted transfer an
    [approve] was submitted and, after that, an [approve] was mined. *)
Lemma approvalFirst_sound t :
  forall a before,
    seen a before -> approvalFirst a t = true ->
    forall pre c post,
      t = (pre ++ Submit c :: post)%list -> isTransfer c = true ->
      seen ApprovalMined (before ++ pre)%list.
Proof.
  induction t as [|e r IH]; intros a before Hseen Hcheck pre c post Ht Hc.
  - now destruct pre.
  - destruct pre as [|e' pre'].
    + cbn in Ht. injection Ht as -> ->. rewrite app_nil_r.
      cbn in Hcheck. destruct c; try discriminate Hc; cbn in Hcheck;
        destruct a; try discriminate Hcheck; exact Hseen.
    + cbn in Ht. injection Ht as <- ->.
      replace (before ++ e :: pre')%list with ((before ++ [e]) ++ pre')%list
        by now rewrite <- app_assoc.
      assert (Hnext : exists a', seen a' (before ++ [e])%list
                                 /\ approvalFirst a' (pre' ++ Submit c :: post)%list = true).
      { destruct e as [c0 | c0 | c0 | | | | |]; cbn in Hcheck.
        - exists a. split; [now apply seen_extend | exact Hcheck].
        - destruct (isApprove c0) eqn:Ha.
          + exists ApprovalSent. split; [|exact Hcheck].
            exists before, c0, []. now split.
          + destruct (isTransfer c0).
            * destruct a; try discriminate Hcheck.
              exists ApprovalMined. split; [now apply seen_extend | exact Hcheck].
            * exists a. split; [now apply seen_extend | exact Hcheck].
        - destruct (isApprove c0) eqn:Ha.
          + destruct a.
            * exists NoApproval. now split.
            * exists ApprovalMined. split; [|exact Hcheck].
              destruct Hseen as (p1 & x & p2 & -> & Hx).
              exists p1, x, p2, c0, []. rewrite <- app_assoc. now repeat split.
            * exists ApprovalMined. split; [now apply seen_extend | exact Hcheck].
          + exists a. split; [now apply seen_extend | exact Hcheck].
        - exists a. split; [now apply seen_extend | exact Hcheck].
        - exists a. split; [now apply seen_extend | exact Hcheck].
        - exists a. split; [now apply seen_extend | exact Hcheck].
        - exists a. split; [now apply seen_extend | exact Hcheck].
        - exists a. split; [now apply seen_extend | exact Hcheck]. }
      destruct Hnext as (a' & Hseen' & Hcheck').
      exact (IH a' _ Hseen' Hcheck' pre' c post eq_refl Hc).
Qed.

Lemma DashboardPage_approval_first kind provider amount st0 :
  approvalFirst NoApproval
    (trace (DashboardPage.ActionModal.handleConfirm kind provider amount) st0)
  = true.
Proof.
  unfold DashboardPage.ActionModal.handleConfirm. unfold_monad.
  exec; reflexivity.
Qed.

(** In [DashboardPage.js], whatever the kind, the amount and the answers of
    the provider: when a [depositCollateral] or a [burnTokens] is submitted,
    an [approve] was submitted before it and an [approve] was mined between
    the two. *)
Lemma DashboardPage_transfer_after_confirmed_approval
    kind provider amount st0 pre c post :
  trace (DashboardPage.ActionModal.handleConfirm kind provider amount) st0
  = (pre ++ Submit c :: post)%list ->
  isTransfer c = true ->
  exists p1 x p2 y p3,
    pre = (p1 ++ Submit x :: p2 ++ Mined y :: p3)%list
    /\ isApprove x = true /\ isApprove y = true.
Proof.
  intros Ht Hc.
  exact (approvalFirst_sound _ NoApproval [] I
           (DashboardPage_approval_first kind provider amount st0)
           pre c post Ht Hc).
Qed.

Lemma DashboardPage_transfer_after_confirmed_approval_witness :
  exists p1 x p2 y p3,
    [SetStatus (mkStatus true JNull (JStr "Preparing transaction..."));
     Read (BalanceOf DashboardPage.USDC_ADDRESS);
     SetStatus (mkStatus true JNull (JStr "Waiting for approval..."));
     Submit (Approve DashboardPage.USDC_ADDRESS DashboardPage.VAULT_ADDRESS 10000000);
     Mined (Approve DashboardPage.USDC_ADDRESS DashboardPage.VAULT_ADDRESS 10000000);
     SetStatus (mkStatus true JNull (JStr "Approval successful. Repaying debt..."))]
    = (p1 ++ Submit x :: p2 ++ Mined y :: p3)%list
    /\ isApprove x = true /\ isApprove y = true.
Proof.
  apply (DashboardPage_transfer_after_confirmed_approval
           "repay" (Some obliging) "10" idle _
           (BurnTokens DashboardPage.USDC_ADDRESS 10000000)
           [SetStatus (mkStatus true JNull (JStr "Transaction sent..."));
            Mined (BurnTokens DashboardPage.USDC_ADDRESS 10000000);
            SetStatus (mkStatus false JNull (JStr "Transaction successful!"));
            Refresh; CloseLater]).
  - reflexivity.
  - reflexivity.
Defined.

Lemma DashboardPage_insufficient_balance_witness :
  let m := DashboardPage.ActionModal.handleConfirm "deposit" (Some obliging) "100.5" in
  filter isSubmit (trace m idle) = []
  /\ filter isNetwork (trace m idle) = [Read (BalanceOf DashboardPage.USDC_ADDRESS)]
  /\ exists shown,
       final m idle
       = mkStatus false (JStr (DashboardPage.ActionModal.insufficientMessage shown)) JNull.
Proof.
  apply (DashboardPage_insufficient_balance "deposit" obliging "100.5" idle
           100500000 100000000).
  - now left.
  - discriminate.
  - reflexivity.
  - reflexivity.
  - reflexivity.
  - reflexivity.
  - reflexivity.
Defined.

Lemma DashboardPage_invalid_amount_witness :
  let m := DashboardPage.ActionModal.handleConfirm "deposit" (Some obliging) "0" in
  filter isNetwork (trace m idle) = []
  /\ (final m idle = mkStatus false (JStr "Amount is required.") JNull
      \/ final m idle
         = mkStatus false (JStr "Please enter a valid amount greater than zero.") JNull).
Proof.
  apply (DashboardPage_invalid_amount "deposit" (Some obliging) "0" idle).
  - discriminate.
  - right. right. reflexivity.
Defined.

Lemma parseFixed_exact_witness : exactUnits "0.25" 6 250000.
Proof. apply (parseFixed_exact "0.25" 6 250000). reflexivity. Defined.

Lemma Part002_auto_mint_asks_backend_first_witness :
  let m := Part002.ActionModal.handleConfirm "auto-mint" Part002.USDC
             (Some obliging) "" (refusing "cooldown active") in
  let request :=
    Fetch Part002.ActionModal.autoMintUrl
      (stringify (JObj [("collateral_address", JStr Part002.USDC)])) in
  filter isNetwork (trace m idle) = [request]
  /\ failed (final m idle) = true
  /\ final m idle = mkStatus false (JStr "cooldown active") JNull.
Proof.
  destruct (Part002_auto_mint_asks_backend_first Part002.USDC obliging ""
              (refusing "cooldown active") idle) as [_ H].
  destruct (H _ eq_refl eq_refl) as (Hnet & Hfailed & Hreason).
  split; [exact Hnet|]. split; [exact Hfailed|].
  apply (Hreason _ "cooldown active" eq_refl eq_refl). discriminate.
Defined.

Lemma DashboardPage_formatters_fallback_witness :
  DashboardPage.formatNumber someHost (Display.VString "n/a") = Normal "0"
  /\ DashboardPage.formatCurrency someHost (Display.VString "n/a") None
     = Normal "$0.00".
Proof.
  apply (DashboardPage_formatters_fallback someHost None (Display.VString "n/a")).
  right. right. right. exists "n/a". split; reflexivity.
Defined.

(** The scenario of the specification: a deposit of 10 with a balance of
    100, approval and transfer mined.  The statuses follow one another as
    preparing, waiting for approval, depositing, sent, successful, and the
    refresh runs once. *)
Lemma Scenario_deposit_runs_to_confirmation :
  let m := DashboardPage.ActionModal.handleConfirm "deposit" (Some obliging) "10" in
  filter (fun e => negb (isNetwork e)) (trace m idle)
  = [SetStatus (mkStatus true JNull (JStr "Preparing transaction..."));
     SetStatus (mkStatus true JNull (JStr "Waiting for approval..."));
     Mined (Approve DashboardPage.USDC_ADDRESS DashboardPage.VAULT_ADDRESS 10000000);
     SetStatus (mkStatus true JNull (JStr "Approval successful. Depositing..."));
     SetStatus (mkStatus true JNull (JStr "Transaction sent..."));
     Mined (DepositCollateral DashboardPage.USDC_ADDRESS 10000000);
     SetStatus (mkStatus false JNull (JStr "Transaction successful!"));
     Refresh; CloseLater]
  /\ filter isNetwork (trace m idle)
     = [Read (BalanceOf DashboardPage.USDC_ADDRESS);
        Submit (Approve DashboardPage.USDC_ADDRESS DashboardPage.VAULT_ADDRESS 10000000);
        Submit (DepositCollateral DashboardPage.USDC_ADDRESS 10000000)]
  /\ confirmed (final m idle) = true.
Proof. vm_compute. repeat split; reflexivity. Qed.

(* ===================================================================== *)
(** ** The transaction history: mock data, pages and controls *)
(* ===================================================================== *)

Section Slices.

Context {A : Type}.

Lemma firstn_add (a b : nat) (l : list A) :
  firstn (a + b) l = (firstn a l ++ firstn b (skipn a l))%list.
Proof.
  revert l. induction a as [|a IH]; intros l; [reflexivity|].
  destruct l as [|x l]; cbn.
  - now rewrite firstn_nil.
  - now rewrite IH.
Qed.

Lemma firstn_min (n : nat) (l : list A) :
  firstn (Nat.min n (List.length l)) l = firstn n l.
Proof.
  destruct (Nat.le_ge_cases n (List.length l)) as [H | H].
  - now rewrite Nat.min_l.
  - rewrite Nat.min_r by exact H. now rewrite !firstn_all2 by lia.
Qed.

(** The slice of page [p] with [k] rows a page, for [p >= 1]. *)
Lemma slice_page (l : list A) (p k : Z) :
  1 <= p -> 0 <= k ->
  TransactionHistoryView.slice l ((p - 1) * k) ((p - 1) * k + k)
  = firstn (Z.to_nat k) (skipn (Z.to_nat ((p - 1) * k)) l).
Proof.
  intros Hp Hk. unfold TransactionHistoryView.slice, TransactionHistoryView.relativeIndex.
  set (len := Z.of_nat (List.length l)).
  set (start := (p - 1) * k).
  assert (Hs : 0 <= start) by (subst start; nia).
  destruct (Z.ltb_spec start 0) as [?|_]; [lia|].
  destruct (Z.ltb_spec (start + k) 0) as [?|_]; [lia|].
  destruct (Z.le_gt_cases len start) as [Hge | Hlt].
  - rewrite (skipn_all2 l (n := Z.to_nat (Z.min start len))) by (subst len; lia).
    rewrite (skipn_all2 l (n := Z.to_nat start)) by (subst len; lia).
    now rewrite !firstn_nil.
  - rewrite (Z.min_l start len) by lia.
    rewrite <- (firstn_min (Z.to_nat k)).
    f_equal. rewrite length_skipn. subst len. lia.
Qed.

Lemma slice_length (l : list A) (p k : Z) :
  1 <= p -> 0 <= k ->
  Z.of_nat (List.length (TransactionHistoryView.slice l ((p - 1) * k) ((p - 1) * k + k)))
  = Z.max 0 (Z.min k (Z.of_nat (List.length l) - (p - 1) * k)).
Proof.
  intros Hp Hk. rewrite slice_page by assumption.
  rewrite length_firstn, length_skipn. nia.
Qed.

Lemma slice_incl (l : list A) (a b : Z) (x : A) :
  In x (TransactionHistoryView.slice l a b) -> In x l.
Proof.
  unfold TransactionHistoryView.slice. intros H.
  match type of H with In _ (firstn ?n (skipn ?k _)) =>
    rewrite <- (firstn_skipn k l); apply in_or_app; right;
    rewrite <- (firstn_skipn n (skipn k l)); apply in_or_app; now left
  end.
Qed.

(** The first [n] pages, one after the other, are the first [n * k]
    elements. *)
Lemma pages_concat (l : list A) (k : Z) (n : nat) :
  0 <= k ->
  flat_map (fun p => TransactionHistoryView.slice l
                       ((Z.of_nat p - 1) * k) ((Z.of_nat p - 1) * k + k))
    (seq 1 n)
  = firstn (n * Z.to_nat k) l.
Proof.
  intros Hk. induction n as [|n IH]; [reflexivity|].
  rewrite seq_S, flat_map_app, IH. cbn [flat_map].
  rewrite app_nil_r, slice_page by lia.
  replace (Z.to_nat ((Z.of_nat (1 + n) - 1) * k)) with (n * Z.to_nat k)%nat by nia.
  replace (S n * Z.to_nat k)%nat with (n * Z.to_nat k + Z.to_nat k)%nat by lia.
  now rewrite firstn_add.
Qed.

End Slices.

Section HistoryView.

Import TransactionHistoryView.

(** The event name of a mock transaction depends on its index only. *)
Lemma filtered_length h h' type :
List.length (filtered h type) = List.length (filtered h' type).
Proof.
unfold filtered, allTransactions.
destruct (type === "all"); [now rewrite !length_map|].
induction (seq 0 47) as [|i l IH]; [reflexivity|].
cbn [map filter]. cbn [mockTransaction event_name].
destruct (nth (i mod 5) eventTypes "" === type); cbn [List.length]; now rewrite IH.
Qed.

Lemma filtered_names h type t :
In t (filtered h type) ->
In t (allTransactions h) /\ (type <> "all" -> event_name t = type).
Proof.
unfold filtered. destruct (String.eqb_spec type "all") as [-> | Hne].
- intros H. split; [exact H | congruence].
- intros H. apply filter_In in H as [H1 H2]. split; [exact H1|].
  intros _. now apply String.eqb_eq in H2.
Qed.

(** A page of the mock generator, for a page number of at least 1 and a
  limit that is not negative: it holds [limit] transactions, or what is
  left of the matching ones after the pages before it, or none; each one
  is one of the 47 mock transactions and, unless [type] is ['all'],
  carries the event name [type]. *)
Lemma generateMockTransactions_page h page limit type :
1 <= page -> 0 <= limit ->
let data := generateMockTransactions h page limit type in
Z.of_nat (List.length (snd data))
= Z.max 0 (Z.min limit (fst data - (page - 1) * limit))
/\ forall t, In t (snd data) ->
             In t (allTransactions h) /\ (type <> "all" -> event_name t = type).
Proof.
intros Hp Hl data. subst data. unfold generateMockTransactions. cbn [fst snd].
split.
- now apply slice_length.
- intros t Ht. apply slice_incl in Ht. now apply filtered_names.
Qed.

Lemma generateMockTransactions_page_witness :
let data := generateMockTransactions steadyHost 5 10 "TokensMinted" in
Z.of_nat (List.length (snd data))
= Z.max 0 (Z.min 10 (fst data - (5 - 1) * 10))
/\ forall t, In t (snd data) ->
             In t (allTransactions steadyHost)
             /\ ("TokensMinted" <> "all" -> event_name t = "TokensMinted").
Proof.
apply (generateMockTransactions_page steadyHost 5 10 "TokensMinted"); lia.
Defined.

(** Reading the pages 1 to [n] of the mock generator one after the other,
  with a positive limit and [n] pages being enough for the total, gives
  every matching mock transaction once, in the order of the list: no page
  overlaps the next and none is skipped. *)
Lemma generateMockTransactions_pages_cover h limit type n :
0 < limit ->
fst (generateMockTransactions h 1 limit type) <= Z.of_nat n * limit ->
flat_map (fun p => snd (generateMockTransactions h (Z.of_nat p) limit type))
  (seq 1 n)
= filtered h type.
Proof.
intros Hl Hn. unfold generateMockTransactions in *. cbn [fst snd] in *.
rewrite pages_concat by lia. apply firstn_all2. nia.
Qed.

Lemma generateMockTransactions_pages_cover_witness :
flat_map (fun p => snd (generateMockTransactions steadyHost (Z.of_nat p) 10 "all"))
  (seq 1 5)
= filtered steadyHost "all".
Proof.
apply (generateMockTransactions_pages_cover steadyHost 10 "all" 5).
- lia.
- vm_compute. discriminate.
Defined.

(* --------------------------------------------------------------------- *)
(** *** The states the page goes through *)

Lemma fetchTransactions_final h p type s :
after (fetchTransactions h p type) s
= TransactionHistoryPage.mkState
    (snd (generated h p (TransactionHistoryPage.limit
                           (TransactionHistoryPage.pagination s)) type))
    (TransactionHistoryPage.mkPagination p
       (TransactionHistoryPage.limit (TransactionHistoryPage.pagination s))
       (fst (generated h p (TransactionHistoryPage.limit
                              (TransactionHistoryPage.pagination s)) type)))
    (TransactionHistoryPage.filterType s) false JNull.
Proof. reflexivity. Qed.

Lemma shows_fetched h p type s :
TransactionHistoryPage.limit (TransactionHistoryPage.pagination s) = 10 ->
TransactionHistoryPage.filterType s = type ->
1 <= p ->
p = 1 \/ (p - 1) * 10 < Z.of_nat (List.length (filtered h type)) ->
shows h (after (fetchTransactions h p type) s).
Proof.
intros Hl Hf Hp Hr. rewrite fetchTransactions_final, Hl.
unfold shows. cbn. rewrite Hf. repeat split; assumption.
Qed.

Lemma step_shows ha s :
(exists h, shows h s) -> exists h, shows h (after (act ha) s).
Proof.
intros [h Hs]. destruct ha as [h' [p | type]]; unfold act; cbn [fst snd].
- (* handlePageChange *)
  destruct Hs as (Hl & Hp & Hr & Ht & Hrows & Hload & Herr).
  unfold handlePageChange, TransactionHistoryPage.handlePageChange, after, final, run.
  unfold bind at 1. cbn [get state].
  destruct (ceilDiv_spec
              (TransactionHistoryPage.total (TransactionHistoryPage.pagination s))
              10 eq_refl) as (c & Hc & Hlow & Hhigh).
  rewrite Hl, Hc. cbn [TransactionHistoryPage.gt].
  destruct (Z.ltb_spec p 1) as [H1 | H1]; cbn [orb].
  + exists h. unfold shows. cbn. repeat split; assumption.
  + destruct (Z.ltb_spec c p) as [H2 | H2].
    * exists h. unfold shows. cbn. repeat split; assumption.
    * exists h'.
      apply (shows_fetched h' p _ s Hl eq_refl H1).
      right. rewrite <- (filtered_length h h'), <- Ht. nia.
- (* handleFilterChange *)
  unfold handleFilterChange, after, final, run. unfold bind at 1. cbn [get state].
  destruct (String.eqb_spec
              (TransactionHistoryPage.filterType s) type) as [Heq | Hne].
  + exists h. exact Hs.
  + exists h'. unfold bind at 1. cbn [modify state events].
    destruct Hs as (Hl & _).
    apply (shows_fetched h' 1 type
             (setFilterType type s)); cbn; auto with zarith.
Qed.

(** The invariant of the page: after the first render and any sequence of
  page changes and filter changes, the page shows page [page >= 1] of the mock transactions of
  the chosen filter at ten to a page: the page is not past the last one
  (it is 1 when nothing matches), the total is the number of matching
  mock transactions, the rows are those of that page, and the view is
  neither loading nor in error. *)
Lemma session_invariant h0 l :
exists h, shows h (session h0 l).
Proof.
unfold session.
assert (H0 : exists h, shows h (after (mount h0) initial)).
{ exists h0. apply (shows_fetched h0 1 "all" initial); auto with zarith. }
revert H0. generalize (after (mount h0) initial).
induction l as [|ha l IH]; intros s Hs; [exact Hs|].
cbn [fold_left]. apply IH. now apply step_shows.
Qed.

(** After the first render and any sequence of page changes and filter
  changes, the state is one that [shows] describes: page [page >= 1] of
  the matching mock transactions at ten to a page, not past the last
  page, with the rows of that page, not loading and without error. *)
Lemma session_shows_a_page h0 l :
exists h, shows h (session h0 l).
Proof. exact (session_invariant h0 l). Qed.

Lemma handlePageChange_accepts h s p :
TransactionHistoryPage.limit (TransactionHistoryPage.pagination s) = 10 ->
1 <= p ->
(p - 1) * 10 < TransactionHistoryPage.total (TransactionHistoryPage.pagination s) ->
after (handlePageChange h p) s
= after (fetchTransactions h p (TransactionHistoryPage.filterType s)) s.
Proof.
intros Hl Hp Hr.
unfold handlePageChange, TransactionHistoryPage.handlePageChange, after, final, run.
unfold bind at 1. cbn [get state].
destruct (ceilDiv_spec
            (TransactionHistoryPage.total (TransactionHistoryPage.pagination s))
            10 eq_refl) as (c & Hc & Hlow & Hhigh).
rewrite Hl, Hc. cbn [TransactionHistoryPage.gt].
destruct (Z.ltb_spec p 1) as [H1 | H1]; [lia|].
destruct (Z.ltb_spec c p) as [H2 | H2]; [nia|].
reflexivity.
Qed.

Lemma handlePageChange_refuses h s p :
TransactionHistoryPage.limit (TransactionHistoryPage.pagination s) = 10 ->
TransactionHistoryPage.total (TransactionHistoryPage.pagination s) <= (p - 1) * 10 ->
after (handlePageChange h p) s = s.
Proof.
intros Hl Hr.
unfold handlePageChange, TransactionHistoryPage.handlePageChange, after, final, run.
unfold bind at 1. cbn [get state].
destruct (ceilDiv_spec
            (TransactionHistoryPage.total (TransactionHistoryPage.pagination s))
            10 eq_refl) as (c & Hc & Hlow & Hhigh).
rewrite Hl, Hc. cbn [TransactionHistoryPage.gt].
destruct (Z.ltb_spec p 1) as [H1 | H1]; [reflexivity|].
destruct (Z.ltb_spec c p) as [H2 | H2]; [reflexivity | nia].
Qed.

(** The line "Showing a to b of n results" of [PaginationControls] agrees
  with the table in every state the page goes through: when something
  matches, [a] is the number of the first row of the page, [b - a + 1]
  is the number of rows shown and [1 <= a <= b <= n]; when nothing
  matches, the line reads 0 to 0 of 0 and the table has no row. *)
Lemma PaginationControls_counts_the_rows h0 l :
let s := session h0 l in
let p := TransactionHistoryPage.pagination s in
let c := PaginationControls p in
(0 < TransactionHistoryPage.total p ->
 startRecord c = (TransactionHistoryPage.page p - 1) * 10 + 1
 /\ rows s = Some (Z.to_nat (endRecord c - startRecord c + 1))
 /\ 1 <= startRecord c <= endRecord c
 /\ endRecord c <= TransactionHistoryPage.total p)
/\ (TransactionHistoryPage.total p = 0 ->
    startRecord c = 0 /\ endRecord c = 0 /\ rows s = Some 0%nat).
Proof.
intros s p c. subst p c.
destruct (session_invariant h0 l) as (h & Hl & Hp & Hr & Ht & Hrows & _).
fold s in Hl, Hp, Hr, Ht, Hrows.
unfold PaginationControls, rows. cbn [startRecord endRecord].
rewrite Hrows, Hl, length_map.
pose proof (slice_length (filtered h (TransactionHistoryPage.filterType s))
              (TransactionHistoryPage.page (TransactionHistoryPage.pagination s))
              10 Hp ltac:(lia)) as Hlen.
rewrite <- Ht in Hlen.
set (n := List.length _) in *.
split.
- intros Hpos. apply Z.ltb_lt in Hpos as Hb. rewrite Hb.
  split; [reflexivity|]. split; [f_equal; lia | lia].
- intros H0. rewrite H0. cbn.
  split; [reflexivity|]. split; [lia|]. f_equal. lia.
Qed.

(** The two buttons of [PaginationControls] in every state the page goes
  through: a left button that is not disabled leads to the page before, a
  right button that is not disabled leads to the next page when
  something matches; when nothing matches, the line reads "Page 1 of 0",
  the right button is not disabled and pressing it changes nothing. *)
Lemma PaginationControls_buttons h0 l h :
let s := session h0 l in
let p := TransactionHistoryPage.pagination s in
let c := PaginationControls p in
let pageAfter := fun n =>
  TransactionHistoryPage.page
    (TransactionHistoryPage.pagination (after (handlePageChange h n) s)) in
(previousDisabled c = false ->
 pageAfter (previousPage c) = TransactionHistoryPage.page p - 1)
/\ (nextDisabled c = false -> 0 < TransactionHistoryPage.total p ->
    pageAfter (nextPage c) = TransactionHistoryPage.page p + 1)
/\ (TransactionHistoryPage.total p = 0 ->
    TransactionHistoryPage.page p = 1
    /\ totalPages c = TransactionHistoryPage.QInt 0
    /\ nextDisabled c = false
    /\ after (handlePageChange h (nextPage c)) s = s).
Proof.
intros s p c pageAfter. subst p c pageAfter.
destruct (session_invariant h0 l) as (h' & Hl & Hp & Hr & Ht & _).
fold s in Hl, Hp, Hr, Ht.
unfold PaginationControls.
cbn [previousDisabled previousPage nextDisabled nextPage totalPages].
destruct (ceilDiv_spec
            (TransactionHistoryPage.total (TransactionHistoryPage.pagination s))
            10 eq_refl) as (c & Hc & Hlow & Hhigh).
rewrite Hl, Hc. cbn [equalsQuotient].
split; [|split].
- intros Hprev. apply Z.eqb_neq in Hprev.
  rewrite handlePageChange_accepts by (try assumption; lia).
  now rewrite fetchTransactions_final.
- intros Hnext Hpos. apply Z.eqb_neq in Hnext.
  rewrite handlePageChange_accepts by (try assumption; nia).
  now rewrite fetchTransactions_final.
- intros H0. rewrite H0 in *.
  assert (c = 0) by lia. subst c.
  assert (Hp1 : TransactionHistoryPage.page (TransactionHistoryPage.pagination s) = 1)
    by lia.
  rewrite Hp1. repeat split.
  apply handlePageChange_refuses; [assumption | lia].
Qed.

End HistoryView.

(* ===================================================================== *)
(** ** The dashboard refresh, for every backend *)
(* ===================================================================== *)

(** [fetchData] of [DashboardPage.js] and of [part_002], called with a
    token and a wallet address: whatever the backend answers, the five
    requests are issued, in the order of the array and nothing else, and
    the run ends with [isLoading] false. *)
Lemma fetchData_asks_five_and_stops_loading authToken walletAddress b now :
  truthy authToken = true -> truthy walletAddress = true ->
  (forall s0,
     let m := DashboardPage.App.fetchData authToken walletAddress b now in
     trace m s0 = map (fun u => Fetch u None) DashboardPage.App.urls
     /\ DashboardPage.App.isLoading (final m s0) = false)
  /\ (forall s0,
        let m := Part002.App.fetchData authToken walletAddress b now in
        trace m s0 = map (fun u => Fetch u None) Part002.App.urls
        /\ Part002.App.isLoading (final m s0) = false).
Proof.
  intros Ha Hw. split; intros s0 m; subst m.
  - unfold DashboardPage.App.fetchData. rewrite Ha, Hw. cbn [negb orb].
    unfold fetchAll, DashboardPage.App.urls. unfold_monad.
    exec; split; reflexivity.
  - unfold Part002.App.fetchData. rewrite Ha, Hw. cbn [negb orb].
    unfold fetchAll, Part002.App.urls. unfold_monad.
    exec; unfold_monad; exec; split; reflexivity.
Qed.

Lemma fetchData_asks_five_and_stops_loading_witness :
  trace (DashboardPage.App.fetchData (JStr "token") (JStr "0xabc") expired 7)
    emptyDashboard
  = map (fun u => Fetch u None) DashboardPage.App.urls
  /\ DashboardPage.App.isLoading
       (final (DashboardPage.App.fetchData (JStr "token") (JStr "0xabc") expired 7)
          emptyDashboard)
     = false.
Proof.
  apply (proj1 (fetchData_asks_five_and_stops_loading (JStr "token") (JStr "0xabc")
                  expired 7 eq_refl eq_refl) emptyDashboard).
Defined.

Section Settling.

Variable b : Backend.

Lemma settleAll_rejected urls :
  someRejected b urls ->
  exists u name message,
    In u urls /\ b u None = NetworkError name message
    /\ settleAll b urls = Throw (JErr name message []).
Proof.
  induction urls as [|u urls IH]; intros (v & n & m & Hin & Hv).
  - destruct Hin.
  - cbn. destruct (b u None) as [n' m' | r] eqn:Hu.
    + exists u, n', m'. auto.
    + destruct Hin as [<- | Hin]; [congruence|].
      destruct IH as (u2 & n2 & m2 & Hin2 & Hb2 & ->); [now exists v, n, m|].
      exists u2, n2, m2. auto.
Qed.

Lemma startAll_events {S} urls (s : St S) :
  startAll urls s
  = (Done tt, mkSt (state s) (events s ++ map (fun u => Fetch u None) urls)).
Proof.
  revert s. induction urls as [|u urls IH]; intros s; cbn.
  - rewrite app_nil_r. now destruct s.
  - unfold bind, emit. rewrite IH. cbn. now rewrite <- app_assoc.
Qed.

End Settling.

(** A refresh in which a request is rejected (the backend cannot be
    reached) records the message of the rejection of one of the rejected
    requests, stops loading and leaves every snapshot and the time of the
    last refresh as they were, in [DashboardPage.js] and in [part_002]. *)
Lemma fetchData_rejected_request_keeps_snapshots authToken walletAddress b now :
  truthy authToken = true -> truthy walletAddress = true ->
  (someRejected b DashboardPage.App.urls ->
   forall s0, exists u name message,
     In u DashboardPage.App.urls /\ b u None = NetworkError name message
     /\ final (DashboardPage.App.fetchData authToken walletAddress b now) s0
        = DashboardPage.App.mkState false (JStr message)
            (DashboardPage.App.lastRefreshed s0) (DashboardPage.App.vaultOverview s0)
            (DashboardPage.App.mintStatus s0) (DashboardPage.App.oraclePrice s0)
            (DashboardPage.App.transactions s0) (DashboardPage.App.protocolHealth s0))
  /\ (someRejected b Part002.App.urls ->
      forall s0, exists u name message,
        In u Part002.App.urls /\ b u None = NetworkError name message
        /\ final (Part002.App.fetchData authToken walletAddress b now) s0
           = Part002.App.mkState false (JStr message)
               (Part002.App.lastRefreshed s0) (Part002.App.vaultOverview s0)
               (Part002.App.mintStatus s0) (Part002.App.oraclePrice s0)
               (Part002.App.transactions s0) (Part002.App.protocolHealth s0)
               (Part002.App.pendingRequests s0)).
Proof.
  intros Ha Hw. split; intros Hrej s0.
  - destruct (settleAll_rejected b _ Hrej) as (u & n & m & Hin & Hb & Hs).
    exists u, n, m. split; [exact Hin | split; [exact Hb|]].
    unfold DashboardPage.App.fetchData, final, run, fetchAll.
    rewrite Ha, Hw. cbn [negb orb].
    unfold tryFinally, tryCatch, bind at 1 2 3. cbn [modify state events].
    unfold bind at 1 2. rewrite startAll_events, Hs. reflexivity.
  - destruct (settleAll_rejected b _ Hrej) as (u & n & m & Hin & Hb & Hs).
    exists u, n, m. split; [exact Hin | split; [exact Hb|]].
    unfold Part002.App.fetchData, final, run, fetchAll.
    rewrite Ha, Hw. cbn [negb orb].
    unfold tryFinally, tryCatch, bind at 1 2 3. cbn [modify state events].
    unfold bind at 1 2. rewrite startAll_events, Hs. reflexivity.
Qed.

Lemma fetchData_rejected_request_keeps_snapshots_witness :
  (exists u name message,
     In u DashboardPage.App.urls /\ flaky u None = NetworkError name message
     /\ final (DashboardPage.App.fetchData (JStr "token") (JStr "0xabc") flaky
                 1700000060000) shownDashboard
        = DashboardPage.App.mkState false (JStr message) 1700000000000
            (JObj [("collateralRatio", JStr "175.00")])
            (JObj [("dailyMinted", JStr "10")])
            (JObj [("eth_usd_price", JNum 100000000); ("decimals", JNum 8)])
            (JArr [JObj [("tx_hash", JStr "0x01")]])
            (JObj [("totalDebt", JStr "1000")]))
  /\ (exists u name message,
        In u Part002.App.urls /\ flaky u None = NetworkError name message
        /\ final (Part002.App.fetchData (JStr "token") (JStr "0xabc") flaky
                    1700000060000) shownDashboard2
           = Part002.App.mkState false (JStr message) 1700000000000
               (JObj [("collateralRatio", JStr "175.00")])
               (JObj [("dailyMinted", JStr "10")])
               JNull
               (JArr [JObj [("tx_hash", JStr "0x01")]])
               (JObj [("totalDebt", JStr "1000")])
               (JArr [JObj [("mint_amount", JStr "5")]])).
Proof.
  pose proof (fetchData_rejected_request_keeps_snapshots (JStr "token") (JStr "0xabc")
                flaky 1700000060000 eq_refl eq_refl) as [HD HP].
  split.
  - apply (HD ltac:(eexists _, _, _; split;
                    [right; right; right; right; left; reflexivity | reflexivity])
             shownDashboard).
  - apply (HP ltac:(eexists _, _, _; split;
                    [right; right; left; reflexivity | reflexivity])
             shownDashboard2).
Defined.

(** The five answers of a run of [fetchData], from what is known of the
    backend on each of the five URLs. *)
Ltac five_answers H urls :=
  let get i :=
    let r := fresh "r" in
    let Hr := fresh "Hr" in
    destruct (H (nth i urls "") ltac:(cbn; tauto)) as (r & Hr);
    cbn in Hr in
  get 0%nat; get 1%nat; get 2%nat; get 3%nat; get 4%nat.

Ltac use_answers :=
  repeat match goal with
    | H : _ /\ _ |- _ => destruct H
    end;
  repeat match goal with
    | H : ?b ?u None = Responded _ |- _ => rewrite H; clear H
    end;
  cbn;
  repeat match goal with
    | H : ok _ = _ |- _ => rewrite H; clear H
    | H : body _ = _ |- _ => rewrite H; clear H
    end;
  cbn.

(** A refresh of [DashboardPage.js] in which the five requests are
    answered ok with bodies that decode replaces the five snapshots by the
    five bodies, clears the error, stops loading and takes the time. *)
Lemma DashboardPage_fetchData_success authToken walletAddress b now answers s0 :
  truthy authToken = true -> truthy walletAddress = true ->
  answersWith b DashboardPage.App.urls answers ->
  final (DashboardPage.App.fetchData authToken walletAddress b now) s0
  = DashboardPage.App.mkState false JNull now
      (answers (DashboardPage.API_BASE_URL ++ "/vault/status/"
                ++ DashboardPage.USDC_ADDRESS))
      (answers (DashboardPage.API_BASE_URL ++ "/vault/mint-status"))
      (answers (DashboardPage.API_BASE_URL ++ "/oracle/price"))
      (answers (DashboardPage.API_BASE_URL ++ "/transactions?page=1&limit=5"))
      (answers (DashboardPage.API_BASE_URL ++ "/protocol/health")).
Proof.
  intros Ha Hw Hans.
  five_answers Hans DashboardPage.App.urls.
  unfold DashboardPage.App.fetchData. rewrite Ha, Hw. cbn [negb orb].
  unfold fetchAll, DashboardPage.App.urls. unfold_monad. cbn.
  use_answers. reflexivity.
Qed.

Lemma DashboardPage_fetchData_success_witness :
  final (DashboardPage.App.fetchData (JStr "token") (JStr "0xabc")
           (answering (fun u => JStr u)) 7) emptyDashboard
  = DashboardPage.App.mkState false JNull 7
      (JStr (DashboardPage.API_BASE_URL ++ "/vault/status/"
             ++ DashboardPage.USDC_ADDRESS))
      (JStr (DashboardPage.API_BASE_URL ++ "/vault/mint-status"))
      (JStr (DashboardPage.API_BASE_URL ++ "/oracle/price"))
      (JStr (DashboardPage.API_BASE_URL ++ "/transactions?page=1&limit=5"))
      (JStr (DashboardPage.API_BASE_URL ++ "/protocol/health")).
Proof.
  apply (DashboardPage_fetchData_success (JStr "token") (JStr "0xabc")
           (answering (fun u => JStr u)) 7 (fun u => JStr u) emptyDashboard).
  - reflexivity.
  - reflexivity.
  - intros u _. eexists. repeat split.
Defined.

(** A refresh of [DashboardPage.js] is not all-or-nothing when a body
    fails to decode: with five ok answers, a vault body that decodes to [v]
    and a mint-status body that does not decode, the vault overview is
    replaced by [v], the message of the decoding error is recorded, and the
    other snapshots and the time of the last refresh stay as they were. *)
Lemma DashboardPage_fetchData_partial_on_undecodable_body
    authToken walletAddress b now v message s0 :
  truthy authToken = true -> truthy walletAddress = true ->
  allOk b DashboardPage.App.urls ->
  (exists r, b (DashboardPage.API_BASE_URL ++ "/vault/status/"
                ++ DashboardPage.USDC_ADDRESS) None = Responded r
             /\ body r = Json v) ->
  undecodable b (DashboardPage.API_BASE_URL ++ "/vault/mint-status") message ->
  final (DashboardPage.App.fetchData authToken walletAddress b now) s0
  = DashboardPage.App.mkState false (JStr message)
      (DashboardPage.App.lastRefreshed s0) v
      (DashboardPage.App.mintStatus s0) (DashboardPage.App.oraclePrice s0)
      (DashboardPage.App.transactions s0) (DashboardPage.App.protocolHealth s0).
Proof.
  intros Ha Hw Hok (rv & Hrv & Hbv) (rm & n & Hrm & Hbm).
  five_answers Hok DashboardPage.App.urls.
  cbn in Hrv, Hrm.
  repeat match goal with H : _ /\ _ |- _ => destruct H end.
  assert (r = rv) by congruence. assert (r0 = rm) by congruence. subst.
  unfold DashboardPage.App.fetchData. rewrite Ha, Hw. cbn [negb orb].
  unfold fetchAll, DashboardPage.App.urls. unfold_monad. cbn.
  use_answers. reflexivity.
Qed.

Lemma DashboardPage_fetchData_partial_on_undecodable_body_witness :
  final (DashboardPage.App.fetchData (JStr "token") (JStr "0xabc") garbled 7)
    emptyDashboard
  = DashboardPage.App.mkState false (JStr "Unexpected end of JSON input") 0
      (JObj [("collateralRatio", JStr "175.00")]) JNull JNull (JArr []) JNull.
Proof.
  apply (DashboardPage_fetchData_partial_on_undecodable_body
           (JStr "token") (JStr "0xabc") garbled 7
           (JObj [("collateralRatio", JStr "175.00")])
           "Unexpected end of JSON input" emptyDashboard).
  - reflexivity.
  - reflexivity.
  - intros u Hu. cbn in Hu.
    repeat (destruct Hu as [<- | Hu]; [eexists; split; reflexivity|]).
    destruct Hu.
  - eexists. split; reflexivity.
  - eexists _, _. split; reflexivity.
Defined.

(** A refresh of [part_002] in which the five requests are answered ok
    and one of the bodies does not decode records the message of a decoding
    error and leaves every snapshot as it was: the bodies are decoded
    together, before any snapshot is replaced. *)
Lemma Part002_fetchData_undecodable_body_keeps_snapshots
    authToken walletAddress b now u message s0 :
  truthy authToken = true -> truthy walletAddress = true ->
  allOk b Part002.App.urls ->
  In u Part002.App.urls -> undecodable b u message ->
  exists shown,
    final (Part002.App.fetchData authToken walletAddress b now) s0
    = Part002.App.mkState false (JStr shown)
        (Part002.App.lastRefreshed s0) (Part002.App.vaultOverview s0)
        (Part002.App.mintStatus s0) (Part002.App.oraclePrice s0)
        (Part002.App.transactions s0) (Part002.App.protocolHealth s0)
        (Part002.App.pendingRequests s0).
Proof.
  intros Ha Hw Hok Hu (ru & n & Hru & Hbu).
  five_answers Hok Part002.App.urls.
  repeat match goal with H : _ /\ _ |- _ => destruct H end.
  unfold Part002.App.fetchData. rewrite Ha, Hw. cbn [negb orb].
  unfold fetchAll, Part002.App.urls. unfold_monad. cbn.
  cbn in Hu.
  repeat match goal with
    | H : ?b ?u None = Responded _ |- _ => rewrite H
    end.
  cbn.
  repeat match goal with
    | H : ok _ = _ |- _ => rewrite H; clear H
    end.
  cbn.
  assert (Hbad : body r = BadBody n message \/ body r0 = BadBody n message
                 \/ body r1 = BadBody n message \/ body r2 = BadBody n message
                 \/ body r3 = BadBody n message).
  { destruct Hu as [<- | [<- | [<- | [<- | [<- | []]]]]]; cbn in Hru;
      rewrite Hru in *;
      repeat match goal with H : Responded _ = Responded _ |- _ =>
               injection H as <- end; tauto. }
  clear - Hbad.
  destruct (body r) as [v|n1 m1]; cbn; [|eexists; reflexivity].
  destruct (body r0) as [v0|n2 m2]; cbn; [|eexists; reflexivity].
  destruct (body r1) as [v1|n3 m3]; cbn; [|eexists; reflexivity].
  destruct (body r2) as [v2|n4 m4]; cbn; [|eexists; reflexivity].
  destruct (body r3) as [v3|n5 m5]; cbn; [|eexists; reflexivity].
  exfalso. intuition discriminate.
Qed.

Lemma Part002_fetchData_undecodable_body_keeps_snapshots_witness :
  exists shown,
    final (Part002.App.fetchData (JStr "token") (JStr "0xabc") garbled 7)
      emptyDashboard2
    = Part002.App.mkState false (JStr shown) 0 JNull JNull JNull (JArr []) JNull
        (JArr []).
Proof.
  apply (Part002_fetchData_undecodable_body_keeps_snapshots
           (JStr "token") (JStr "0xabc") garbled 7
           (Part002.API_BASE_URL ++ "/vault/mint-status")
           "Unexpected end of JSON input" emptyDashboard2).
  - reflexivity.
  - reflexivity.
  - intros u Hu. cbn in Hu.
    repeat (destruct Hu as [<- | Hu]; [eexists; split; reflexivity|]).
    destruct Hu.
  - cbn. tauto.
  - eexists _, _. split; reflexivity.
Defined.

(** A refresh of [part_002] in which the five requests are answered ok
    with bodies that decode, the one of the transactions to a value that is
    not [null]: the vault overview, the mint status and the protocol health
    are replaced by their bodies, the transactions by the [transactions] of
    their body and the pending requests by their body, each of the two by
    an empty array when it is falsy; the oracle price stays as it was. *)
Lemma Part002_fetchData_success authToken walletAddress b now answers t s0 :
  truthy authToken = true -> truthy walletAddress = true ->
  answersWith b Part002.App.urls answers ->
  getProp (answers (Part002.API_BASE_URL ++ "/transactions?page=1&limit=5"))
    "transactions" = Some t ->
  final (Part002.App.fetchData authToken walletAddress b now) s0
  = Part002.App.mkState false JNull now
      (answers (Part002.API_BASE_URL ++ "/vault/status/" ++ Part002.USDC))
      (answers (Part002.API_BASE_URL ++ "/vault/mint-status"))
      (Part002.App.oraclePrice s0)
      (or t (JArr []))
      (answers (Part002.API_BASE_URL ++ "/protocol/health"))
      (or (answers (Part002.API_BASE_URL ++ "/mint/requests")) (JArr [])).
Proof.
  intros Ha Hw Hans Ht.
  five_answers Hans Part002.App.urls.
  unfold Part002.App.fetchData. rewrite Ha, Hw. cbn [negb orb].
  unfold fetchAll, Part002.App.urls. unfold_monad. cbn.
  use_answers. cbn in Ht. rewrite Ht. reflexivity.
Qed.

Lemma Part002_fetchData_success_witness :
  final (Part002.App.fetchData (JStr "token") (JStr "0xabc")
           (answering (fun u => JObj [("transactions", JStr u)])) 7) emptyDashboard2
  = Part002.App.mkState false JNull 7
      (JObj [("transactions",
              JStr (Part002.API_BASE_URL ++ "/vault/status/" ++ Part002.USDC))])
      (JObj [("transactions", JStr (Part002.API_BASE_URL ++ "/vault/mint-status"))])
      JNull
      (JStr (Part002.API_BASE_URL ++ "/transactions?page=1&limit=5"))
      (JObj [("transactions", JStr (Part002.API_BASE_URL ++ "/protocol/health"))])
      (JObj [("transactions", JStr (Part002.API_BASE_URL ++ "/mint/requests"))]).
Proof.
  apply (Part002_fetchData_success (JStr "token") (JStr "0xabc")
           (answering (fun u => JObj [("transactions", JStr u)])) 7
           (fun u => JObj [("transactions", JStr u)])
           (JStr (Part002.API_BASE_URL ++ "/transactions?page=1&limit=5"))
           emptyDashboard2).
  - reflexivity.
  - reflexivity.
  - intros u _. eexists. repeat split.
  - reflexivity.
Defined.

(** A refresh of [part_002] is not all-or-nothing when the body of the
    transactions decodes to [null]: the vault overview, the mint status and
    the protocol health are replaced, then reading [transactions] of
    [null] throws; the error is recorded and the transactions, the pending
    requests and the time of the last refresh stay as they were. *)
Lemma Part002_fetchData_partial_on_null_transactions
    authToken walletAddress b now answers s0 :
  truthy authToken = true -> truthy walletAddress = true ->
  answersWith b Part002.App.urls answers ->
  answers (Part002.API_BASE_URL ++ "/transactions?page=1&limit=5") = JNull ->
  exists shown,
    final (Part002.App.fetchData authToken walletAddress b now) s0
    = Part002.App.mkState false (JStr shown) (Part002.App.lastRefreshed s0)
        (answers (Part002.API_BASE_URL ++ "/vault/status/" ++ Part002.USDC))
        (answers (Part002.API_BASE_URL ++ "/vault/mint-status"))
        (Part002.App.oraclePrice s0)
        (Part002.App.transactions s0)
        (answers (Part002.API_BASE_URL ++ "/protocol/health"))
        (Part002.App.pendingRequests s0).
Proof.
  intros Ha Hw Hans Ht.
  five_answers Hans Part002.App.urls.
  unfold Part002.App.fetchData. rewrite Ha, Hw. cbn [negb orb].
  unfold fetchAll, Part002.App.urls. unfold_monad. cbn.
  use_answers. cbn in Ht. rewrite Ht. cbn. eexists. reflexivity.
Qed.

Lemma Part002_fetchData_partial_on_null_transactions_witness :
  exists shown,
    final (Part002.App.fetchData (JStr "token") (JStr "0xabc")
             (answering nullTransactions) 7) emptyDashboard2
    = Part002.App.mkState false (JStr shown) 0
        (JStr (Part002.API_BASE_URL ++ "/vault/status/" ++ Part002.USDC))
        (JStr (Part002.API_BASE_URL ++ "/vault/mint-status"))
        JNull (JArr [])
        (JStr (Part002.API_BASE_URL ++ "/protocol/health"))
        (JArr []).
Proof.
  apply (Part002_fetchData_partial_on_null_transactions (JStr "token") (JStr "0xabc")
           (answering nullTransactions) 7 nullTransactions emptyDashboard2).
  - reflexivity.
  - reflexivity.
  - intros u _. eexists. repeat split.
  - reflexivity.
Defined.

(* ===================================================================== *)
(** ** [handleConfirm]: how an invocation ends *)
(* ===================================================================== *)

Lemma getProp_none v k : getProp v k = None -> nullish v = true.
Proof. destruct v; cbn; congruence. Qed.

Lemma stringify_none v : stringify v = None -> nullish v = true.
Proof. destruct v; cbn; try discriminate; reflexivity. Qed.

Lemma parseUnits_throws_an_error s d e :
  Ethers.parseUnits s d = Throw e -> nullish e = false.
Proof.
  unfold Ethers.parseUnits, Ethers.parseFixed, Ethers.getMultiplier,
    Ethers.throwArgumentError, Ethers.throwFault, Ethers.makeError.
  repeat match goal with
    | |- context [match ?x with _ => _ end] =>
        lazymatch x with
        | context [match _ with _ => _ end] => fail
        | _ => destruct x
        end
    end; intros [= <-]; reflexivity.
Qed.

Lemma formatUnits_throws_an_error v d e :
  Ethers.formatUnits v d = Throw e -> nullish e = false.
Proof.
  unfold Ethers.formatUnits, Ethers.formatFixed, Ethers.getMultiplier,
    Ethers.throwArgumentError, Ethers.makeError.
  repeat match goal with
    | |- context [match ?x with _ => _ end] =>
        lazymatch x with
        | context [match _ with _ => _ end] => fail
        | _ => destruct x
        end
    end; intros [= <-]; reflexivity.
Qed.

(** Close a branch in which the [catch] block was handed [undefined] or
    [null], against what is known of the provider. *)
Ltac no_nullish :=
  match goal with
  | Hp : rejectsWithValues _ |- _ =>
      destruct Hp as (Hbal & Hcfg & Hrej & Hwait)
  | _ => idtac
  end;
  repeat match goal with
    | H : getProp _ _ = None |- _ => apply getProp_none in H
    | H : stringify _ = None |- _ => apply stringify_none in H
    end;
  repeat match goal with
    | H : Ethers.parseUnits _ _ = Throw _ |- _ => apply parseUnits_throws_an_error in H
    | H : Ethers.formatUnits _ _ = Throw _ |- _ => apply formatUnits_throws_an_error in H
    | Hrej : forall c e, send ?p c = Rejected e -> _, H : send ?p _ = Rejected _ |- _ =>
        apply Hrej in H
    | Hwait : forall c e, send ?p c = Sent (Some e) -> _, H : send ?p _ = Sent (Some _) |- _ =>
        apply Hwait in H
    | Hbal : forall t e, balanceOf ?p t = Throw e -> _, H : balanceOf ?p _ = Throw _ |- _ =>
        apply Hbal in H
    | Hcfg : forall c e, collateralDecimals ?p c = Throw e -> _,
      H : collateralDecimals ?p _ = Throw _ |- _ =>
        apply Hcfg in H
    end;
  unfold newError, typeError in *; cbn [nullish] in *;
  congruence.

(** [handleConfirm] never leaves the modal loading when the provider
    rejects with values: whatever the kind, the amount and the answers of
    the provider and of the backend, the run ends with [loading] false, in
    [DashboardPage.js], in [part_001] and, from a status that is not
    loading, in [part_002] (whose validation failures keep the [loading]
    of the status they start from). *)
Lemma handleConfirm_stops_loading kind p amount collateral b st0 :
  rejectsWithValues p ->
  loading (final (DashboardPage.ActionModal.handleConfirm kind (Some p) amount) st0)
  = false
  /\ loading (final (Part001.ActionModal.handleConfirm kind (Some p) amount collateral)
                st0)
     = false
  /\ (loading st0 = false ->
      loading (final (Part002.ActionModal.handleConfirm kind collateral (Some p)
                        amount b) st0)
      = false).
Proof.
  intros Hp. split; [|split].
  - unfold DashboardPage.ActionModal.handleConfirm,
      DashboardPage.ActionModal.friendlyMessage.
    unfold_monad.
    exec; try reflexivity; no_nullish.
  - unfold Part001.ActionModal.handleConfirm, Part001.ActionModal.message,
      Part001.ActionModal.withSuccess.
    unfold_monad.
    exec; try reflexivity; no_nullish.
  - intros Hl.
    unfold Part002.ActionModal.handleConfirm, Part002.ActionModal.message,
      Part002.ActionModal.withError.
    unfold_monad.
    exec; try reflexivity; try assumption; no_nullish.
Qed.

Lemma handleConfirm_stops_loading_witness :
  loading (final (DashboardPage.ActionModal.handleConfirm "mint"
                    (Some (rejecting estimateFailure)) "10") idle)
  = false
  /\ loading (final (Part001.ActionModal.handleConfirm "mint"
                       (Some (rejecting estimateFailure)) "10" Part002.USDC) idle)
     = false
  /\ (loading idle = false ->
      loading (final (Part002.ActionModal.handleConfirm "mint" Part002.USDC
                        (Some (rejecting estimateFailure)) "10" expired) idle)
      = false).
Proof.
  apply (handleConfirm_stops_loading "mint" (rejecting estimateFailure)
           "10" Part002.USDC expired idle).
  repeat split; cbn; intros; try discriminate.
  match goal with H : Rejected _ = Rejected _ |- _ => injection H as <- end.
  reflexivity.
Defined.

(** The hypothesis is needed: when the wallet rejects a call with
    [undefined], the [catch] block of [DashboardPage.js] throws on
    [err.code] and the modal stays loading, with the status of the step
    before. *)
Lemma DashboardPage_handleConfirm_stays_loading_on_undefined :
  final (DashboardPage.ActionModal.handleConfirm "mint" (Some mute) "10") idle
  = mkStatus true JNull (JStr "Preparing transaction...").
Proof. reflexivity. Qed.

Lemma not_a_kind kind :
  ~ In kind kinds ->
  (kind === "deposit") = false /\ (kind === "withdraw") = false
  /\ (kind === "mint") = false /\ (kind === "repay") = false
  /\ (kind === "auto-mint") = false.
Proof.
  intros H. repeat split; apply String.eqb_neq; intros ->; apply H; cbn; tauto.
Qed.

(** A modal type that is none of the five kinds: [DashboardPage.js] and
    [part_001] send nothing to the network and end failed; [part_002]
    reads the configuration of the collateral at most, submits no
    transaction and does not end confirmed. *)
Lemma handleConfirm_unknown_kind kind provider amount collateral b st0 :
  ~ In kind kinds ->
  (let m := DashboardPage.ActionModal.handleConfirm kind provider amount in
   filter isNetwork (trace m st0) = [] /\ failed (final m st0) = true)
  /\ (let m := Part001.ActionModal.handleConfirm kind provider amount collateral in
      filter isNetwork (trace m st0) = [] /\ failed (final m st0) = true)
  /\ (let m := Part002.ActionModal.handleConfirm kind collateral provider amount b in
      filter isSubmit (trace m st0) = [] /\ confirmed (final m st0) = false).
Proof.
  intros Hk. apply not_a_kind in Hk as (Hd & Hw & Hm & Hr & Ha).
  split; [|split]; intros m; subst m.
  - unfold DashboardPage.ActionModal.handleConfirm,
      DashboardPage.ActionModal.friendlyMessage.
    unfold_monad. rewrite Hd, Hw, Hm, Hr, Ha.
    exec; try (split; reflexivity).
    all: try no_nullish.
    all: cbv [failed Workflow.error]; cbn; split; try reflexivity.
  - unfold Part001.ActionModal.handleConfirm, Part001.ActionModal.message,
      Part001.ActionModal.withSuccess.
    unfold_monad. rewrite Hd, Hw, Hm, Hr, Ha.
    exec; try (split; reflexivity).
    all: try no_nullish.
    all: cbv [failed Workflow.error]; cbn; split; try reflexivity; try assumption.
  - unfold Part002.ActionModal.handleConfirm, Part002.ActionModal.message,
      Part002.ActionModal.withError.
    unfold_monad. rewrite Hd, Hw, Hm, Hr, Ha.
    exec; try (split; reflexivity).
    all: split; [reflexivity|]; cbv [confirmed]; cbn; now rewrite ?andb_false_r.
Qed.

Lemma handleConfirm_unknown_kind_witness :
  (let m := DashboardPage.ActionModal.handleConfirm "stake" (Some obliging) "10" in
   filter isNetwork (trace m idle) = [] /\ failed (final m idle) = true)
  /\ (let m := Part001.ActionModal.handleConfirm "stake" (Some obliging) "10"
                 Part002.USDC in
      filter isNetwork (trace m idle) = [] /\ failed (final m idle) = true)
  /\ (let m := Part002.ActionModal.handleConfirm "stake" Part002.USDC (Some obliging)
                 "10" expired in
      filter isSubmit (trace m idle) = [] /\ confirmed (final m idle) = false).
Proof.
  apply (handleConfirm_unknown_kind "stake" (Some obliging) "10" Part002.USDC
           expired idle).
  cbn. intuition discriminate.
Defined.

Ltac confirmed_or_not H :=
  cbv [confirmed Workflow.error loading success] in H; cbn in H;
  rewrite ?andb_false_r in H; try discriminate H;
  try (exfalso; congruence);
  try (eexists; split; [|reflexivity]; reflexivity).

(** An invocation that ends confirmed has submitted the vault method of
    its kind once and has seen it mined, in each of the three copies:
    the success message is never shown for another call, for a call that
    was not mined or without a call. *)
Lemma confirmed_means_mined kind provider amount collateral b st0 :
  (let m := DashboardPage.ActionModal.handleConfirm kind provider amount in
   confirmed (final m st0) = true ->
   exists c, isPrimary kind c = true
             /\ filter (isPrimaryEvent kind) (trace m st0) = [Submit c; Mined c])
  /\ (let m := Part001.ActionModal.handleConfirm kind provider amount collateral in
      confirmed (final m st0) = true ->
      exists c, isPrimary kind c = true
                /\ filter (isPrimaryEvent kind) (trace m st0) = [Submit c; Mined c])
  /\ (let m := Part002.ActionModal.handleConfirm kind collateral provider amount b in
      confirmed (final m st0) = true ->
      exists c, isPrimary kind c = true
                /\ filter (isPrimaryEvent kind) (trace m st0) = [Submit c; Mined c]).
Proof.
  split; [|split]; intros m; subst m; intros H; revert H.
  - unfold DashboardPage.ActionModal.handleConfirm,
      DashboardPage.ActionModal.friendlyMessage.
    unfold_monad.
    exec; intros H; confirmed_or_not H.
  - unfold Part001.ActionModal.handleConfirm, Part001.ActionModal.message,
      Part001.ActionModal.withSuccess.
    unfold_monad.
    exec; intros H; confirmed_or_not H.
  - unfold Part002.ActionModal.handleConfirm, Part002.ActionModal.message,
      Part002.ActionModal.withError.
    unfold_monad.
    exec; intros H; confirmed_or_not H.
Qed.

Lemma confirmed_means_mined_witness :
  exists c, isPrimary "deposit" c = true
            /\ filter (isPrimaryEvent "deposit")
                 (trace (DashboardPage.ActionModal.handleConfirm "deposit"
                           (Some obliging) "10") idle)
               = [Submit c; Mined c].
Proof.
  apply (proj1 (confirmed_means_mined "deposit" (Some obliging) "10" Part002.USDC
                  expired idle)).
  reflexivity.
Defined.

(* ===================================================================== *)
(** ** [formatUnits] and [parseUnits] are inverse to each other *)
(* ===================================================================== *)

Section Numerals.
Import JsString.

Lemma numeral_acc d acc :
  digitsFrom 10 digitVal (NilEmpty.string_of_uint d) (N.pos acc)
  = N.pos (Pos.of_uint_acc d acc).
Proof.
  revert acc. induction d; intros acc;
    cbn [NilEmpty.string_of_uint digitsFrom Pos.of_uint_acc];
    [reflexivity | ..];
    match goal with
    | |- context [digitVal ?c] =>
        let v := eval vm_compute in (digitVal c) in
        change (digitVal c) with v
    end;
    match goal with
    | |- digitsFrom _ _ _ ?x = N.pos (Pos.of_uint_acc _ ?y) =>
        replace x with (N.pos y) by lia
    end; apply IHd.
Qed.

Lemma numeral_value d :
  digitsFrom 10 digitVal (NilEmpty.string_of_uint d) 0 = N.of_uint d.
Proof.
  unfold N.of_uint.
  induction d; cbn [NilEmpty.string_of_uint digitsFrom Pos.of_uint];
    [reflexivity | exact IHd | ..];
    match goal with
    | |- digitsFrom _ _ _ ?x = N.pos (Pos.of_uint_acc _ ?k) =>
        change x with (N.pos k)
    end; apply numeral_acc.
Qed.

Lemma numeral_digits d : all isDigit (NilEmpty.string_of_uint d) = true.
Proof. induction d; cbn; auto. Qed.

Lemma numeral_length d :
  String.length (NilEmpty.string_of_uint d) = Decimal.nb_digits d.
Proof. induction d; cbn; congruence. Qed.

Lemma to_uint_nonnil n : N.to_uint n <> Decimal.Nil.
Proof.
  rewrite <- (DecimalN.Unsigned.of_to n) at 1.
  rewrite DecimalN.Unsigned.to_of. apply DecimalFacts.unorm_nonnil.
Qed.

Lemma ofN_numeral n : ofN n = NilEmpty.string_of_uint (N.to_uint n).
Proof.
  unfold ofN, NilZero.string_of_uint.
  pose proof (to_uint_nonnil n). now destruct (N.to_uint n).
Qed.

(** The numeral of [n] is a string of digits that reads back as [n]. *)
Lemma ofN_value n : decimalValue (ofN n) = n.
Proof.
  rewrite ofN_numeral. unfold decimalValue. rewrite numeral_value.
  apply DecimalN.Unsigned.of_to.
Qed.

Lemma ofN_digits n : all isDigit (ofN n) = true.
Proof. rewrite ofN_numeral. apply numeral_digits. Qed.

Lemma ofN_head n : exists c r, ofN n = String c r /\ isDigit c = true.
Proof.
  pose proof (ofN_digits n) as H. rewrite ofN_numeral in *.
  pose proof (to_uint_nonnil n) as Hn.
  destruct (N.to_uint n); try contradiction; cbn in *; eauto.
Qed.

Lemma of_uint_acc_lower d acc :
  (N.pos acc * 10 ^ N.of_nat (Decimal.nb_digits d)
   <= N.pos (Pos.of_uint_acc d acc))%N.
Proof.
  revert acc. induction d; intros acc;
    cbn [Decimal.nb_digits Pos.of_uint_acc]; [cbn; lia | ..];
    rewrite Nat2N.inj_succ, N.pow_succ_r';
    (etransitivity; [|apply IHd]); nia.
Qed.

(** A numeral without a leading zero is at least the power of ten of
    its length. *)
Lemma ofN_length n k :
  (n < 10 ^ N.of_nat k)%N -> (1 <= k)%nat -> (String.length (ofN n) <= k)%nat.
Proof.
  intros Hn Hk. rewrite ofN_numeral, numeral_length.
  assert (Hnorm : Decimal.unorm (N.to_uint n) = N.to_uint n).
  { rewrite <- (DecimalN.Unsigned.of_to n) at 2.
    now rewrite DecimalN.Unsigned.to_of. }
  rewrite <- (DecimalN.Unsigned.of_to n) in Hn. unfold N.of_uint in Hn.
  destruct (N.to_uint n) as [|d|d|d|d|d|d|d|d|d|d] eqn:Hd;
    cbn [Decimal.nb_digits Pos.of_uint] in *; [lia | | ..].
  1: { (* a leading zero: the numeral is "0" *)
    destruct d; [cbn; lia | ..];
      exfalso;
      rewrite DecimalFacts.unorm_D0 in Hnorm;
      match type of Hnorm with
      | Decimal.unorm ?u = _ =>
          pose proof (DecimalFacts.nb_digits_unorm u ltac:(discriminate)) as Hu;
          rewrite Hnorm in Hu; cbn [Decimal.nb_digits] in Hu; lia
      end. }
  all: match type of Hn with
       | (N.pos (Pos.of_uint_acc ?l ?c) < _)%N =>
           pose proof (of_uint_acc_lower l c) as Hlow;
           assert (N.of_nat (Decimal.nb_digits l) < N.of_nat k)%N
             by (apply (N.pow_lt_mono_r_iff 10); lia)
       end;
    lia.
Qed.

End Numerals.

Section RoundTrip.
Import JsString.

Lemma trim_idempotent s :
  Ethers.trimTrailingZeros (Ethers.trimTrailingZeros s) = Ethers.trimTrailingZeros s.
Proof.
  induction s as [|c r IH]; [reflexivity|].
  cbn [Ethers.trimTrailingZeros].
  destruct (Ethers.trimTrailingZeros r) as [|x y] eqn:Ht.
  - destruct (Ascii.eqb c "0") eqn:Hc; cbn; [reflexivity|]. now rewrite Hc.
  - cbn [Ethers.trimTrailingZeros] in *. now rewrite IH.
Qed.

Lemma trim_strip s :
  Ethers.trimTrailingZeros (Ethers.stripFraction s) = Ethers.trimTrailingZeros s.
Proof.
  unfold Ethers.stripFraction.
  destruct (Ethers.trimTrailingZeros s) eqn:Ht; [reflexivity|].
  rewrite <- Ht. apply trim_idempotent.
Qed.

Lemma trim_length s :
  (String.length (Ethers.trimTrailingZeros s) <= String.length s)%nat.
Proof.
  destruct (trimTrailingZeros_spec s) as [j Hj].
  rewrite Hj at 2. rewrite length_app. lia.
Qed.

Lemma trim_digits s :
  all isDigit s = true -> all isDigit (Ethers.trimTrailingZeros s) = true.
Proof.
  destruct (trimTrailingZeros_spec s) as [j Hj].
  intros H. rewrite Hj, all_app in H. now apply andb_prop in H.
Qed.

Lemma strip_digits s :
  all isDigit s = true -> all isDigit (Ethers.stripFraction s) = true.
Proof.
  intros H. apply trim_digits in H. unfold Ethers.stripFraction.
  now destruct (Ethers.trimTrailingZeros s).
Qed.

Lemma strip_nonempty s : (Ethers.stripFraction s === "") = false.
Proof.
  unfold Ethers.stripFraction. now destruct (Ethers.trimTrailingZeros s).
Qed.

Lemma all_repeat_zero j : all isDigit (repeat "0" j) = true.
Proof. induction j; cbn; auto. Qed.

Lemma span_digits_dot w f :
  all isDigit w = true ->
  span Ethers.notDot (w ++ String "." f) = (w, String "." f).
Proof.
  induction w as [|c w IH]; cbn; [reflexivity|].
  intros H. apply andb_prop in H as [Hc Hw].
  rewrite (digit_not_dot c Hc), (IH Hw). reflexivity.
Qed.

Lemma all_digits_not_dot s : all isDigit s = true -> all Ethers.notDot s = true.
Proof.
  induction s as [|c s IH]; cbn; [reflexivity|].
  intros H. apply andb_prop in H as [Hc Hs].
  now rewrite (digit_not_dot c Hc), IH.
Qed.

Lemma all_digits_or_dot s :
  all isDigit s = true -> all Ethers.isDigitOrDot s = true.
Proof.
  induction s as [|c s IH]; cbn; [reflexivity|].
  intros H. apply andb_prop in H as [Hc Hs]. unfold Ethers.isDigitOrDot at 1.
  now rewrite Hc, IH.
Qed.

(** [parseFixed] on a numeral [w] or [w.f], with or without a sign, for
    digits [w] and [f] that are not empty. *)
Lemma parseFixed_numeral (negative : bool) (w f : string) (d : Z) :
  0 <= d <= 256 ->
  all isDigit w = true -> (w === "") = false ->
  all isDigit f = true -> (f === "") = false ->
  (String.length (Ethers.trimTrailingZeros f) <= Z.to_nat d)%nat ->
  let body := if (d =? 0) then w else w ++ "." ++ f in
  let t := Ethers.trimTrailingZeros (if d =? 0 then "0" else f) in
  let fraction := if t === "" then "0" else t in
  let wei :=
    Z.of_N (decimalValue w) * 10 ^ d
    + Z.of_N (decimalValue
                (fraction ++ repeat "0" (Z.to_nat d - String.length fraction))) in
  Ethers.parseFixed ((if negative then "-" else "") ++ body) d
  = Normal (if negative then - wei else wei).
Proof.
  intros Hd Hw Hwne Hf Hfne Hlen body t fraction wei.
  assert (Hhead : exists c r, w = String c r /\ isDigit c = true).
  { destruct w as [|c r]; [discriminate|]. cbn in Hw.
    apply andb_prop in Hw as [Hc _]. eauto. }
  destruct Hhead as (c & r & Hwc & Hc).
  assert (Hcm : Ascii.eqb "-" c = false).
  { destruct (Ascii.eqb_spec "-" c) as [<- | _]; [discriminate | reflexivity]. }
  assert (Hbody : exists r', body = String c r'
                             /\ all Ethers.isDigitOrDot body = true).
  { subst body. destruct (d =? 0).
    - exists r. split; [exact Hwc|]. now apply all_digits_or_dot.
    - exists (r ++ "." ++ f). rewrite Hwc. split; [reflexivity|].
      rewrite <- Hwc, all_app. rewrite (all_digits_or_dot w Hw). cbn.
      now apply all_digits_or_dot. }
  destruct Hbody as (r' & Hbody & Hall).
  set (value := (if negative then "-" else "") ++ body).
  assert (Hneg : startsWith "-" value = negative).
  { subst value. destruct negative; cbn [append]; [reflexivity|].
    rewrite Hbody. cbn [startsWith]. now rewrite Hcm. }
  assert (Hval : (if startsWith "-" value then drop 1 value else value) = body).
  { rewrite Hneg. subst value. now destruct negative. }
  unfold Ethers.parseFixed, Ethers.getMultiplier, Ethers.matchesDecimal.
  replace ((0 <=? d) && (d <=? 256)) with true
    by (symmetry; apply andb_true_intro; split; apply Z.leb_le; lia).
  rewrite strip_minus. cbv zeta. rewrite Hval, Hneg, Hall.
  assert (Hb1 : (body === "") = false)
    by (apply String.eqb_neq; rewrite Hbody; discriminate).
  assert (Hb2 : (body === ".") = false).
  { apply String.eqb_neq. rewrite Hbody. intros [= -> _]. discriminate Hc. }
  rewrite Hb1, Hb2.
  cbn [negb andb].
  subst wei fraction t body. clear Hbody Hall Hval Hneg value Hb1 Hb2.
  destruct (Z.eqb_spec d 0) as [-> | Hd0].
  - rewrite (span_all _ w (all_digits_not_dot w Hw)), Hwne. reflexivity.
  - change ("." ++ f) with (String "." f).
    rewrite (span_digits_dot w f Hw), (all_digits_not_dot f Hf), Hwne, Hfne.
    cbn [negb].
    replace (Z.to_nat d <? String.length (Ethers.trimTrailingZeros f))%nat
      with false by (symmetry; apply Nat.ltb_ge; exact Hlen).
    rewrite Z2Nat.id by lia. reflexivity.
Qed.

(** [formatFixed] and [parseFixed] at the same number of decimals are
    inverse to each other on every integer. *)
Lemma parseFixed_formatFixed (v d : Z) :
  0 <= d <= 256 ->
  exists s, Ethers.formatFixed v d = Normal s /\ Ethers.parseFixed s d = Normal v.
Proof.
  intros Hd. unfold Ethers.formatFixed, Ethers.getMultiplier.
  replace ((0 <=? d) && (d <=? 256)) with true
    by (symmetry; apply andb_true_intro; split; apply Z.leb_le; lia).
  cbv zeta. eexists. split; [reflexivity|].
  set (z := Z.to_nat d).
  assert (Hz : Z.of_nat z = d) by (subst z; lia).
  set (a := if v <? 0 then - v else v).
  assert (Ha : 0 <= a) by (subst a; destruct (Z.ltb_spec v 0); lia).
  assert (Hm : 0 < 10 ^ Z.of_nat z) by (apply Z.pow_pos_nonneg; lia).
  pose proof (Z.mod_pos_bound a (10 ^ Z.of_nat z) Hm) as Hr.
  pose proof (Z.div_pos a (10 ^ Z.of_nat z) Ha Hm) as Hq.
  pose proof (Z.div_mod a (10 ^ Z.of_nat z) ltac:(lia)) as Hdm.
  set (q := a / 10 ^ Z.of_nat z) in *.
  set (r := a mod 10 ^ Z.of_nat z) in *.
  unfold ofZ.
  replace (q <? 0) with false by (symmetry; apply Z.ltb_ge; lia).
  replace (r <? 0) with false by (symmetry; apply Z.ltb_ge; lia).
  set (w := ofN (Z.to_N q)).
  set (f0 := ofN (Z.to_N r)).
  set (padded := repeat "0" (z - String.length f0) ++ f0).
  set (f := Ethers.stripFraction padded).
  replace (z =? 0)%nat with (d =? 0)
    by (subst z; destruct (Z.eqb_spec d 0) as [-> | ?]; [reflexivity|];
        symmetry; apply Nat.eqb_neq; lia).
  replace (if v <? 0
           then "-" ++ (if d =? 0 then w else w ++ "." ++ f)
           else if d =? 0 then w else w ++ "." ++ f)
    with ((if v <? 0 then "-" else "") ++ (if d =? 0 then w else w ++ "." ++ f))
    by (now destruct (v <? 0)).
  assert (Hw : all isDigit w = true) by apply ofN_digits.
  assert (Hwne : (w === "") = false).
  { destruct (ofN_head (Z.to_N q)) as (c & t & Hc & _). unfold w.
    rewrite Hc. apply String.eqb_neq. discriminate. }
  assert (Hpd : all isDigit padded = true).
  { unfold padded, f0. now rewrite all_app, all_repeat_zero, ofN_digits. }
  assert (Hpv : Z.of_N (decimalValue padded) = r).
  { unfold padded, f0. rewrite decimalValue_app, decimalValue_zeros, ofN_value.
    lia. }
  assert (Hpl : (1 <= z)%nat -> String.length padded = z).
  { intros Hz1. unfold padded. rewrite length_app, length_repeat.
    assert (String.length f0 <= z)%nat; [|lia].
    unfold f0. apply ofN_length; [|exact Hz1].
    apply N2Z.inj_lt. rewrite Z2N.id by lia.
    rewrite N2Z.inj_pow, nat_N_Z. exact (proj2 Hr). }
  assert (Hlen : (String.length (Ethers.trimTrailingZeros f) <= z)%nat).
  { unfold f. rewrite trim_strip.
    destruct (Nat.eq_dec z 0) as [Ez | Ez].
    - assert (r = 0) by (rewrite Ez in Hr; cbn in Hr; lia).
      unfold padded, f0. replace (Z.to_N r) with 0%N by lia. rewrite Ez. cbn. lia.
    - pose proof (trim_length padded). pose proof (Hpl ltac:(lia)). lia. }
  rewrite (parseFixed_numeral (v <? 0) w f d Hd Hw Hwne
             (strip_digits _ Hpd) (strip_nonempty _) Hlen).
  f_equal.
  assert (Hwv : Z.of_N (decimalValue w) = q)
    by (unfold w; rewrite ofN_value; lia).
  rewrite Hwv.
  assert (Hwei : q * 10 ^ d
                 + Z.of_N (decimalValue
                     ((if Ethers.trimTrailingZeros (if d =? 0 then "0" else f) === ""
                       then "0"
                       else Ethers.trimTrailingZeros (if d =? 0 then "0" else f))
                      ++ repeat "0"
                           (Z.to_nat d
                            - String.length
                                (if Ethers.trimTrailingZeros
                                      (if d =? 0 then "0" else f) === ""
                                 then "0"
                                 else Ethers.trimTrailingZeros
                                        (if d =? 0 then "0" else f)))))
                 = a).
  { destruct (Z.eqb_spec d 0) as [Hd0 | Hd0].
    - assert (z = 0%nat) by lia.
      assert (r = 0) by (replace z with 0%nat in Hr by lia; cbn in Hr; lia).
      rewrite Hdm. replace (Z.of_nat z) with 0 by lia. rewrite Hd0.
      match goal with
      | |- context [decimalValue ?s] =>
          let s' := eval cbn in s in change s with s'
      end.
      change (decimalValue "0") with 0%N. lia.
    - fold z. unfold f. rewrite trim_strip.
      assert (Hz1 : (1 <= z)%nat) by lia.
      pose proof (fraction_exact padded z) as Hfrac. cbv zeta in Hfrac.
      assert (Hpne : (padded === "") = false).
      { apply String.eqb_neq. intros E. specialize (Hpl Hz1).
        rewrite E in Hpl. cbn in Hpl. lia. }
      rewrite Hpne in Hfrac.
      unfold f in Hlen. rewrite trim_strip in Hlen.
      specialize (Hfrac ltac:(apply Nat.ltb_ge; exact Hlen)).
      rewrite (Hpl Hz1), Hpv in Hfrac.
      rewrite Hdm, <- Hz. nia. }
  rewrite Hwei. subst a. destruct (Z.ltb_spec v 0); lia.
Qed.

End RoundTrip.

(** [formatUnits] followed by [parseUnits] with the same unit gives back
    the integer it started from, for every integer and every number of
    decimals from 0 to 256 (and for the default unit): the text shown for
    an amount of base units reads back as that amount. *)
Lemma formatUnits_parseUnits_round_trip (v : Z) (unitName : option Z) :
  (forall d, unitName = Some d -> 0 <= d <= 256) ->
  exists s, Ethers.formatUnits v unitName = Normal s
            /\ Ethers.parseUnits s unitName = Normal v.
Proof.
  intros Hd. unfold Ethers.formatUnits, Ethers.parseUnits.
  apply parseFixed_formatFixed.
  destruct unitName as [d|]; [now apply Hd | lia].
Qed.

Lemma formatUnits_parseUnits_round_trip_witness :
  exists s, Ethers.formatUnits (-1234500) (Some 6) = Normal s
            /\ Ethers.parseUnits s (Some 6) = Normal (-1234500).
Proof.
  apply (formatUnits_parseUnits_round_trip (-1234500) (Some 6)).
  intros d [= <-]. lia.
Defined.

(** The balance in the insufficient-balance message of
    [DashboardPage.js] is exact: a deposit or a repayment of more than the
    payer holds ends with the message built from a numeral that
    [parseUnits] reads back, at 6 decimals, as the balance the chain
    returned. *)
Lemma DashboardPage_insufficient_balance_shows_the_balance
    kind p amount st0 n bal :
  kind = "deposit" \/ kind = "repay" ->
  amount <> "" ->
  JsNumber.isNaN (JsNumber.parseFloat amount) = false ->
  JsNumber.le0 (JsNumber.parseFloat amount) = false ->
  Ethers.parseUnits amount (Some 6) = Normal n ->
  balanceOf p DashboardPage.USDC_ADDRESS = Normal bal ->
  bal < n ->
  exists shown,
    final (DashboardPage.ActionModal.handleConfirm kind (Some p) amount) st0
    = mkStatus false (JStr (DashboardPage.ActionModal.insufficientMessage shown)) JNull
    /\ Ethers.parseUnits shown (Some 6) = Normal bal.
Proof.
  intros Hk Ha Hnan Hle Hparse Hbal Hlt.
  apply String.eqb_neq in Ha. apply Z.ltb_lt in Hlt.
  destruct (parseFixed_formatFixed bal 6 ltac:(lia)) as (shown & Hshown & Hback).
  exists shown. split; [|exact Hback].
  change (Ethers.formatFixed bal 6) with (Ethers.formatUnits bal (Some 6)) in Hshown.
  unfold DashboardPage.ActionModal.handleConfirm. unfold_monad.
  destruct Hk as [-> | ->]; cbn; rewrite Ha, Hnan, Hle; cbn;
    rewrite Hparse; cbn; rewrite Hbal; cbn; rewrite Hlt, Hshown; reflexivity.
Qed.

Lemma DashboardPage_insufficient_balance_shows_the_balance_witness :
  exists shown,
    final (DashboardPage.ActionModal.handleConfirm "repay" (Some short) "75.5") idle
    = mkStatus false (JStr (DashboardPage.ActionModal.insufficientMessage shown)) JNull
    /\ Ethers.parseUnits shown (Some 6) = Normal 50000000.
Proof.
  apply (DashboardPage_insufficient_balance_shows_the_balance
           "repay" short "75.5" idle 75500000 50000000).
  - now right.
  - discriminate.
  - reflexivity.
  - reflexivity.
  - reflexivity.
  - reflexivity.
  - reflexivity.
Defined.

(* ===================================================================== *)
(** ** The wallet connection *)
(* ===================================================================== *)

Section Connection.

Import Wallet.

(** [connectWallet] of [DashboardPage.js] connects all or nothing: either
  the provider and the wallet address are stored together and nothing
  else changes, or neither changes and an error is recorded.  In the
  second case the error is not shown: without a wallet address [App]
  renders an [AuthWall], before it looks at the error. *)
Lemma DashboardPage_connectWallet_all_or_nothing ethereum s :
let s' := final (DashboardApp.connectWallet ethereum) s in
(exists w address,
   ethereum = Some w /\ getAddress w = Normal address
   /\ provider s' = Some (web3Provider w)
   /\ walletAddress s' = JStr address
   /\ page s' = page s /\ authToken s' = authToken s)
\/ (provider s' = provider s
    /\ walletAddress s' = walletAddress s
    /\ authToken s' = authToken s
    /\ (exists message,
          DashboardPage.App.error (page s') = JStr message /\ message <> "")
    /\ (truthy (walletAddress s) = false ->
        exists message action, DashboardApp.render s' = AuthWall message action)).
Proof.
intros s'. subst s'. unfold DashboardApp.connectWallet.
destruct ethereum as [w|].
- unfold_monad. unfold call, ask. unfold_monad.
  destruct (construct w); cbn.
  2: destruct (requestAccounts w); cbn.
  3: destruct (getAddress w) as [address|e] eqn:Ha; cbn.
  3: { left. exists w, address. repeat split. exact Ha. }
  all: right; repeat split; try (eexists; split; [reflexivity | discriminate]);
    unfold DashboardApp.render; cbn; intros ->;
    destruct (truthy (authToken s)); cbn; eauto.
- right. cbn. repeat split; try (eexists; split; [reflexivity | discriminate]).
  unfold DashboardApp.render; cbn; intros ->.
  destruct (truthy (authToken s)); cbn; eauto.
Qed.

Lemma strictEqNum_true v n : strictEqNum v n = true -> v = JNum n.
Proof.
destruct v; cbn; try discriminate. intros H. apply Z.eqb_eq in H. now subst.
Qed.

(** [connectWallet] of [part_002] asks for the accounts, and stores the
  provider and the wallet address, only when the wallet is on chain
  80002, or has accepted the switch to it, or did not know the chain
  (code 4902) and has accepted to add it: a refused switch ends the
  connection with the error, before any account is asked for. *)
Lemma Part002_connectWallet_asks_accounts_on_amoy w s :
let s' := final (Part002App.connectWallet (Some w)) s in
exists new,
  asked s' = (asked s ++ new)%list
  /\ (In RequestAccounts new -> Part002App.onAmoy w)
  /\ (provider s' <> provider s ->
      Part002App.onAmoy w /\ requestAccounts w = None)
  /\ (walletAddress s' <> walletAddress s ->
      Part002App.onAmoy w /\ requestAccounts w = None
      /\ provider s' = Some (web3Provider w))
  /\ (Part002App.onAmoy w \/
      Part002.App.error (page s')
      = JStr "Wallet connection failed. Please ensure you are on the Amoy network.").
Proof.
intros s'. subst s'. unfold Part002App.connectWallet, Part002App.onAmoy.
unfold_monad. unfold call, ask. unfold_monad.
assert (Hnil : forall l : list Request, l = (l ++ [])%list)
  by (intros l; now rewrite app_nil_r).
destruct (construct w); cbn.
{ exists []. split; [apply Hnil|]. cbn. intuition congruence. }
destruct (getNetwork w) as [chainId|e] eqn:Hn; cbn.
2: { eexists. split; [reflexivity|]. cbn. intuition congruence. }
destruct (Z.eqb_spec chainId 80002) as [-> | Hc]; cbn.
- destruct (requestAccounts w) eqn:Hr; cbn;
    [|destruct (getAddress w) eqn:Ha; cbn];
    rewrite <- ?app_assoc; cbn [app];
    eexists; (split; [reflexivity|]); cbn; intuition congruence.
- destruct (switchChain w) as [e|] eqn:Hs; cbn.
  + destruct (getProp e "code") as [code|] eqn:Hcode; cbn.
    * destruct (strictEqNum code 4902) eqn:H4902; cbn.
      -- apply strictEqNum_true in H4902. subst code.
         destruct (addChain w) eqn:Hadd; cbn.
         ++ rewrite <- ?app_assoc. cbn [app].
            eexists. split; [reflexivity|]. cbn. intuition congruence.
         ++ assert (Hok : Normal chainId = Normal 80002
                          \/ (exists c, Normal chainId = Normal c)
                             /\ (Some e = None
                                 \/ exists e0, Some e = Some e0
                                               /\ getProp e0 "code" = Some (JNum 4902)
                                               /\ @None JsVal = None)).
            { right. split; [eauto|]. right. exists e. auto. }
            destruct (requestAccounts w) eqn:Hr; cbn;
              [|destruct (getAddress w) eqn:Ha; cbn];
              rewrite <- ?app_assoc; cbn [app];
              eexists; (split; [reflexivity|]); cbn; intuition congruence.
      -- rewrite <- ?app_assoc. cbn [app].
         eexists. split; [reflexivity|]. cbn. intuition congruence.
    * rewrite <- ?app_assoc. cbn [app].
      eexists. split; [reflexivity|]. cbn. intuition congruence.
  + assert (Hok : Normal chainId = Normal 80002
                  \/ (exists c, Normal chainId = Normal c)
                     /\ (@None JsVal = None
                         \/ exists e0, None = Some e0
                                       /\ getProp e0 "code" = Some (JNum 4902)
                                       /\ addChain w = None)).
    { right. split; [eauto|]. now left. }
    destruct (requestAccounts w) eqn:Hr; cbn;
      [|destruct (getAddress w) eqn:Ha; cbn];
      rewrite <- ?app_assoc; cbn [app];
      eexists; (split; [reflexivity|]); cbn; intuition congruence.
Qed.

Lemma DashboardPage_connectWallet_all_or_nothing_example :
let s' := final (DashboardApp.connectWallet (Some locked)) loggedIn in
provider s' = None /\ walletAddress s' = JNull
/\ DashboardPage.App.error (page s')
   = JStr "Wallet connection failed. Please try again."
/\ DashboardApp.render s' = AuthWall "Please connect your wallet to continue." true.
Proof. repeat split. Qed.

Lemma Part002_connectWallet_refused_switch_example :
let s' := final (Part002App.connectWallet (Some stubborn))
            (mkSession (JStr "token") JNull None [] emptyDashboard2) in
asked s' = [GetNetwork; SwitchChain]
/\ provider s' = None /\ walletAddress s' = JNull
/\ Part002.App.error (page s')
   = JStr "Wallet connection failed. Please ensure you are on the Amoy network.".
Proof. repeat split. Qed.

End Connection.

(* ===================================================================== *)
(** ** A refresh that is refused *)
(* ===================================================================== *)

(** C8, at the failing input.  [fetchData] of [part_002] on a backend that
    answers the vault status not ok with the body [{"detail": []}]: the
    empty array is truthy, so it is the argument of [new Error]; its text
    is the empty string, and that is what [setError] is handed.  Whatever
    was stored before, the snapshots stay, [isLoading] ends false and
    [error] is [""], which is falsy: [App] renders the dashboard on the old
    snapshots and no [ErrorMessage].  [fetchData] of [DashboardPage.js]
    on the same backend records its fixed message, and [App] renders
    it. *)
Theorem C8_part002_empty_detail_shows_no_error :
  forall (s0 : Part002.App.State) (d0 : DashboardPage.App.State) (now : Z),
    let refresh :=
      Part002.App.fetchData (JStr "token") (JStr "0xa1") emptyDetail now in
    let sibling :=
      DashboardPage.App.fetchData (JStr "token") (JStr "0xa1") emptyDetail now in
    allResponded emptyDetail Part002.App.urls
    /\ someNotOk emptyDetail Part002.App.urls
    /\ final refresh s0
       = Part002.App.mkState false (JStr "")
           (Part002.App.lastRefreshed s0) (Part002.App.vaultOverview s0)
           (Part002.App.mintStatus s0) (Part002.App.oraclePrice s0)
           (Part002.App.transactions s0) (Part002.App.protocolHealth s0)
           (Part002.App.pendingRequests s0)
    /\ truthy (Part002.App.error (final refresh s0)) = false
    /\ Part002App.render
         (Wallet.mkSession (JStr "token") (JStr "0xa1") None [] (final refresh s0))
       = Wallet.Dashboard
    /\ final sibling d0
       = DashboardPage.App.mkState false
           (JStr "Failed to fetch dashboard data. Your session might have expired.")
           (DashboardPage.App.lastRefreshed d0) (DashboardPage.App.vaultOverview d0)
           (DashboardPage.App.mintStatus d0) (DashboardPage.App.oraclePrice d0)
           (DashboardPage.App.transactions d0) (DashboardPage.App.protocolHealth d0)
    /\ DashboardApp.render
         (Wallet.mkSession (JStr "token") (JStr "0xa1") None [] (final sibling d0))
       = Wallet.ErrorMessage
           (JStr "Failed to fetch dashboard data. Your session might have expired.").
Proof.
  intros s0 d0 now refresh sibling.
  assert (Hall : allResponded emptyDetail Part002.App.urls).
  { intros u _. unfold emptyDetail. destruct (u === _); eexists; reflexivity. }
  assert (Hbad : someNotOk emptyDetail Part002.App.urls).
  { eexists _, _. split; [left; reflexivity | split; reflexivity]. }
  assert (Hr : final refresh s0
               = Part002.App.mkState false (JStr "")
                   (Part002.App.lastRefreshed s0) (Part002.App.vaultOverview s0)
                   (Part002.App.mintStatus s0) (Part002.App.oraclePrice s0)
                   (Part002.App.transactions s0) (Part002.App.protocolHealth s0)
                   (Part002.App.pendingRequests s0)) by reflexivity.
  assert (Hs : final sibling d0
               = DashboardPage.App.mkState false
                   (JStr "Failed to fetch dashboard data. Your session might have expired.")
                   (DashboardPage.App.lastRefreshed d0)
                   (DashboardPage.App.vaultOverview d0)
                   (DashboardPage.App.mintStatus d0) (DashboardPage.App.oraclePrice d0)
                   (DashboardPage.App.transactions d0)
                   (DashboardPage.App.protocolHealth d0)) by reflexivity.
  rewrite Hr, Hs. repeat split; assumption.
Qed.

(* ===================================================================== *)
(** ** A rejected call and the stale-oracle messages *)
(* ===================================================================== *)

(** Settle a leaf of the execution of [handleConfirm] from what is known of
    the last call of the run. *)
Ltac last_call_failed Hstale :=
  let Hlast := fresh "Hlast" in
  let Hfail := fresh "Hfail" in
  intros Hlast Hfail; unfold lastCall in Hlast; cbn in Hlast;
  first
    [ discriminate Hlast
    | injection Hlast as <-; cbn in Hfail;
      try (destruct Hfail as [Hfail | Hfail]);
      try congruence;
      repeat match goal with
        | E : send ?p ?c = _, F : send ?p ?c = _ |- _ =>
            rewrite F in E; first [discriminate E | injection E as ->]
        | E : balanceOf ?p ?t = _, F : balanceOf ?p ?t = _ |- _ =>
            rewrite F in E; first [discriminate E | injection E as ->]
        end;
      try match goal with
        | E : DashboardPage.ActionModal.friendlyMessage _ = _ |- _ =>
            rewrite Hstale in E; first [discriminate E | injection E as <-]
        end ].

(** C7 (amended).  In [DashboardPage.js], take any invocation and let its
    last contract call fail with [err]: the balance read throws it, the
    submission of the approval or of the vault call is rejected with it,
    or the [wait()] of that transaction is.  If [err.code] is
    [UNPREDICTABLE_GAS_LIMIT], [-32603] or [CALL_EXCEPTION] and the
    serialised error contains [0xe450d38c], or if [err.code] is none of
    the three, [err.reason] is falsy and the serialised error contains
    ["PriceStale"], the invocation ends failed with the stale-oracle
    message of that case, and no refresh. *)
Theorem C7_failed_call_with_matching_guards_is_reported_stale :
  forall (kind amount : string) (p : Provider) (st0 : Status)
         (e : Event) (err : JsVal) (msg : string),
    let m := DashboardPage.ActionModal.handleConfirm kind (Some p) amount in
    lastCall (trace m st0) = Some e ->
    failsWith p e err ->
    (gasCode err = true /\ payloadIncludes "0xe450d38c" err = true
     /\ msg = DashboardPage.ActionModal.staleMessage)
    \/ (getProp err "code" <> None /\ gasCode err = false
        /\ truthy (getPropOpt err "reason") = false
        /\ payloadIncludes "PriceStale" err = true
        /\ msg = DashboardPage.ActionModal.staleMessageShort) ->
    final m st0 = mkStatus false (JStr msg) JNull
    /\ failed (final m st0) = true
    /\ count isRefresh (trace m st0) = 0%nat.
Proof.
  intros kind amount p st0 e err msg m Hlast Hfail Hstale. subst m.
  apply friendlyMessage_stale in Hstale.
  assert (Hmsg : truthy (JStr msg) = true).
  { unfold DashboardPage.ActionModal.friendlyMessage in Hstale.
    repeat match type of Hstale with
      | context [match ?x with _ => _ end] => destruct x
      end; try discriminate; injection Hstale as <-; reflexivity. }
  revert Hlast Hfail.
  unfold DashboardPage.ActionModal.handleConfirm. unfold_monad.
  exec; last_call_failed Hstale.
  all: cbv [failed count Workflow.error]; cbn; rewrite ?Hmsg; auto.
Qed.

Lemma C7_witness :
  let m := DashboardPage.ActionModal.handleConfirm "deposit"
             (Some (rejectingAfterApproval staleEstimate)) "10" in
  final m idle = mkStatus false (JStr DashboardPage.ActionModal.staleMessage) JNull
  /\ failed (final m idle) = true
  /\ count isRefresh (trace m idle) = 0%nat.
Proof.
  apply (C7_failed_call_with_matching_guards_is_reported_stale
           "deposit" "10" (rejectingAfterApproval staleEstimate) idle
           (Submit (DepositCollateral DashboardPage.USDC_ADDRESS 10000000))
           staleEstimate DashboardPage.ActionModal.staleMessage).
  - reflexivity.
  - left. reflexivity.
  - left. repeat split; reflexivity.
Defined.

(** C7 as stated fails.  In [DashboardPage.js], a [mint] whose contract
    call is rejected with [staleExecution]: the payload contains the
    selector [0xe450d38c], yet the code is none of the three and the
    invocation ends with the generic unknown-error message.  In [part_001]
    no rejection is reported as a stale price: with [staleEstimate] and
    with [staleText], for which [DashboardPage.js] shows its two
    stale-oracle messages, [part_001] shows the gas-estimate message and
    the unknown-error message. *)
Lemma C7_counterexample :
  let m := DashboardPage.ActionModal.handleConfirm "mint"
             (Some (rejecting staleExecution)) "10" in
  let d1 := DashboardPage.ActionModal.handleConfirm "mint"
              (Some (rejecting staleEstimate)) "10" in
  let p1 := Part001.ActionModal.handleConfirm "mint"
              (Some (rejecting staleEstimate)) "10" DashboardPage.USDC_ADDRESS in
  let d2 := DashboardPage.ActionModal.handleConfirm "mint"
              (Some (rejecting staleText)) "10" in
  let p2 := Part001.ActionModal.handleConfirm "mint"
              (Some (rejecting staleText)) "10" DashboardPage.USDC_ADDRESS in
  (staleSignal staleExecution = true
   /\ submissions (trace m idle) = [Submit (MintTokens DashboardPage.USDC_ADDRESS 10000000)]
   /\ final m idle = mkStatus false (JStr DashboardPage.ActionModal.unknownMessage) JNull)
  /\ (staleSignal staleEstimate = true
      /\ submissions (trace p1 idle)
         = [Submit (MintTokens DashboardPage.USDC_ADDRESS 10000000)]
      /\ final p1 idle = mkStatus false (JStr "Gas estimate failed.") JNull
      /\ final d1 idle = mkStatus false (JStr DashboardPage.ActionModal.staleMessage) JNull)
  /\ (staleSignal staleText = true
      /\ submissions (trace p2 idle)
         = [Submit (MintTokens DashboardPage.USDC_ADDRESS 10000000)]
      /\ final p2 idle = mkStatus false (JStr "Unknown error.") JNull
      /\ final d2 idle
         = mkStatus false (JStr DashboardPage.ActionModal.staleMessageShort) JNull).
Proof. vm_compute. repeat split; reflexivity. Qed.

(* ===================================================================== *)
(** ** A decimal numeral read as a number *)
(* ===================================================================== *)

Section Readings.
Import JsString JsNumber.

Lemma opens_facts c :
  opensNumeral c ->
  isWhiteSpace c = false /\ Ascii.eqb "I" c = false
  /\ forall r, scanDecimal (String c r) = scanUnsigned false (String c r).
Proof.
  intros [H | ->]; [|repeat split].
  destruct c as [[] [] [] [] [] [] [] []]; try discriminate H; repeat split.
Qed.

Lemma rev_acc_app s acc : rev_acc s acc = rev s ++ acc.
Proof.
  unfold rev. revert acc. induction s as [|c s IH]; intros acc; cbn; [reflexivity|].
  rewrite IH, (IH (String c "")). clear IH.
  induction (rev_acc s "") as [|x t IHt]; cbn; [reflexivity | now rewrite IHt].
Qed.

Lemma rev_cons c s : rev (String c s) = rev s ++ String c "".
Proof. unfold rev at 1. cbn. apply rev_acc_app. Qed.

Lemma append_assoc (a b c : string) : (a ++ b) ++ c = a ++ b ++ c.
Proof. induction a as [|x a IH]; cbn; [reflexivity | now rewrite IH]. Qed.

Lemma rev_append a b : rev (a ++ b) = rev b ++ rev a.
Proof.
  induction a as [|x a IH]; cbn [append].
  - change (rev "") with "". now rewrite app_empty_r.
  - now rewrite !rev_cons, IH, append_assoc.
Qed.

Lemma rev_rev s : rev (rev s) = s.
Proof.
  induction s as [|c s IH]; [reflexivity|].
  now rewrite rev_cons, rev_append, IH.
Qed.

Lemma all_rev p s : all p (rev s) = all p s.
Proof.
  induction s as [|c s IH]; [reflexivity|].
  rewrite rev_cons, all_app, IH. cbn. rewrite andb_true_r. apply andb_comm.
Qed.

Lemma all_weaken (p q : ascii -> bool) s :
  (forall c, p c = true -> q c = true) -> all p s = true -> all q s = true.
Proof.
  intros Hpq. induction s as [|c s IH]; cbn; [reflexivity|].
  intros H. apply andb_prop in H as [Hc Hs]. now rewrite (Hpq _ Hc), IH.
Qed.

Lemma trimStart_none s : all notWhiteSpace s = true -> trimStart s = s.
Proof.
  destruct s as [|c s]; cbn; [reflexivity|]. unfold notWhiteSpace at 1.
  now destruct (isWhiteSpace c).
Qed.

Lemma trim_none s : all notWhiteSpace s = true -> trim s = s.
Proof.
  intros H. unfold trim, trimEnd. rewrite (trimStart_none s H).
  rewrite trimStart_none by now rewrite all_rev.
  apply rev_rev.
Qed.

Lemma numeral_char c :
  Ethers.isDigitOrDot c = true \/ c = "-"%char -> notWhiteSpace c = true.
Proof.
  intros [H | ->]; [|reflexivity].
  destruct c as [[] [] [] [] [] [] [] []]; try discriminate H; reflexivity.
Qed.

Lemma digit_or_dot c : isDigit c = true -> Ethers.isDigitOrDot c = true.
Proof. unfold Ethers.isDigitOrDot. now intros ->. Qed.

(** What [scanUnsigned] reads of a numeral without a sign. *)
Lemma scanUnsigned_numeral neg body w r :
  span isDigit body = (w, r) ->
  (r = "" /\ w <> "")
  \/ (exists f, r = String "." f /\ all isDigit f = true
                /\ (w = "" -> f <> "")) ->
  exists m e, scanUnsigned neg body = Some (Decimal neg m e, "")
              /\ all Ethers.isDigitOrDot body = true
              /\ exists c t, body = String c t /\ opensNumeral c.
Proof.
  intros Hspan Hr.
  destruct (span_split _ _ _ _ Hspan) as [Hbody Hw].
  assert (Hall : all Ethers.isDigitOrDot body = true).
  { rewrite Hbody, all_app. rewrite (all_weaken _ _ w digit_or_dot Hw). cbn.
    destruct Hr as [[-> _] | (f & -> & Hf & _)]; [reflexivity|].
    cbn. apply (all_weaken _ _ f digit_or_dot Hf). }
  assert (Hopen : exists c t, body = String c t /\ opensNumeral c).
  { destruct w as [|c w'].
    - destruct Hr as [[_ Hne] | (f & -> & _ & _)]; [contradiction|].
      exists "."%char, f. split; [exact Hbody | now right].
    - exists c, (w' ++ r). split; [exact Hbody|]. left.
      cbn in Hw. now apply andb_prop in Hw as [Hc _]. }
  destruct Hopen as (c & t & Hct & Hc).
  destruct (opens_facts c Hc) as (_ & HI & _).
  assert (Hinf : startsWith "Infinity" body = false).
  { rewrite Hct. cbn [startsWith]. now rewrite HI. }
  unfold scanUnsigned. rewrite Hinf, Hspan.
  destruct Hr as [[-> Hne] | (f & -> & Hf & Hwf)].
  - destruct w; [contradiction|].
    eexists _, _. split; [reflexivity|]. split; [exact Hall | now exists c, t].
  - rewrite (span_all _ _ Hf).
    destruct w as [|cw w']; destruct f as [|cf f'];
      try (exfalso; now apply Hwf);
      (eexists _, _; split; [reflexivity|]; split; [exact Hall | now exists c, t]).
Qed.

(** A plain decimal numeral is read in full, and as the same number, by
    [parseFloat] and by [Number]. *)
Lemma decimalOf_reads s m k :
  decimalOf s = Some (m, k) ->
  exists neg m' e,
    parseFloat s = Decimal neg m' e /\ Number s = Decimal neg m' e /\ s <> "".
Proof.
  unfold decimalOf. cbv zeta.
  destruct (startsWith "-" s) eqn:Hneg.
  - destruct s as [|c body]; [discriminate|].
    cbn [startsWith] in Hneg. rewrite andb_true_r in Hneg.
    apply Ascii.eqb_eq in Hneg. subst c.
    cbn [drop].
    destruct (span isDigit body) as [w r] eqn:Hspan. intros H.
    assert (Hr : (r = "" /\ w <> "")
                 \/ (exists f, r = String "." f /\ all isDigit f = true
                               /\ (w = "" -> f <> ""))).
    { destruct r as [|c f].
      - left. split; [reflexivity|]. intros ->. discriminate.
      - right. destruct c as [[] [] [] [] [] [] [] []]; try discriminate H.
        exists f. split; [reflexivity|].
        destruct (all isDigit f); [|discriminate]. split; [reflexivity|].
        intros -> ->. discriminate. }
    destruct (scanUnsigned_numeral true body w r Hspan Hr)
      as (m' & e & Hscan & Hall & _).
    assert (Hws : all notWhiteSpace (String "-" body) = true).
    { cbn. apply (all_weaken Ethers.isDigitOrDot); [|exact Hall].
      intros c Hc. apply numeral_char. now left. }
    exists true, m', e. unfold parseFloat, Number.
    rewrite (trim_none _ Hws), (trimStart_none _ Hws).
    cbn [scanDecimal]. rewrite Hscan. repeat split. discriminate.
  - destruct (span isDigit s) as [w r] eqn:Hspan. intros H.
    assert (Hr : (r = "" /\ w <> "")
                 \/ (exists f, r = String "." f /\ all isDigit f = true
                               /\ (w = "" -> f <> ""))).
    { destruct r as [|c f].
      - left. split; [reflexivity|]. intros ->. discriminate.
      - right. destruct c as [[] [] [] [] [] [] [] []]; try discriminate H.
        exists f. split; [reflexivity|].
        destruct (all isDigit f); [|discriminate]. split; [reflexivity|].
        intros -> ->. discriminate. }
    destruct (scanUnsigned_numeral false s w r Hspan Hr)
      as (m' & e & Hscan & Hall & c & t & -> & Hc).
    assert (Hws : all notWhiteSpace (String c t) = true).
    { apply (all_weaken Ethers.isDigitOrDot); [|exact Hall].
      intros x Hx. apply numeral_char. now left. }
    destruct (opens_facts c Hc) as (_ & _ & Hsd).
    exists false, m', e. unfold parseFloat, Number.
    rewrite (trim_none _ Hws), (trimStart_none _ Hws), Hsd, Hscan.
    repeat split. discriminate.
Qed.

(** An amount [parseUnits] accepts is a number to both readings, and the
    same one. *)
Lemma parseUnits_reads s d n :
  Ethers.parseUnits s d = Normal n ->
  isNaN (parseFloat s) = false /\ Number s = parseFloat s.
Proof.
  intros H. apply parseFixed_exact in H as (m & k & Hdec & _).
  destruct (decimalOf_reads _ _ _ Hdec) as (neg & m' & e & -> & -> & _).
  now split.
Qed.

End Readings.

(* ===================================================================== *)
(** ** The conversion of the amount, in a run *)
(* ===================================================================== *)

(** What the [catch] blocks make of the error [parseUnits] throws. *)
Lemma conversion_error_messages s d e :
  Ethers.parseUnits s d = Throw e ->
  exists reason,
    reason <> ""
    /\ DashboardPage.ActionModal.friendlyMessage e
       = Normal ("Transaction failed: " ++ reason)
    /\ Part001.ActionModal.message e = Normal (JStr reason)
    /\ Part002.ActionModal.message e = Normal (JStr reason).
Proof.
  unfold Ethers.parseUnits, Ethers.parseFixed, Ethers.getMultiplier,
    Ethers.throwArgumentError, Ethers.throwFault.
  repeat match goal with
    | |- context [match ?x with _ => _ end] =>
        lazymatch x with
        | context [match _ with _ => _ end] => fail
        | _ => destruct x
        end
    end; intros [= <-]; eexists; (split; [|repeat split; reflexivity]); discriminate.
Qed.

(** The [catch] block of [part_002] shows a message for every error that is
    a value. *)
Lemma Part002_message_truthy e :
  nullish e = false ->
  exists v, Part002.ActionModal.message e = Normal v /\ truthy v = true.
Proof.
  intros He. unfold Part002.ActionModal.message.
  destruct (truthy (getPropOpt e "reason")) eqn:H1; [eauto|].
  destruct (truthy (getPropOpt (getPropOpt e "data") "message")) eqn:H2; [eauto|].
  destruct (getProp e "message") as [m|] eqn:H3.
  - eexists. split; [reflexivity|]. unfold or. now destruct (truthy m) eqn:Hm.
  - apply getProp_none in H3. congruence.
Qed.

(** C4 (amended).  In a run of a kind other than auto-mint, in
    [DashboardPage.js] for every kind and in [part_002] for [mint] and
    [repay], the amount is converted at precision 6 and the conversion is
    exact: every amount [n] handed to a state-changing call satisfies
    [n * 10^k = m * 10^6] for the numeral [m / 10^k] of the input, so
    nothing is rounded, up or down, and nothing is cut off.  An amount
    that has no exact value at precision 6 (no plain decimal numeral, or
    more than six fraction digits) is not submitted at all: the run
    submits nothing and ends failed (in [part_002] as long as the read of
    the configuration, which comes first, does not reject with [undefined]
    or [null]). *)
Theorem C4_amounts_are_submitted_exactly_or_not_at_all :
  forall (kind collateral amount : string) (p : Provider) (b : Backend)
         (st0 : Status),
    kind <> "auto-mint" ->
    let d := DashboardPage.ActionModal.handleConfirm kind (Some p) amount in
    let m2 := Part002.ActionModal.handleConfirm kind collateral (Some p) amount b in
    ((forall c n, In (Submit c) (trace d st0) -> callAmount c = Some n ->
                  exactUnits amount 6 n)
     /\ (notRepresentable amount 6 ->
         submissions (trace d st0) = [] /\ failed (final d st0) = true))
    /\ (kind = "mint" \/ kind = "repay" ->
        (forall c n, In (Submit c) (trace m2 st0) -> callAmount c = Some n ->
                     exactUnits amount 6 n)
        /\ (notRepresentable amount 6 ->
            submissions (trace m2 st0) = []
            /\ ((forall e, collateralDecimals p collateral = Throw e ->
                           nullish e = false) ->
                failed (final m2 st0) = true))).
Proof.
  intros kind collateral amount p b st0 Hk d m2. subst d m2.
  apply String.eqb_neq in Hk. split; [split|].
  - unfold DashboardPage.ActionModal.handleConfirm. unfold_monad.
    cbn. rewrite Hk. exec; try congruence; intros c n Hin Hc; read_submission Hin Hc.
    all: eapply parseUnits_exact; eassumption.
  - intros Hnr.
    unfold DashboardPage.ActionModal.handleConfirm. unfold_monad.
    cbn. rewrite Hk. exec; try congruence.
    all: try (split; reflexivity).
    all: try match goal with
           | H : Ethers.parseUnits _ _ = Normal ?n |- _ =>
               exfalso; apply (Hnr n), parseUnits_exact, H
           end.
    all: match goal with
         | H : Ethers.parseUnits _ _ = Throw _ |- _ =>
             apply conversion_error_messages in H as (reason & _ & H & _)
         end.
    all: match goal with
         | H : DashboardPage.ActionModal.friendlyMessage ?e = Normal _,
           E : DashboardPage.ActionModal.friendlyMessage ?e = _ |- _ =>
             rewrite H in E; first [discriminate E | injection E as <-]
         end.
    all: split; reflexivity.
  - intros Hmr.
    assert (Hd : (String.eqb kind "mint" || String.eqb kind "repay") = true).
    { destruct Hmr as [-> | ->]; reflexivity. }
    split.
    + unfold Part002.ActionModal.handleConfirm, Part002.ActionModal.withError.
      unfold_monad.
      cbn. rewrite Hk, Hd.
      exec; try congruence; intros c n Hin Hc; read_submission Hin Hc.
      all: eapply parseUnits_exact; eassumption.
    + intros Hnr.
      unfold Part002.ActionModal.handleConfirm, Part002.ActionModal.withError.
      unfold_monad.
      cbn. rewrite Hk, Hd.
      exec; try congruence.
      all: try match goal with
             | H : Ethers.parseUnits _ _ = Normal ?n |- _ =>
                 exfalso; apply (Hnr n), parseUnits_exact, H
             end.
      all: split; [reflexivity|]; intros Hcfg; try reflexivity.
      all: repeat match goal with
             | H : Ethers.parseUnits _ _ = Throw _ |- _ =>
                 apply parseUnits_throws_an_error in H
             | H : collateralDecimals _ _ = Throw ?e |- _ =>
                 pose proof (Hcfg e eq_refl); clear H
             end.
      all: match goal with
           | H : nullish ?e = false, E : Part002.ActionModal.message ?e = _ |- _ =>
               destruct (Part002_message_truthy e H) as (v & Hv & Ht);
               rewrite Hv in E; first [discriminate E | injection E as <-]
           end.
      all: cbv [failed Workflow.error]; cbn; exact Ht.
Qed.

Lemma C4_witness :
  let d := DashboardPage.ActionModal.handleConfirm "mint" (Some unnamedOutputs) "1.5" in
  let m2 := Part002.ActionModal.handleConfirm "mint" Part002.USDC
              (Some unnamedOutputs) "1.5" (refusing "unused") in
  let long := DashboardPage.ActionModal.handleConfirm "mint" (Some unnamedOutputs)
                "1.2345678" in
  (In (Submit (MintTokens DashboardPage.USDC_ADDRESS 1500000)) (trace d idle)
   /\ In (Submit (MintTokens Part002.USDC 1500000)) (trace m2 idle)
   /\ exactUnits "1.5" 6 1500000)
  /\ (notRepresentable "1.2345678" 6
      /\ submissions (trace long idle) = []
      /\ failed (final long idle) = true).
Proof.
  split.
  - destruct (C4_amounts_are_submitted_exactly_or_not_at_all
                "mint" Part002.USDC "1.5" unnamedOutputs (refusing "unused") idle)
      as [_ HP]; [discriminate|].
    split; [vm_compute; auto 10 | split; [vm_compute; auto 10|]].
    apply (proj1 (HP (or_introl eq_refl)) (MintTokens Part002.USDC 1500000) 1500000).
    + vm_compute. auto 10.
    + reflexivity.
  - assert (Hnr : notRepresentable "1.2345678" 6).
    { intros n (m & k & Hdec & Heq). vm_compute in Hdec.
      injection Hdec as <- <-. change (10 ^ Z.of_nat 7) with 10000000 in Heq.
      change (10 ^ 6) with 1000000 in Heq. lia. }
    split; [exact Hnr|].
    destruct (C4_amounts_are_submitted_exactly_or_not_at_all
                "mint" Part002.USDC "1.2345678" unnamedOutputs (refusing "unused") idle)
      as [[_ HD] _]; [discriminate|].
    exact (HD Hnr).
Defined.

(** C4 as stated fails.  The amount ["1.2345678"] has seven fraction
    digits.  Truncated to six, as the claim has it, it would be submitted
    as 1234567 base units; [parseUnits] throws instead, nothing is
    submitted and the invocation fails with the reason of the conversion,
    in [DashboardPage.js] and in [part_002].  And a [deposit] or a
    [withdraw] of [part_002] is not converted at the decimals the
    collateral declares: [cfg.decimals] is [undefined] on the result of a
    function whose outputs have no names, [parseUnits] falls back on 18,
    and a deposit of ["10"] USDC (6 decimals) is approved and submitted as
    [10^19] base units, where [DashboardPage.js] submits [10^7]. *)
Lemma C4_counterexample :
  let d := DashboardPage.ActionModal.handleConfirm "withdraw" (Some unnamedOutputs)
             "1.2345678" in
  let m2 := Part002.ActionModal.handleConfirm "mint" Part002.USDC
              (Some unnamedOutputs) "1.2345678" (refusing "unused") in
  let deposit2 := Part002.ActionModal.handleConfirm "deposit" Part002.USDC
                    (Some unnamedOutputs) "10" (refusing "unused") in
  let deposit := DashboardPage.ActionModal.handleConfirm "deposit"
                   (Some unnamedOutputs) "10" in
  (truncatedUnits "1.2345678" 6 = Some 1234567
   /\ submissions (trace d idle) = []
   /\ final d idle
      = mkStatus false (JStr "Transaction failed: fractional component exceeds decimals")
          JNull
   /\ submissions (trace m2 idle) = []
   /\ final m2 idle
      = mkStatus false (JStr "fractional component exceeds decimals") JNull)
  /\ (truncatedUnits "10" 6 = Some 10000000
      /\ submissions (trace deposit2 idle)
         = [Submit (Approve Part002.USDC Part002.VAULT_ADDRESS (10 ^ 19));
            Submit (DepositCollateral Part002.USDC (10 ^ 19))]
      /\ submissions (trace deposit idle)
         = [Submit (Approve DashboardPage.USDC_ADDRESS DashboardPage.VAULT_ADDRESS
                      (10 ^ 7));
            Submit (DepositCollateral DashboardPage.USDC_ADDRESS (10 ^ 7))]).
Proof. vm_compute. repeat split; reflexivity. Qed.

(* ===================================================================== *)
(** ** The validation of the amount *)
(* ===================================================================== *)

(** C5.  An invocation of a kind other than auto-mint whose amount is
    missing, is not a number or is [<= 0], whichever of [parseFloat] and
    [Number] reads it, reaches no network (no contract read, no submission,
    no backend request) and ends failed, with [loading] false, a message
    and no success text; in [DashboardPage.js] and in [part_001], with or
    without a provider.  The validation of [DashboardPage.js] answers with
    one of its two messages when the amount is empty or [parseFloat] reads
    [NaN] or a value [<= 0]; the validation of [part_001] answers with its
    message when the amount is empty or [Number] reads a value [<= 0].
    What the validation of a copy lets through is refused by the
    conversion to base units, before any call, and the message is the
    reason of the conversion. *)
Theorem C5_invalid_amount_reaches_no_network :
  forall (kind amount collateral : string) (provider : option Provider)
         (st0 : Status),
    kind <> "auto-mint" ->
    invalidAmount amount ->
    let d := DashboardPage.ActionModal.handleConfirm kind provider amount in
    let p1 := Part001.ActionModal.handleConfirm kind provider amount collateral in
    (filter isNetwork (trace d st0) = []
     /\ failed (final d st0) = true
     /\ (exists msg, msg <> "" /\ final d st0 = mkStatus false (JStr msg) JNull)
     /\ (amount = ""
         \/ JsNumber.isNaN (JsNumber.parseFloat amount) = true
         \/ JsNumber.le0 (JsNumber.parseFloat amount) = true ->
         final d st0 = mkStatus false (JStr "Amount is required.") JNull
         \/ final d st0
            = mkStatus false (JStr "Please enter a valid amount greater than zero.")
                JNull))
    /\ (filter isNetwork (trace p1 st0) = []
        /\ failed (final p1 st0) = true
        /\ (exists msg, msg <> "" /\ final p1 st0 = mkStatus false (JStr msg) JNull)
        /\ (amount = "" \/ JsNumber.le0 (JsNumber.Number amount) = true ->
            final p1 st0 = mkStatus false (JStr "Enter a valid amount") JNull)).
Proof.
  intros kind amount collateral provider st0 Hk Hinv d p1. subst d p1.
  apply String.eqb_neq in Hk.
  assert (Hsome : forall msg, msg <> "" ->
            failed (mkStatus false (JStr msg) JNull) = true).
  { intros msg Hm. cbv [failed Workflow.error truthy].
    apply String.eqb_neq in Hm. now rewrite Hm. }
  split.
  - unfold DashboardPage.ActionModal.handleConfirm. unfold_monad.
    destruct provider as [p|]; cbn;
      [|repeat split; [eexists; split; [|reflexivity]; discriminate | now left]].
    rewrite Hk. cbn.
    destruct (String.eqb_spec amount "") as [-> | Ha]; cbn.
    { repeat split; [eexists; split; [|reflexivity]; discriminate | now left]. }
    destruct (JsNumber.isNaN (JsNumber.parseFloat amount)
              || JsNumber.le0 (JsNumber.parseFloat amount)) eqn:Hv; cbn.
    { repeat split; [eexists; split; [|reflexivity]; discriminate | now right]. }
    apply orb_false_elim in Hv as [Hnan Hle].
    destruct (Ethers.parseUnits amount (Some 6)) as [n | e] eqn:Hparse; cbn.
    + exfalso. destruct (parseUnits_reads _ _ _ Hparse) as [_ HN].
      destruct Hinv as [H | [H | [H | [H | H]]]]; rewrite ?HN in H; congruence.
    + destruct (conversion_error_messages _ _ _ Hparse) as (reason & Hr & -> & _).
      cbn. repeat split.
      * eexists. split; [|reflexivity]. discriminate.
      * intros [H | [H | H]]; congruence.
  - unfold Part001.ActionModal.handleConfirm. unfold_monad.
    destruct provider as [p|]; cbn;
      [|repeat split; eexists; split; [|reflexivity]; discriminate].
    rewrite Hk. cbn.
    destruct (String.eqb_spec amount "") as [-> | Ha]; cbn.
    { repeat split. eexists; split; [|reflexivity]; discriminate. }
    destruct (JsNumber.le0 (JsNumber.Number amount)) eqn:Hle; cbn.
    { repeat split. eexists; split; [|reflexivity]; discriminate. }
    destruct (Ethers.parseUnits amount (Some 6)) as [n | e] eqn:Hparse; cbn.
    + exfalso. destruct (parseUnits_reads _ _ _ Hparse) as [Hnan HN].
      rewrite HN in Hle.
      destruct Hinv as [H | [H | [H | [H | H]]]]; rewrite ?HN in H; congruence.
    + destruct (conversion_error_messages _ _ _ Hparse) as (reason & Hr & _ & -> & _).
      cbn. repeat split.
      * now apply Hsome.
      * now exists reason.
      * intros [H | H]; congruence.
Qed.

Lemma C5_witness :
  let d := DashboardPage.ActionModal.handleConfirm "deposit" (Some obliging) "0" in
  let p1 := Part001.ActionModal.handleConfirm "deposit" (Some obliging) "0"
              DashboardPage.USDC_ADDRESS in
  (trace d idle
   = [SetStatus (mkStatus false (JStr "Please enter a valid amount greater than zero.")
                   JNull)]
   /\ filter isNetwork (trace d idle) = []
   /\ failed (final d idle) = true)
  /\ (final p1 idle = mkStatus false (JStr "Enter a valid amount") JNull
      /\ filter isNetwork (trace p1 idle) = []
      /\ failed (final p1 idle) = true).
Proof.
  destruct (C5_invalid_amount_reaches_no_network "deposit" "0"
              DashboardPage.USDC_ADDRESS (Some obliging) idle)
    as [(HD1 & HD2 & _) (HP1 & HP2 & _ & HP4)].
  - discriminate.
  - right. right. left. reflexivity.
  - split; [split; [reflexivity | split; assumption]|].
    split; [apply HP4; right; reflexivity | split; assumption].
Defined.
